(** * Channel Event Logging (main/cel.c): a shallow embedding and its properties

    The development follows the layout of [main/cel.c]: string helpers,
    the event-name table and the configuration handlers, the event
    record builder, the linked-id tracker, the report filter, and the
    stasis callbacks.  Global containers of the C file become fields of
    one explicit state record that every function threads through. *)

From Stdlib Require Import ZArith String Ascii List Lia Bool.
From stdpp Require Import gmap strings list fin_maps pretty.

Local Open Scope string_scope.
Local Open Scope Z_scope.

(** ** C strings *)

(** A [const char *] that may be NULL is an [option string]; a pointer
    the code never leaves NULL is a [string]. *)

Definition nonempty (s : string) : bool :=
  match s with EmptyString => false | String _ _ => true end.

(** [ast_strlen_zero(s)]: the pointer is NULL or its first character
    is the terminator. *)
Definition ast_strlen_zero (s : option string) : bool :=
  match s with None => true | Some s => negb (nonempty s) end.

(** [S_OR(a, b)]: [a] unless [ast_strlen_zero(a)], then [b]. *)
Definition S_OR (a : option string) (b : string) : string :=
  match a with
  | Some s => if nonempty s then s else b
  | None => b
  end.

Definition char_code (c : ascii) : Z := Z.of_N (N_of_ascii c).

(** [tolower] in the C locale. *)
Definition tolower (c : ascii) : ascii :=
  let n := N_of_ascii c in
  if ((65 <=? n) && (n <=? 90))%N then ascii_of_N (n + 32) else c.

Fixpoint ast_str_to_lower (s : string) : string :=
  match s with
  | EmptyString => EmptyString
  | String c s' => String (tolower c) (ast_str_to_lower s')
  end.

Fixpoint strcmp (a b : string) : Z :=
  match a, b with
  | EmptyString, EmptyString => 0
  | EmptyString, String d _ => 0 - char_code d
  | String c _, EmptyString => char_code c
  | String c a', String d b' =>
      if (char_code c =? char_code d) then strcmp a' b'
      else char_code c - char_code d
  end.

Fixpoint strcasecmp (a b : string) : Z :=
  match a, b with
  | EmptyString, EmptyString => 0
  | EmptyString, String d _ => 0 - char_code (tolower d)
  | String c _, EmptyString => char_code (tolower c)
  | String c a', String d b' =>
      if (char_code (tolower c) =? char_code (tolower d)) then strcasecmp a' b'
      else char_code (tolower c) - char_code (tolower d)
  end.

(** The successive results of [strsep(&s, ",")] until it returns NULL:
    the fields between separators, empty fields included. *)
Fixpoint strsep_all (sep : ascii) (s : string) : list string :=
  match s with
  | EmptyString => [EmptyString]
  | String c s' =>
      if Ascii.eqb c sep then EmptyString :: strsep_all sep s'
      else match strsep_all sep s' with
           | [] => [String c EmptyString]
           | tok :: rest => String c tok :: rest
           end
  end.

Definition is_blank (c : ascii) : bool := (char_code c <? 33).

Fixpoint ast_skip_blanks (s : string) : string :=
  match s with
  | EmptyString => EmptyString
  | String c s' => if is_blank c then ast_skip_blanks s' else s
  end.

Fixpoint ast_trim_blanks (s : string) : string :=
  match s with
  | EmptyString => EmptyString
  | String c s' =>
      match ast_trim_blanks s' with
      | EmptyString => if is_blank c then EmptyString else String c EmptyString
      | t => String c t
      end
  end.

(** [ast_strip]: leading and trailing characters below 33 are removed. *)
Definition ast_strip (s : string) : string :=
  ast_trim_blanks (ast_skip_blanks s).

(** ** Event types *)

(** Modelled from the spec: [enum ast_cel_event_type] is declared in
    [asterisk/cel.h], which is not part of the sources at hand; the
    codes are the ones section 6 of the specification lists.  An event
    type is its integer code, as the C code uses it for shifts, array
    indices and the [-1] failure value. *)
Definition AST_CEL_ALL : Z := 0.
Definition AST_CEL_CHANNEL_START : Z := 1.
Definition AST_CEL_CHANNEL_END : Z := 2.
Definition AST_CEL_ANSWER : Z := 3.
Definition AST_CEL_HANGUP : Z := 4.
Definition AST_CEL_APP_START : Z := 5.
Definition AST_CEL_APP_END : Z := 6.
Definition AST_CEL_PARK_START : Z := 7.
Definition AST_CEL_PARK_END : Z := 8.
Definition AST_CEL_USER_DEFINED : Z := 9.
Definition AST_CEL_BRIDGE_ENTER : Z := 10.
Definition AST_CEL_BRIDGE_EXIT : Z := 11.
Definition AST_CEL_BLINDTRANSFER : Z := 12.
Definition AST_CEL_ATTENDEDTRANSFER : Z := 13.
Definition AST_CEL_PICKUP : Z := 14.
Definition AST_CEL_FORWARD : Z := 15.
Definition AST_CEL_LINKEDID_END : Z := 16.
Definition AST_CEL_LOCAL_OPTIMIZE : Z := 17.

Definition CEL_MAX_EVENT_IDS : nat := 64.

(** [cel_event_types[CEL_MAX_EVENT_IDS]]: the designated initialisers
    fill indices 0..17, the remaining slots are NULL. *)
Definition cel_event_types : list (option string) :=
  [ Some "ALL"; Some "CHAN_START"; Some "CHAN_END"; Some "ANSWER";
    Some "HANGUP"; Some "APP_START"; Some "APP_END"; Some "PARK_START";
    Some "PARK_END"; Some "USER_DEFINED"; Some "BRIDGE_ENTER";
    Some "BRIDGE_EXIT"; Some "BLINDTRANSFER"; Some "ATTENDEDTRANSFER";
    Some "PICKUP"; Some "FORWARD"; Some "LINKEDID_END";
    Some "LOCAL_OPTIMIZE" ] ++ repeat None 46.

(** The loop of [ast_cel_str_to_event_type], from index [i] on. *)
Fixpoint str_to_event_type_from (i : Z) (tbl : list (option string))
    (name : string) : Z :=
  match tbl with
  | [] => -1
  | None :: tbl' => str_to_event_type_from (i + 1) tbl' name
  | Some n :: tbl' =>
      if strcasecmp name n =? 0 then i
      else str_to_event_type_from (i + 1) tbl' name
  end.

Definition ast_cel_str_to_event_type (name : string) : Z :=
  str_to_event_type_from 0 cel_event_types name.

(** [S_OR(cel_event_types[type], "Unknown")].  The C code indexes the
    64-entry array without a bounds check: the function is for the
    codes 0..63, and a code outside them makes the C code read past the
    array.  Here such a code reads as a NULL slot; the properties that
    go through the name keep to the codes 0..63. *)
Definition ast_cel_get_type_name (type : Z) : string :=
  if type <? 0 then "Unknown"
  else S_OR (nth (Z.to_nat type) cel_event_types None) "Unknown".

(** ** Configuration *)

Record ast_cel_general_config := mk_general {
  enable : bool;
  date_format : string;
  events : Z;            (* int64_t bit mask, two's complement *)
  apps : gset string;    (* ast_str_container of lower-cased names *)
}.

Record cel_config := mk_cel_config {
  general : option ast_cel_general_config;
}.

Definition set_events (cfg : ast_cel_general_config) (e : Z) :=
  mk_general (enable cfg) (date_format cfg) e (apps cfg).

Definition set_apps (cfg : ast_cel_general_config) (a : gset string) :=
  mk_general (enable cfg) (date_format cfg) (events cfg) a.

(** The body of the [while] loop of [events_handler] over the fields
    that remain; the result is the return value and the configuration
    object as the handler leaves it. *)
Fixpoint events_handler_loop (toks : list string)
    (cfg : ast_cel_general_config) : Z * ast_cel_general_config :=
  match toks with
  | [] => (0, cfg)
  | tok :: rest =>
      let cur_event := ast_strip tok in
      if ast_strlen_zero (Some cur_event) then events_handler_loop rest cfg
      else
        let event_type := ast_cel_str_to_event_type cur_event in
        if event_type =? 0 then
          events_handler_loop rest (set_events cfg (-1))
        else if event_type =? -1 then
          (-1, cfg)
        else
          events_handler_loop rest
            (set_events cfg (Z.lor (events cfg) (Z.shiftl 1 event_type)))
  end.

Definition events_handler (value : string) (cfg : ast_cel_general_config)
    : Z * ast_cel_general_config :=
  events_handler_loop (strsep_all "," value) cfg.

Fixpoint apps_handler_loop (toks : list string)
    (cfg : ast_cel_general_config) : Z * ast_cel_general_config :=
  match toks with
  | [] => (0, cfg)
  | tok :: rest =>
      let cur_app := ast_strip tok in
      if ast_strlen_zero (Some cur_app) then apps_handler_loop rest cfg
      else
        let cur_app := ast_str_to_lower cur_app in
        apps_handler_loop rest (set_apps cfg ({[ cur_app ]} ∪ apps cfg))
  end.

Definition apps_handler (value : string) (cfg : ast_cel_general_config)
    : Z * ast_cel_general_config :=
  apps_handler_loop (strsep_all "," value) cfg.

(** [cel_pre_apply_config] on the pending configuration. *)
Definition cel_pre_apply_config (cfg : cel_config) : Z :=
  match general cfg with
  | None => -1
  | Some g =>
      if (size (apps g) =? 0)%nat then 0
      else if negb (Z.land (events g) (Z.shiftl 1 AST_CEL_APP_START) =? 0) then 0
      else if negb (Z.land (events g) (Z.shiftl 1 AST_CEL_APP_END) =? 0) then 0
      else -1
  end.

(** ** JSON values *)

#[warnings="-register-all"]
Inductive ast_json :=
| JInt (n : Z)
| JStr (s : string)
| JObj (fields : list (string * ast_json)).

Fixpoint json_assoc (fields : list (string * ast_json)) (key : string)
    : option ast_json :=
  match fields with
  | [] => None
  | (k, v) :: rest => if String.eqb k key then Some v else json_assoc rest key
  end.

(** The jansson accessors tolerate NULL and values of another kind. *)
Definition ast_json_object_get (j : option ast_json) (key : string)
    : option ast_json :=
  match j with
  | Some (JObj fields) => json_assoc fields key
  | _ => None
  end.

Definition ast_json_string_get (j : option ast_json) : option string :=
  match j with Some (JStr s) => Some s | _ => None end.

Definition ast_json_integer_get (j : option ast_json) : Z :=
  match j with Some (JInt n) => n | _ => 0 end.

(** ** What the headers and libraries outside this file provide *)

(** The flag masks and the state code come from [asterisk/channel.h],
    the record version from [asterisk/cel.h], the JSON printer from
    [main/json.c]; none of it is among the sources, so the development
    is parametric in them. *)
Class cel_platform := {
  AST_FLAG_DEAD : Z;
  AST_CHAN_TP_INTERNAL : Z;
  AST_STATE_UP : Z;
  AST_CEL_EVENT_RECORD_VERSION : Z;
  ast_json_dump_string : ast_json -> string;
}.

(** ** Channel snapshots *)

Record ast_channel_snapshot := mk_snapshot {
  name : string;
  uniqueid : string;
  linkedid : string;
  appl : string;
  data : string;
  chan_context : string;        (* snapshot->context *)
  exten : string;
  accountcode : string;
  peeraccount : string;
  userfield : string;
  caller_name : string;
  caller_number : string;
  caller_ani : string;
  caller_rdnis : string;
  caller_dnid : string;
  hangupsource : string;
  hangupcause : Z;
  amaflags : Z;
  state : Z;
  flags : Z;
  tech_properties : Z;
}.

Record ast_bridge_snapshot := mk_bridge_snapshot {
  bridge_uniqueid : string;     (* bridge snapshot->uniqueid *)
}.

(** [ast_test_flag(&s->flags, flag)]. *)
Definition ast_test_flag (fl : Z) (flag : Z) : Z := Z.land fl flag.

(** ** Events: the information elements of [ast_event_new] *)

Inductive ast_event_ie_type :=
| AST_EVENT_IE_CEL_EVENT_TYPE
| AST_EVENT_IE_CEL_EVENT_TIME
| AST_EVENT_IE_CEL_EVENT_TIME_USEC
| AST_EVENT_IE_CEL_USEREVENT_NAME
| AST_EVENT_IE_CEL_CIDNAME
| AST_EVENT_IE_CEL_CIDNUM
| AST_EVENT_IE_CEL_CIDANI
| AST_EVENT_IE_CEL_CIDRDNIS
| AST_EVENT_IE_CEL_CIDDNID
| AST_EVENT_IE_CEL_EXTEN
| AST_EVENT_IE_CEL_CONTEXT
| AST_EVENT_IE_CEL_CHANNAME
| AST_EVENT_IE_CEL_APPNAME
| AST_EVENT_IE_CEL_APPDATA
| AST_EVENT_IE_CEL_AMAFLAGS
| AST_EVENT_IE_CEL_ACCTCODE
| AST_EVENT_IE_CEL_PEERACCT
| AST_EVENT_IE_CEL_UNIQUEID
| AST_EVENT_IE_CEL_LINKEDID
| AST_EVENT_IE_CEL_USERFIELD
| AST_EVENT_IE_CEL_EXTRA
| AST_EVENT_IE_CEL_PEER.

#[global] Instance ast_event_ie_type_eq_dec : EqDecision ast_event_ie_type.
Proof. solve_decision. Defined.

Inductive ast_event_ie_payload :=
| AST_EVENT_IE_PLTYPE_UINT (v : Z)
| AST_EVENT_IE_PLTYPE_STR (s : string).

(** Modelled from the spec: [ast_event_new] and the [ast_event_get_ie_*]
    accessors live in [main/event.c], which is not among the sources;
    the specification treats the event as a typed field-bag, so an
    event is the list of its information elements in the order given
    to [ast_event_new], and an accessor reads the first element of the
    wanted type and kind. *)
Definition ast_event := list (ast_event_ie_type * ast_event_ie_payload).

Fixpoint ast_event_get_ie (e : ast_event) (ie : ast_event_ie_type)
    : option ast_event_ie_payload :=
  match e with
  | [] => None
  | (t, p) :: rest => if decide (t = ie) then Some p else ast_event_get_ie rest ie
  end.

Definition ast_event_get_ie_uint (e : ast_event) (ie : ast_event_ie_type) : Z :=
  match ast_event_get_ie e ie with
  | Some (AST_EVENT_IE_PLTYPE_UINT v) => v
  | _ => 0
  end.

Definition ast_event_get_ie_str (e : ast_event) (ie : ast_event_ie_type)
    : option string :=
  match ast_event_get_ie e ie with
  | Some (AST_EVENT_IE_PLTYPE_STR s) => Some s
  | _ => None
  end.

Record timeval := mk_timeval { tv_sec : Z; tv_usec : Z }.

Record ast_cel_event_record := mk_record {
  version : Z;
  event_type : Z;
  event_time : timeval;
  event_name : string;
  user_defined_name : option string;
  caller_id_name : string;
  caller_id_num : string;
  caller_id_ani : string;
  caller_id_rdnis : string;
  caller_id_dnid : string;
  extension : string;
  rec_context : string;          (* r->context *)
  channel_name : string;
  application_name : string;
  application_data : string;
  account_code : string;
  peer_account : string;
  unique_id : string;
  linked_id : string;
  amaflag : Z;
  user_field : string;
  peer : string;
  extra : string;
}.

Section Builder.
Context `{cel_platform}.

(** [ast_cel_create_event]; [eventtime] is the result of [ast_tvnow()]. *)
Definition ast_cel_create_event (eventtime : timeval)
    (snapshot : ast_channel_snapshot) (event_type : Z)
    (userdefevname : option string) (extra : option ast_json) : ast_event :=
  let extra_txt := ast_json_dump_string <$> extra in
  [ (AST_EVENT_IE_CEL_EVENT_TYPE, AST_EVENT_IE_PLTYPE_UINT event_type);
    (AST_EVENT_IE_CEL_EVENT_TIME, AST_EVENT_IE_PLTYPE_UINT (tv_sec eventtime));
    (AST_EVENT_IE_CEL_EVENT_TIME_USEC, AST_EVENT_IE_PLTYPE_UINT (tv_usec eventtime));
    (AST_EVENT_IE_CEL_USEREVENT_NAME, AST_EVENT_IE_PLTYPE_STR (S_OR userdefevname ""));
    (AST_EVENT_IE_CEL_CIDNAME, AST_EVENT_IE_PLTYPE_STR (caller_name snapshot));
    (AST_EVENT_IE_CEL_CIDNUM, AST_EVENT_IE_PLTYPE_STR (caller_number snapshot));
    (AST_EVENT_IE_CEL_CIDANI, AST_EVENT_IE_PLTYPE_STR (caller_ani snapshot));
    (AST_EVENT_IE_CEL_CIDRDNIS, AST_EVENT_IE_PLTYPE_STR (caller_rdnis snapshot));
    (AST_EVENT_IE_CEL_CIDDNID, AST_EVENT_IE_PLTYPE_STR (caller_dnid snapshot));
    (AST_EVENT_IE_CEL_EXTEN, AST_EVENT_IE_PLTYPE_STR (exten snapshot));
    (AST_EVENT_IE_CEL_CONTEXT, AST_EVENT_IE_PLTYPE_STR (chan_context snapshot));
    (AST_EVENT_IE_CEL_CHANNAME, AST_EVENT_IE_PLTYPE_STR (name snapshot));
    (AST_EVENT_IE_CEL_APPNAME, AST_EVENT_IE_PLTYPE_STR (appl snapshot));
    (AST_EVENT_IE_CEL_APPDATA, AST_EVENT_IE_PLTYPE_STR (data snapshot));
    (AST_EVENT_IE_CEL_AMAFLAGS, AST_EVENT_IE_PLTYPE_UINT (amaflags snapshot));
    (AST_EVENT_IE_CEL_ACCTCODE, AST_EVENT_IE_PLTYPE_STR (accountcode snapshot));
    (AST_EVENT_IE_CEL_PEERACCT, AST_EVENT_IE_PLTYPE_STR (peeraccount snapshot));
    (AST_EVENT_IE_CEL_UNIQUEID, AST_EVENT_IE_PLTYPE_STR (uniqueid snapshot));
    (AST_EVENT_IE_CEL_LINKEDID, AST_EVENT_IE_PLTYPE_STR (linkedid snapshot));
    (AST_EVENT_IE_CEL_USERFIELD, AST_EVENT_IE_PLTYPE_STR (userfield snapshot));
    (AST_EVENT_IE_CEL_EXTRA, AST_EVENT_IE_PLTYPE_STR (S_OR extra_txt ""));
    (AST_EVENT_IE_CEL_PEER, AST_EVENT_IE_PLTYPE_STR "") ].

(** [ast_cel_fill_record]: the return value and the record as the
    function leaves it. *)
Definition ast_cel_fill_record (e : ast_event) (r : ast_cel_event_record)
    : Z * ast_cel_event_record :=
  if negb (version r =? AST_CEL_EVENT_RECORD_VERSION) then (-1, r)
  else
    let r_event_type := ast_event_get_ie_uint e AST_EVENT_IE_CEL_EVENT_TYPE in
    (0, {|
      version := version r;
      event_type := r_event_type;
      event_time :=
        {| tv_sec := ast_event_get_ie_uint e AST_EVENT_IE_CEL_EVENT_TIME;
           tv_usec := ast_event_get_ie_uint e AST_EVENT_IE_CEL_EVENT_TIME_USEC |};
      event_name := ast_cel_get_type_name r_event_type;
      user_defined_name :=
        if r_event_type =? AST_CEL_USER_DEFINED
        then ast_event_get_ie_str e AST_EVENT_IE_CEL_USEREVENT_NAME
        else Some "";
      caller_id_name := S_OR (ast_event_get_ie_str e AST_EVENT_IE_CEL_CIDNAME) "";
      caller_id_num := S_OR (ast_event_get_ie_str e AST_EVENT_IE_CEL_CIDNUM) "";
      caller_id_ani := S_OR (ast_event_get_ie_str e AST_EVENT_IE_CEL_CIDANI) "";
      caller_id_rdnis := S_OR (ast_event_get_ie_str e AST_EVENT_IE_CEL_CIDRDNIS) "";
      caller_id_dnid := S_OR (ast_event_get_ie_str e AST_EVENT_IE_CEL_CIDDNID) "";
      extension := S_OR (ast_event_get_ie_str e AST_EVENT_IE_CEL_EXTEN) "";
      rec_context := S_OR (ast_event_get_ie_str e AST_EVENT_IE_CEL_CONTEXT) "";
      channel_name := S_OR (ast_event_get_ie_str e AST_EVENT_IE_CEL_CHANNAME) "";
      application_name := S_OR (ast_event_get_ie_str e AST_EVENT_IE_CEL_APPNAME) "";
      application_data := S_OR (ast_event_get_ie_str e AST_EVENT_IE_CEL_APPDATA) "";
      account_code := S_OR (ast_event_get_ie_str e AST_EVENT_IE_CEL_ACCTCODE) "";
      peer_account := S_OR (ast_event_get_ie_str e AST_EVENT_IE_CEL_ACCTCODE) "";
      unique_id := S_OR (ast_event_get_ie_str e AST_EVENT_IE_CEL_UNIQUEID) "";
      linked_id := S_OR (ast_event_get_ie_str e AST_EVENT_IE_CEL_LINKEDID) "";
      amaflag := ast_event_get_ie_uint e AST_EVENT_IE_CEL_AMAFLAGS;
      user_field := S_OR (ast_event_get_ie_str e AST_EVENT_IE_CEL_USERFIELD) "";
      peer := S_OR (ast_event_get_ie_str e AST_EVENT_IE_CEL_PEER) "";
      extra := S_OR (ast_event_get_ie_str e AST_EVENT_IE_CEL_EXTRA) "";
    |}).

(** The record [ast_cel_fabricate_channel_from_event] hands to
    [ast_cel_fill_record]: only [.version] is initialised. *)
Definition fresh_record : ast_cel_event_record :=
  mk_record AST_CEL_EVENT_RECORD_VERSION 0 (mk_timeval 0 0)
    "" None "" "" "" "" "" "" "" "" "" "" "" "" "" "" 0 "" "" "".

End Builder.

(** ** Messages of the stasis bus *)

(** [struct ast_multi_channel_blob]: snapshots by role and a JSON blob. *)
Record ast_multi_channel_blob := mk_multi_channel_blob {
  blob_channels : list (string * ast_channel_snapshot);
  blob_json : option ast_json;
}.

Fixpoint ast_multi_channel_blob_get_channel_in
    (l : list (string * ast_channel_snapshot)) (role : string)
    : option ast_channel_snapshot :=
  match l with
  | [] => None
  | (r, s) :: rest =>
      if String.eqb r role then Some s
      else ast_multi_channel_blob_get_channel_in rest role
  end.

Definition ast_multi_channel_blob_get_channel (blob : ast_multi_channel_blob)
    (role : string) : option ast_channel_snapshot :=
  ast_multi_channel_blob_get_channel_in (blob_channels blob) role.

Definition ast_multi_channel_blob_get_json (blob : ast_multi_channel_blob)
    : option ast_json := blob_json blob.

(** [struct stasis_cache_update] as [cel_snapshot_update_cb] reads it:
    whether [update->type] is the channel snapshot type, and the data
    of the two messages (NULL when the message is absent). *)
Record stasis_cache_update := mk_cache_update {
  update_is_channel_snapshot : bool;
  old_snapshot : option ast_channel_snapshot;
  new_snapshot : option ast_channel_snapshot;
}.

(** [struct ast_bridge_blob] of bridge enter and leave messages. *)
Record ast_bridge_blob := mk_bridge_blob {
  bridge : ast_bridge_snapshot;
  channel : ast_channel_snapshot;
  blob : option ast_json;
}.

(** [struct ast_channel_blob] of the CEL-internal topic. *)
Record ast_channel_blob := mk_channel_blob {
  snapshot : ast_channel_snapshot;
  chan_blob : option ast_json;    (* obj->blob *)
}.

Inductive ast_parked_call_event_type :=
| PARKED_CALL
| PARKED_CALL_TIMEOUT
| PARKED_CALL_GIVEUP
| PARKED_CALL_UNPARKED
| PARKED_CALL_FAILED
| PARKED_CALL_SWAP.

Record ast_parked_call_payload := mk_parked_call_payload {
  parkee : ast_channel_snapshot;
  park_event_type : ast_parked_call_event_type;   (* payload->event_type *)
  parker_dial_string : string;
  parkinglot : string;
}.

(** ** The state of the engine *)

(** A backend callback is a function pointer; it is identified by a
    number here. *)
Definition ast_cel_backend_cb := nat.

(** The file-level variables of [cel.c] that the modelled functions
    read or write.

    - [cel_configs] is the global configuration object.
    - [linkedids] maps each linked id in the container to the astobj2
      reference count of its object (see [cel_linkedid_ref]).
    - [tvnow] is what [ast_tvnow()] returns during the call.
    - [fanout] lists, oldest first, every event handed to the backends
      by [ao2_callback(cel_backends, ..., cel_backend_send_cb, ev)],
      with the registry it was handed to. *)
Record cel_state := mk_state {
  cel_configs : option cel_config;
  linkedids : gmap string Z;
  cel_dialstatus_store : gmap string ast_multi_channel_blob;
  cel_backends : gmap string ast_cel_backend_cb;
  tvnow : timeval;
  fanout : list (ast_event * gmap string ast_cel_backend_cb);
}.

Definition set_linkedids (st : cel_state) (l : gmap string Z) : cel_state :=
  mk_state (cel_configs st) l (cel_dialstatus_store st) (cel_backends st)
    (tvnow st) (fanout st).

Definition set_dialstatus_store (st : cel_state)
    (d : gmap string ast_multi_channel_blob) : cel_state :=
  mk_state (cel_configs st) (linkedids st) d (cel_backends st)
    (tvnow st) (fanout st).

Definition set_backends (st : cel_state)
    (b : gmap string ast_cel_backend_cb) : cel_state :=
  mk_state (cel_configs st) (linkedids st) (cel_dialstatus_store st) b
    (tvnow st) (fanout st).

Definition set_configs (st : cel_state) (c : option cel_config) : cel_state :=
  mk_state c (linkedids st) (cel_dialstatus_store st) (cel_backends st)
    (tvnow st) (fanout st).

(** [ao2_callback(cel_backends, OBJ_MULTIPLE | OBJ_NODATA,
    cel_backend_send_cb, ev)]. *)
Definition distribute (ev : ast_event) (st : cel_state) : cel_state :=
  mk_state (cel_configs st) (linkedids st) (cel_dialstatus_store st)
    (cel_backends st) (tvnow st) (fanout st ++ [(ev, cel_backends st)]).

(** The general section of the current configuration, when both
    [cfg] and [cfg->general] are non-NULL. *)
Definition current_general (st : cel_state) : option ast_cel_general_config :=
  match cel_configs st with
  | Some cfg => general cfg
  | None => None
  end.

(** Conversion of an [int64_t] to [int]. *)
Definition int_of_int64 (z : Z) : Z := (z + 2 ^ 31) mod 2 ^ 32 - 2 ^ 31.

Definition ast_cel_check_enabled (st : cel_state) : bool :=
  match current_general st with
  | Some g => enable g
  | None => false
  end.

(** [ast_cel_track_event]: the masked [int64_t] returned as [int]. *)
Definition ast_cel_track_event (st : cel_state) (et : Z) : Z :=
  match current_general st with
  | Some g => int_of_int64 (Z.land (events g) (Z.shiftl 1 et))
  | None => 0
  end.

Definition cel_track_app (st : cel_state) (const_app : string) : Z :=
  match current_general st with
  | Some g =>
      let app_lower := ast_str_to_lower const_app in
      if bool_decide (app_lower ∈ apps g) then 1 else 0
  | None => 0
  end.

(** ** The linked-id tracker *)

(** Modelled from the spec: the reference counting of astobj2
    ([ao2_alloc], [ao2_ref], [ao2_find], [ao2_link] in
    [main/astobj2.c]) is not among the sources.  Section 4.9 of the
    specification and the comments of [cel_linkedid_ref] and
    [check_retire_linkedid] give it: a fresh object holds one
    reference, linking it into a container adds one and unlinking
    drops it, a find returns the object with one reference more, and
    [ao2_ref(o, delta)] changes the count and returns the count from
    before the change.  An object linked in [linkedids] is represented
    by the count it holds while no function is running. *)
Definition ao2_alloc : Z := 1.

Definition ao2_ref (refs : Z) (delta : Z) : Z * Z := (refs, refs + delta).

(** [cel_linkedid_ref].  A fresh object keeps the reference of the
    allocation and the one of the link; when the id is found, the
    reference [ao2_find] returned is kept. *)
Definition cel_linkedid_ref (linkedid : string) (st : cel_state)
    : Z * cel_state :=
  if ast_strlen_zero (Some linkedid) then (-1, st)
  else
    match linkedids st !! linkedid with
    | None =>
        let lid := ao2_alloc in
        let lid := lid + 1 in               (* ao2_link *)
        (0, set_linkedids st (<[linkedid := lid]> (linkedids st)))
    | Some refs =>
        let lid := refs + 1 in              (* ao2_find *)
        (0, set_linkedids st (<[linkedid := lid]> (linkedids st)))
    end.

Section Engine.
Context `{cel_platform}.

(** [cel_report_event].  Failed allocations ([ast_event_new]
    returning NULL) are not modelled. *)
Definition cel_report_event (snapshot : ast_channel_snapshot) (event_type : Z)
    (userdefevname : option string) (extra : option ast_json)
    (st : cel_state) : Z * cel_state :=
  let linkedid := linkedid snapshot in
  match current_general st with
  | None => (0, st)
  | Some g =>
      if negb (enable g) then (0, st)
      else
        let '(res, st) :=
          if negb (ast_cel_track_event st AST_CEL_LINKEDID_END =? 0)
             && (event_type =? AST_CEL_CHANNEL_START)
          then cel_linkedid_ref linkedid st
          else (0, st) in
        if negb (res =? 0) then (-1, st)
        else if ast_cel_track_event st event_type =? 0 then (0, st)
        else if ((event_type =? AST_CEL_APP_START) || (event_type =? AST_CEL_APP_END))
                && (cel_track_app st (appl snapshot) =? 0) then (0, st)
        else
          let ev := ast_cel_create_event (tvnow st) snapshot event_type
                      userdefevname extra in
          (0, distribute ev st)
  end.

(** [check_retire_linkedid].  [lid] follows the reference count of
    the object through the function. *)
Definition check_retire_linkedid (snapshot : ast_channel_snapshot)
    (st : cel_state) : cel_state :=
  if ast_strlen_zero (Some (linkedid snapshot))
     || (ast_cel_track_event st AST_CEL_LINKEDID_END =? 0)
  then st
  else
    match linkedids st !! linkedid snapshot with
    | None => st
    | Some refs =>
        let lid := refs + 1 in              (* ao2_find *)
        let '(before, lid) := ao2_ref lid (-1) in
        if before =? 3 then
          (* ast_str_container_remove drops the reference of the link;
             after the report the last ao2_ref(lid, -1) frees the
             object *)
          let st :=
            set_linkedids st (delete (linkedid snapshot) (linkedids st)) in
          snd (cel_report_event snapshot AST_CEL_LINKEDID_END None None st)
        else
          let '(_, lid) := ao2_ref lid (-1) in
          set_linkedids st (<[linkedid snapshot := lid]> (linkedids st))
    end.

End Engine.

(** ** The keyed containers *)

(** Modelled from the spec: [cel_dialstatus_store] and [cel_backends]
    are astobj2 hash containers, and [ao2_link] and [ao2_find] are
    defined in [main/astobj2.c], which is not among the sources.  Both
    containers are allocated the same way, with a hash and a comparison
    on the key.  The specification gives the dial-status store as a
    mapping from caller uniqueid to the last-seen envelope, with
    insert-replace on arrival and find-and-remove on lookup (4.10), and
    the registry as entries with unique names inserted under the name
    key (3, 4.13); so a container is a finite map, linking inserts
    under the key, and a find with [OBJ_UNLINK] returns the entry and
    removes it. *)
Definition ao2_link {V} (c : gmap string V) (key : string) (obj : V)
    : gmap string V := <[key := obj]> c.

Definition ao2_find_unlink {V} (c : gmap string V) (key : string)
    : option V * gmap string V := (c !! key, delete key c).

Definition get_caller_uniqueid (blob : ast_multi_channel_blob)
    : option string :=
  match ast_multi_channel_blob_get_channel blob "caller" with
  | None => None
  | Some caller => Some (uniqueid caller)
  end.

Definition get_dialstatus_blob (uniqueid : string) (st : cel_state)
    : option ast_multi_channel_blob * cel_state :=
  let '(found, store) := ao2_find_unlink (cel_dialstatus_store st) uniqueid in
  (found, set_dialstatus_store st store).

Definition get_blob_variable (blob : ast_multi_channel_blob)
    (varname : string) : option string :=
  match ast_multi_channel_blob_get_json blob with
  | None => None
  | Some json =>
      match ast_json_object_get (Some json) varname with
      | None => None
      | Some v => ast_json_string_get (Some v)
      end
  end.

(** [save_dialstatus]; the key is the one [dialstatus_hash] computes.
    The only caller has checked that the caller snapshot exists. *)
Definition save_dialstatus (blob : ast_multi_channel_blob) (st : cel_state)
    : cel_state :=
  match get_caller_uniqueid blob with
  | Some key =>
      set_dialstatus_store st (ao2_link (cel_dialstatus_store st) key blob)
  | None => st
  end.

(** ** The backend registry *)

Definition ast_cel_backend_unregister (name : string) (st : cel_state)
    : Z * cel_state :=
  let '(backend, backends) := ao2_find_unlink (cel_backends st) name in
  match backend with
  | None => (-1, st)
  | Some _ => (0, set_backends st backends)
  end.

Definition ast_cel_backend_register (name : option string)
    (backend_callback : ast_cel_backend_cb) (st : cel_state) : Z * cel_state :=
  if ast_strlen_zero name then (-1, st)
  else
    (0, set_backends st
          (ao2_link (cel_backends st) (default "" name) backend_callback)).

(** Modelled from the spec: [aco_process_config] belongs to the
    configuration framework ([main/config_options.c]), which is not
    among the sources.  A reload runs the pre-apply callback on the
    pending configuration; a rejected configuration is dropped and the
    previous one remains in effect (section 7), otherwise the pending
    one replaces it. *)
Definition aco_process_config (pending : cel_config) (st : cel_state)
    : Z * cel_state :=
  if cel_pre_apply_config pending =? 0 then (0, set_configs st (Some pending))
  else (-1, st).

(** ** The stasis callbacks *)

Section Callbacks.
Context `{cel_platform}.

(** The JSON object [ast_json_pack] builds for the hangup event. *)
Definition hangup_extra (snapshot : ast_channel_snapshot) (dialstatus : string)
    : ast_json :=
  JObj [ ("hangupcause", JInt (hangupcause snapshot));
         ("hangupsource", JStr (hangupsource snapshot));
         ("dialstatus", JStr dialstatus) ].

(** [cel_channel_state_change].  The cache never publishes an update
    without any snapshot; the model leaves the state alone there. *)
Definition cel_channel_state_change
    (old_snapshot new_snapshot : option ast_channel_snapshot)
    (st : cel_state) : cel_state :=
  match new_snapshot, old_snapshot with
  | None, Some old =>
      let st := snd (cel_report_event old AST_CEL_CHANNEL_END None None st) in
      check_retire_linkedid old st
  | None, None => st
  | Some new, None =>
      snd (cel_report_event new AST_CEL_CHANNEL_START None None st)
  | Some new, Some old =>
      let was_hungup := negb (ast_test_flag (flags old) AST_FLAG_DEAD =? 0) in
      let is_hungup := negb (ast_test_flag (flags new) AST_FLAG_DEAD =? 0) in
      if negb was_hungup && is_hungup then
        let '(blob, st) := get_dialstatus_blob (uniqueid new) st in
        let dialstatus :=
          match blob with
          | Some b =>
              if negb (ast_strlen_zero (get_blob_variable b "dialstatus"))
              then default "" (get_blob_variable b "dialstatus")
              else ""
          | None => ""
          end in
        let extra := hangup_extra new dialstatus in
        snd (cel_report_event new AST_CEL_HANGUP None (Some extra) st)
      else if negb (state old =? state new) && (state new =? AST_STATE_UP) then
        snd (cel_report_event new AST_CEL_ANSWER None None st)
      else st
  end.

(** [cel_channel_linkedid_change]; the two [ast_assert] lines compile
    to nothing outside developer builds. *)
Definition cel_channel_linkedid_change
    (old_snapshot new_snapshot : option ast_channel_snapshot)
    (st : cel_state) : cel_state :=
  match old_snapshot, new_snapshot with
  | Some old, Some new =>
      if negb (strcmp (linkedid old) (linkedid new) =? 0) then
        let st := snd (cel_linkedid_ref (linkedid new) st) in
        check_retire_linkedid old st
      else st
  | _, _ => st
  end.

Definition cel_channel_app_change
    (old_snapshot new_snapshot : option ast_channel_snapshot)
    (st : cel_state) : cel_state :=
  let same :=
    match new_snapshot, old_snapshot with
    | Some new, Some old => strcmp (appl old) (appl new) =? 0
    | _, _ => false
    end in
  if same then st
  else
    let st :=
      match old_snapshot with
      | Some old =>
          if negb (ast_strlen_zero (Some (appl old)))
          then snd (cel_report_event old AST_CEL_APP_END None None st)
          else st
      | None => st
      end in
    match new_snapshot with
    | Some new =>
        if negb (ast_strlen_zero (Some (appl new)))
        then snd (cel_report_event new AST_CEL_APP_START None None st)
        else st
    | None => st
    end.

Definition cel_channel_snapshot_monitor : Type :=
  option ast_channel_snapshot -> option ast_channel_snapshot ->
  cel_state -> cel_state.

Definition cel_channel_monitors : list cel_channel_snapshot_monitor :=
  [ cel_channel_app_change;
    cel_channel_state_change;
    cel_channel_linkedid_change ].

Definition cel_filter_channel_snapshot
    (snapshot : option ast_channel_snapshot) : Z :=
  match snapshot with
  | None => 0
  | Some s => Z.land (tech_properties s) AST_CHAN_TP_INTERNAL
  end.

Definition cel_snapshot_update_cb (update : stasis_cache_update)
    (st : cel_state) : cel_state :=
  if update_is_channel_snapshot update then
    let old_snapshot := old_snapshot update in
    let new_snapshot := new_snapshot update in
    if negb (cel_filter_channel_snapshot old_snapshot =? 0)
       || negb (cel_filter_channel_snapshot new_snapshot =? 0)
    then st
    else
      fold_left (fun st monitor => monitor old_snapshot new_snapshot st)
        cel_channel_monitors st
  else st.

Definition cel_bridge_enter_cb (blob : ast_bridge_blob) (st : cel_state)
    : cel_state :=
  let chan_snapshot := channel blob in
  if negb (cel_filter_channel_snapshot (Some chan_snapshot) =? 0) then st
  else
    let extra := JObj [ ("bridge_id", JStr (bridge_uniqueid (bridge blob))) ] in
    snd (cel_report_event chan_snapshot AST_CEL_BRIDGE_ENTER None (Some extra) st).

Definition cel_bridge_leave_cb (blob : ast_bridge_blob) (st : cel_state)
    : cel_state :=
  let chan_snapshot := channel blob in
  if negb (cel_filter_channel_snapshot (Some chan_snapshot) =? 0) then st
  else
    let extra := JObj [ ("bridge_id", JStr (bridge_uniqueid (bridge blob))) ] in
    snd (cel_report_event chan_snapshot AST_CEL_BRIDGE_EXIT None (Some extra) st).

Definition cel_parking_cb (parked_payload : ast_parked_call_payload)
    (st : cel_state) : cel_state :=
  let park_end reason :=
    let extra := JObj [ ("reason", JStr reason) ] in
    snd (cel_report_event (parkee parked_payload) AST_CEL_PARK_END None
           (Some extra) st) in
  match park_event_type parked_payload with
  | PARKED_CALL =>
      let extra :=
        JObj [ ("parker_dial_string", JStr (parker_dial_string parked_payload));
               ("parking_lot", JStr (parkinglot parked_payload)) ] in
      snd (cel_report_event (parkee parked_payload) AST_CEL_PARK_START None
             (Some extra) st)
  | PARKED_CALL_TIMEOUT => park_end "ParkedCallTimeOut"
  | PARKED_CALL_GIVEUP => park_end "ParkedCallGiveUp"
  | PARKED_CALL_UNPARKED => park_end "ParkedCallUnparked"
  | PARKED_CALL_FAILED => park_end "ParkedCallFailed"
  | PARKED_CALL_SWAP => park_end "ParkedCallSwap"
  end.

Definition cel_dial_cb (blob : ast_multi_channel_blob) (st : cel_state)
    : cel_state :=
  if negb (cel_filter_channel_snapshot
             (ast_multi_channel_blob_get_channel blob "caller") =? 0)
  then st
  else
    match get_caller_uniqueid blob with
    | None => st
    | Some _ =>
        let after_forward :=
          if negb (ast_strlen_zero (get_blob_variable blob "forward")) then
            match ast_multi_channel_blob_get_channel blob "caller" with
            | None => None
            | Some caller =>
                let extra :=
                  JObj [ ("forward",
                          JStr (default "" (get_blob_variable blob "forward"))) ] in
                Some (snd (cel_report_event caller AST_CEL_FORWARD None
                             (Some extra) st))
            end
          else Some st in
        match after_forward with
        | None => st
        | Some st =>
            if ast_strlen_zero (get_blob_variable blob "dialstatus") then st
            else save_dialstatus blob st
        end
    end.

(** The event type [cel_generic_cb] switches on: the JSON integer
    ([intmax_t]) converted to [int]. *)
Definition cel_generic_event_type (obj : ast_channel_blob) : Z :=
  int_of_int64
    (ast_json_integer_get (ast_json_object_get (chan_blob obj) "event_type")).

(** [cel_generic_cb], as far as the state goes.  The default branch
    only writes a log line; the name in that line is read with
    [ast_cel_get_type_name], see [cel_generic_cb_in_bounds]. *)
Definition cel_generic_cb (obj : ast_channel_blob) (st : cel_state)
    : cel_state :=
  let event_type := cel_generic_event_type obj in
  let event_details := ast_json_object_get (chan_blob obj) "event_details" in
  if event_type =? AST_CEL_USER_DEFINED then
    let event := ast_json_string_get (ast_json_object_get event_details "event") in
    let extra := ast_json_object_get event_details "extra" in
    snd (cel_report_event (snapshot obj) event_type event extra st)
  else st.

(** Whether the call reads the name table inside its 64 entries: the
    default branch looks the event type up for its log line, so a type
    outside 0..63 there reads past the array. *)
Definition cel_generic_cb_in_bounds (obj : ast_channel_blob) : bool :=
  let event_type := cel_generic_event_type obj in
  (event_type =? AST_CEL_USER_DEFINED)
  || ((0 <=? event_type) && (event_type <? 64)).

Definition cel_pickup_cb (obj : ast_multi_channel_blob) (st : cel_state)
    : cel_state :=
  match ast_multi_channel_blob_get_channel obj "channel",
        ast_multi_channel_blob_get_channel obj "target" with
  | Some channel, Some target =>
      let extra := JObj [ ("pickup_channel", JStr (name channel)) ] in
      snd (cel_report_event target AST_CEL_PICKUP None (Some extra) st)
  | _, _ => st
  end.

Definition cel_local_cb (obj : ast_multi_channel_blob) (st : cel_state)
    : cel_state :=
  match ast_multi_channel_blob_get_channel obj "1",
        ast_multi_channel_blob_get_channel obj "2" with
  | Some localone, Some localtwo =>
      let extra := JObj [ ("local_two", JStr (name localtwo)) ] in
      snd (cel_report_event localone AST_CEL_LOCAL_OPTIMIZE None (Some extra) st)
  | _, _ => st
  end.

End Callbacks.

(** ** Notions used in the statements *)

Section Runs.
Context `{cel_platform}.

(** The two operations on the tracker: an acquisition for a channel
    (from [cel_report_event] on [CHANNEL_START] or from a linked-id
    change) and the retirement check of a channel. *)
Inductive tracker_op :=
| Acquire (s : ast_channel_snapshot)
| Retire (s : ast_channel_snapshot).

Definition op_snapshot (op : tracker_op) : ast_channel_snapshot :=
  match op with Acquire s => s | Retire s => s end.

Definition run_op (op : tracker_op) (st : cel_state) : cel_state :=
  match op with
  | Acquire s => snd (cel_linkedid_ref (linkedid s) st)
  | Retire s => check_retire_linkedid s st
  end.

Definition run_ops (ops : list tracker_op) (st : cel_state) : cel_state :=
  fold_left (fun st op => run_op op st) ops st.

(** Acquisitions minus retirement checks: the number of channels that
    are live after the operations, counted from the channels live
    before them. *)
Fixpoint balance (ops : list tracker_op) : Z :=
  match ops with
  | [] => 0
  | Acquire _ :: rest => balance rest + 1
  | Retire _ :: rest => balance rest - 1
  end.

(** The dial status the hangup handler reads from a stored envelope. *)
Definition stored_dialstatus (found : option ast_multi_channel_blob) : string :=
  match found with
  | Some b => S_OR (get_blob_variable b "dialstatus") ""
  | None => ""
  end.

(** The entry [fanout] gains when [cel_report_event] passes an event
    on to the backends. *)
Definition reported (st : cel_state) (snapshot : ast_channel_snapshot)
    (event_type : Z) (userdefevname : option string)
    (extra : option ast_json) : ast_event * gmap string ast_cel_backend_cb :=
  (ast_cel_create_event (tvnow st) snapshot event_type userdefevname extra,
   cel_backends st).

End Runs.

(** ** A platform for the examples *)

Definition dquote : string := String (ascii_of_nat 34) EmptyString.

(** A compact printer, enough to run the model on concrete inputs. *)
Fixpoint json_compact (j : ast_json) : string :=
  match j with
  | JInt n => pretty n
  | JStr s => dquote +:+ s +:+ dquote
  | JObj fields =>
      let fix members (l : list (string * ast_json)) : string :=
        match l with
        | [] => ""
        | (k, v) :: rest =>
            dquote +:+ k +:+ dquote +:+ ":" +:+ json_compact v
            +:+ match rest with [] => "" | _ => "," +:+ members rest end
        end in
      "{" +:+ members fields +:+ "}"
  end.

Definition example_platform : cel_platform := {|
  AST_FLAG_DEAD := Z.shiftl 1 24;
  AST_CHAN_TP_INTERNAL := Z.shiftl 1 2;
  AST_STATE_UP := 6;
  AST_CEL_EVENT_RECORD_VERSION := 2;
  ast_json_dump_string := json_compact;
|}.

Definition example_snapshot (uid lid : string) : ast_channel_snapshot :=
  mk_snapshot ("SIP/alice-" +:+ uid) uid lid "" "" "default" "100"
    "acct" "peer" "" "Alice" "100" "" "" "" "" 16 3 0 0 0.

Definition with_appl (s : ast_channel_snapshot) (a : string)
    : ast_channel_snapshot :=
  mk_snapshot (name s) (uniqueid s) (linkedid s) a (data s) (chan_context s)
    (exten s) (accountcode s) (peeraccount s) (userfield s) (caller_name s)
    (caller_number s) (caller_ani s) (caller_rdnis s) (caller_dnid s)
    (hangupsource s) (hangupcause s) (amaflags s) (state s) (flags s)
    (tech_properties s).

Definition with_flags (s : ast_channel_snapshot) (f : Z)
    : ast_channel_snapshot :=
  mk_snapshot (name s) (uniqueid s) (linkedid s) (appl s) (data s)
    (chan_context s) (exten s) (accountcode s) (peeraccount s) (userfield s)
    (caller_name s) (caller_number s) (caller_ani s) (caller_rdnis s)
    (caller_dnid s) (hangupsource s) (hangupcause s) (amaflags s) (state s) f
    (tech_properties s).

Definition with_tech_properties (s : ast_channel_snapshot) (t : Z)
    : ast_channel_snapshot :=
  mk_snapshot (name s) (uniqueid s) (linkedid s) (appl s) (data s)
    (chan_context s) (exten s) (accountcode s) (peeraccount s) (userfield s)
    (caller_name s) (caller_number s) (caller_ani s) (caller_rdnis s)
    (caller_dnid s) (hangupsource s) (hangupcause s) (amaflags s) (state s)
    (flags s) t.

Definition with_state (s : ast_channel_snapshot) (v : Z)
    : ast_channel_snapshot :=
  mk_snapshot (name s) (uniqueid s) (linkedid s) (appl s) (data s)
    (chan_context s) (exten s) (accountcode s) (peeraccount s) (userfield s)
    (caller_name s) (caller_number s) (caller_ani s) (caller_rdnis s)
    (caller_dnid s) (hangupsource s) (hangupcause s) (amaflags s) v (flags s)
    (tech_properties s).

(** The type codes of the events handed to the backends, oldest first. *)
Definition event_types_of (st : cel_state) : list Z :=
  map (fun e => ast_event_get_ie_uint (fst e) AST_EVENT_IE_CEL_EVENT_TYPE)
      (fanout st).

(** The text of the extra element of the events handed out. *)
Definition event_extras_of (st : cel_state) : list (option string) :=
  map (fun e => ast_event_get_ie_str (fst e) AST_EVENT_IE_CEL_EXTRA)
      (fanout st).

(** Logging enabled, every event tracked, no application listed. *)
Definition example_general : ast_cel_general_config :=
  mk_general true "" (-1) ∅.

Definition empty_state (g : ast_cel_general_config) : cel_state :=
  mk_state (Some (mk_cel_config (Some g))) ∅ ∅ ∅ (mk_timeval 1700000000 250) [].

(** One backend is registered. *)
Definition example_state (g : ast_cel_general_config) : cel_state :=
  snd (ast_cel_backend_register (Some "cel_manager") 1%nat (empty_state g)).

Definition dial_blob (caller : ast_channel_snapshot) (dialstatus : string)
    : ast_multi_channel_blob :=
  mk_multi_channel_blob [("caller", caller)]
    (Some (JObj [("dialstatus", JStr dialstatus)])).

(** Three channels of one call tree, and the state in which a dial
    envelope for the first has been processed. *)
Definition alice : ast_channel_snapshot := example_snapshot "1000.1" "1000.1".
Definition bob : ast_channel_snapshot := example_snapshot "1000.2" "1000.1".
Definition carol : ast_channel_snapshot := example_snapshot "1000.3" "1000.1".

Definition internal_chan (s : ast_channel_snapshot) : ast_channel_snapshot :=
  with_tech_properties s (@AST_CHAN_TP_INTERNAL example_platform).

Definition dead_chan (s : ast_channel_snapshot) : ast_channel_snapshot :=
  with_flags s (@AST_FLAG_DEAD example_platform).

Definition pickup_blob : ast_multi_channel_blob :=
  mk_multi_channel_blob
    [("channel", internal_chan bob); ("target", internal_chan alice)] None.

(** Snapshot updates delivered in order. *)
Definition run_updates (updates : list stasis_cache_update) (st : cel_state)
    : cel_state :=
  fold_left (fun st u => @cel_snapshot_update_cb example_platform u st)
    updates st.

Definition channel_update (old new : option ast_channel_snapshot)
    : stasis_cache_update := mk_cache_update true old new.

(** Applications listed and tracked, [HANGUP] tracked as well. *)
Definition example_general_apps : ast_cel_general_config :=
  mk_general true ""
    (Z.lor (Z.shiftl 1 AST_CEL_APP_START)
       (Z.lor (Z.shiftl 1 AST_CEL_APP_END) (Z.shiftl 1 AST_CEL_HANGUP)))
    {[ "dial" ]}.

(** * More of [main/cel.c] *)

(** ** Reading and replacing the configuration *)

(** [ast_cel_get_config]: the general section, or NULL. *)
Definition ast_cel_get_config (st : cel_state)
    : option ast_cel_general_config := current_general st.

(** [ast_cel_set_config].  The initialiser of [cleanup_config] reads
    [mod_cfg->general] before [mod_cfg] is tested, so without a
    configuration object the function reads through NULL: the result
    is [None] then.  Otherwise the general section of the object is
    replaced by [config], which may be NULL. *)
Definition ast_cel_set_config (config : option ast_cel_general_config)
    (st : cel_state) : option cel_state :=
  match cel_configs st with
  | None => None
  | Some _ => Some (set_configs st (Some (mk_cel_config config)))
  end.

(** ** Publishing a user event *)

(** [ast_cel_publish_event], up to the message it publishes on the CEL
    topic (which the router hands to [cel_generic_cb]); [chan] is the
    snapshot [ast_channel_blob_create] takes of the channel.  Packing
    with a NULL [blob] yields no object. *)
Definition ast_cel_publish_event (chan : ast_channel_snapshot)
    (event_type : Z) (blob : option ast_json) : ast_channel_blob :=
  let cel_blob :=
    match blob with
    | Some b => Some (JObj [ ("event_type", JInt event_type);
                             ("event_details", b) ])
    | None => None
    end in
  mk_channel_blob chan cel_blob.

(** ** Transfers *)

(** The success code of [enum ast_transfer_result] comes from
    [asterisk/bridge.h], which is not among the sources.  The enum is
    32 bits wide and its enumerators are [int] constants, so the JSON
    integer ([intmax_t]) assigned to [result] equals the enumerator
    exactly when its conversion to [int] does, whether the compiler
    makes the enum signed or unsigned. *)
Class cel_bridge_platform := {
  AST_BRIDGE_TRANSFER_SUCCESS : Z;
}.

(** [struct ast_bridge_channel_snapshot_pair]: either pointer may be
    NULL. *)
Record ast_bridge_channel_snapshot_pair := mk_snapshot_pair {
  bridge_snapshot : option ast_bridge_snapshot;
  channel_snapshot : option ast_channel_snapshot;
}.

(** The destination types [cel_attended_transfer_cb] switches on. *)
Inductive ast_attended_transfer_dest_type :=
| AST_ATTENDED_TRANSFER_DEST_FAIL
| AST_ATTENDED_TRANSFER_DEST_BRIDGE_MERGE
| AST_ATTENDED_TRANSFER_DEST_APP
| AST_ATTENDED_TRANSFER_DEST_LINK
| AST_ATTENDED_TRANSFER_DEST_THREEWAY.

Record ast_attended_transfer_message := mk_attended_transfer {
  to_transferee : ast_bridge_channel_snapshot_pair;
  to_transfer_target : ast_bridge_channel_snapshot_pair;
  dest_type : ast_attended_transfer_dest_type;
  dest_app : string;            (* xfer->dest.app *)
}.

Section Transfers.
Context `{cel_platform} `{cel_bridge_platform}.

Definition cel_blind_transfer_cb (obj : ast_bridge_blob) (st : cel_state)
    : cel_state :=
  let chan_snapshot := channel obj in
  let bridge_snapshot := bridge obj in
  let blob := blob obj in
  match ast_json_object_get blob "result" with
  | None => st
  | Some json_result =>
      let result := int_of_int64 (ast_json_integer_get (Some json_result)) in
      if negb (result =? AST_BRIDGE_TRANSFER_SUCCESS) then st
      else
        match ast_json_object_get blob "exten",
              ast_json_object_get blob "context" with
        | Some json_exten, Some json_context =>
            match ast_json_string_get (Some json_exten),
                  ast_json_string_get (Some json_context) with
            | Some exten, Some context =>
                let extra :=
                  JObj [ ("extension", JStr exten);
                         ("context", JStr context);
                         ("bridge_id", JStr (bridge_uniqueid bridge_snapshot)) ] in
                snd (cel_report_event chan_snapshot AST_CEL_BLINDTRANSFER None
                       (Some extra) st)
            | _, _ => st
            end
        | _, _ => st
        end
  end.

(** [cel_attended_transfer_cb].  The function reads [bridge1->uniqueid],
    [channel2->name], [bridge2->uniqueid] and, in [cel_report_event],
    the fields of [channel1], without testing the pointers: where the C
    code would read through NULL the result is [None]. *)
Definition cel_attended_transfer_cb (xfer : ast_attended_transfer_message)
    (st : cel_state) : option cel_state :=
  let '(bridge1, bridge2, channel1, channel2) :=
    match bridge_snapshot (to_transferee xfer) with
    | None =>
        (bridge_snapshot (to_transfer_target xfer),
         bridge_snapshot (to_transferee xfer),
         channel_snapshot (to_transfer_target xfer),
         channel_snapshot (to_transferee xfer))
    | Some _ =>
        (bridge_snapshot (to_transferee xfer),
         bridge_snapshot (to_transfer_target xfer),
         channel_snapshot (to_transferee xfer),
         channel_snapshot (to_transfer_target xfer))
    end in
  let report (extra : ast_json) :=
    match channel1 with
    | None => None
    | Some c1 =>
        Some (snd (cel_report_event c1 AST_CEL_ATTENDEDTRANSFER None
                     (Some extra) st))
    end in
  match dest_type xfer with
  | AST_ATTENDED_TRANSFER_DEST_FAIL => Some st
  | AST_ATTENDED_TRANSFER_DEST_BRIDGE_MERGE
  | AST_ATTENDED_TRANSFER_DEST_LINK
  | AST_ATTENDED_TRANSFER_DEST_THREEWAY =>
      match bridge1, channel2, bridge2 with
      | Some b1, Some c2, Some b2 =>
          report (JObj [ ("bridge1_id", JStr (bridge_uniqueid b1));
                         ("channel2_name", JStr (name c2));
                         ("bridge2_id", JStr (bridge_uniqueid b2)) ])
      | _, _, _ => None
      end
  | AST_ATTENDED_TRANSFER_DEST_APP =>
      match bridge1, channel2 with
      | Some b1, Some c2 =>
          report (JObj [ ("bridge1_id", JStr (bridge_uniqueid b1));
                         ("channel2_name", JStr (name c2));
                         ("app", JStr (dest_app xfer)) ])
      | _, _ => None
      end
  end.

End Transfers.

(** ** The channel fabricated from an event *)

(** What [ast_cel_fabricate_channel_from_event] sets on the dummy
    channel: the variable list (head first) and the fields written
    through the channel setters. *)
Record fabricated_channel := mk_fabricated {
  varshead : list (string * string);
  chan_caller_id_name : string;
  chan_caller_id_number : string;
  chan_caller_ani : string;
  chan_redirecting_from : string;
  chan_dialed_number : string;
  chan_exten : string;
  chan_channel_context : string;
  chan_name : string;
  chan_uniqueid : string;
  chan_linkedid : string;
  chan_accountcode : string;
  chan_peeraccount : string;
  chan_userfield : string;
  chan_amaflags : Z;
  chan_appl : string;
  chan_data : string;
}.

(** [ast_localtime] with [ast_strftime] into the 30-byte buffer come
    from [main/stdtime/localtime.c], and [ast_var_assign] from
    [main/chanvars.c]; neither is among the sources.  The formatted
    local time is a parameter, and so is what [ast_var_assign] returns
    for a NULL value (for a string it returns the variable). *)
Class cel_channel_platform := {
  ast_strftime_localtime : string -> timeval -> string;
  ast_var_assign_null : string -> option (string * string);
}.

Fixpoint zeros (n : nat) : string :=
  match n with O => "" | S n => String "0" (zeros n) end.

(** A number printed in a field of at least [width] characters,
    padded with zeros after the sign. *)
Definition zero_padded (width : nat) (z : Z) : string :=
  if z <? 0 then
    let digits := pretty (- z) in
    "-" +:+ zeros (width - 1 - String.length digits) +:+ digits
  else
    let digits := pretty z in
    zeros (width - String.length digits) +:+ digits.

(** [snprintf(timebuf, sizeof(timebuf), "%ld.%06ld", sec, usec)] with
    the 30-byte buffer: at most 29 characters are kept. *)
Definition snprintf_timebuf (sec usec : Z) : string :=
  String.substring 0 29 (pretty sec +:+ "." +:+ zero_padded 6 usec).

Section Fabricate.
Context `{cel_platform} `{cel_channel_platform}.

Definition ast_var_assign (var_name : string) (value : option string)
    : option (string * string) :=
  match value with
  | Some v => Some (var_name, v)
  | None => ast_var_assign_null var_name
  end.

(** [if ((newvariable = ...)) AST_LIST_INSERT_HEAD(headp, newvariable,
    entries)]. *)
Definition insert_head (newvariable : option (string * string))
    (headp : list (string * string)) : list (string * string) :=
  match newvariable with
  | Some v => v :: headp
  | None => headp
  end.

(** [ast_cel_fabricate_channel_from_event]; [None] is the NULL return.
    Failed allocations are not modelled. *)
Definition ast_cel_fabricate_channel_from_event (event : ast_event)
    (st : cel_state) : option fabricated_channel :=
  match current_general st with
  | None => None
  | Some g =>
      let '(res, record) := ast_cel_fill_record event fresh_record in
      if negb (res =? 0) then None
      else
        let headp := [] in
        let mixed_name :=
          if event_type record =? AST_CEL_USER_DEFINED
          then user_defined_name record
          else Some (event_name record) in
        let headp := insert_head (ast_var_assign "eventtype" mixed_name) headp in
        let timebuf :=
          if ast_strlen_zero (Some (date_format g))
          then snprintf_timebuf (tv_sec (event_time record))
                 (tv_usec (event_time record))
          else ast_strftime_localtime (date_format g) (event_time record) in
        let headp := insert_head (ast_var_assign "eventtime" (Some timebuf)) headp in
        let headp :=
          insert_head (ast_var_assign "eventenum" (Some (event_name record)))
            headp in
        let headp :=
          insert_head (ast_var_assign "userdeftype" (user_defined_name record))
            headp in
        let headp :=
          insert_head (ast_var_assign "eventextra" (Some (extra record))) headp in
        let headp :=
          insert_head (ast_var_assign "BRIDGEPEER" (Some (peer record))) headp in
        Some {|
          varshead := headp;
          chan_caller_id_name := caller_id_name record;
          chan_caller_id_number := caller_id_num record;
          chan_caller_ani := caller_id_ani record;
          chan_redirecting_from := caller_id_rdnis record;
          chan_dialed_number := caller_id_dnid record;
          chan_exten := extension record;
          chan_channel_context := rec_context record;
          chan_name := channel_name record;
          chan_uniqueid := unique_id record;
          chan_linkedid := linked_id record;
          chan_accountcode := account_code record;
          chan_peeraccount := peer_account record;
          chan_userfield := user_field record;
          chan_amaflags := amaflag record;
          chan_appl := application_name record;
          chan_data := application_data record;
        |}
  end.

End Fabricate.

(** The value of a channel variable: the first entry of that name. *)
Fixpoint getvar (vars : list (string * string)) (var_name : string)
    : option string :=
  match vars with
  | [] => None
  | (n, v) :: rest => if String.eqb n var_name then Some v else getvar rest var_name
  end.

(** ** The status command *)

Inductive cli_command := CLI_INIT | CLI_GENERATE | CLI_HANDLER.

(** The result of [handle_cli_status]: NULL, the usage request, or
    success with the lines written by [ast_cli], in order. *)
Inductive cli_result :=
| CLI_NULL
| CLI_SHOWUSAGE
| CLI_SUCCESS (out : list string).

Definition newline : string := String (ascii_of_nat 10) EmptyString.

(** The lines the loop over the 64 bits of the mask writes, from bit
    [i] on, [n] bits to go. *)
Fixpoint cli_event_lines (events : Z) (i : Z) (n : nat) : list string :=
  match n with
  | O => []
  | S n' =>
      let rest := cli_event_lines events (i + 1) n' in
      if Z.land events (Z.shiftl 1 i) =? 0 then rest
      else
        let name := ast_cel_get_type_name i in
        if negb (strcasecmp name "Unknown" =? 0)
        then ("CEL Tracking Event: " +:+ name +:+ newline) :: rest
        else rest
  end.

(** [handle_cli_status].  The two [ao2_callback] traversals write one
    line per application and per backend; the order of the containers
    is not visible in the sources, the order of [elements] and
    [map_to_list] stands for it. *)
Definition handle_cli_status (cmd : cli_command) (argc : Z) (st : cel_state)
    : cli_result :=
  match cmd with
  | CLI_INIT => CLI_NULL
  | CLI_GENERATE => CLI_NULL
  | CLI_HANDLER =>
      if 3 <? argc then CLI_SHOWUSAGE
      else
        let logging :=
          "CEL Logging: "
          +:+ (if ast_cel_check_enabled st then "Enabled" else "Disabled")
          +:+ newline in
        match current_general st with
        | None => CLI_SUCCESS [logging]
        | Some g =>
            if negb (enable g) then CLI_SUCCESS [logging]
            else
              CLI_SUCCESS
                ([logging]
                 ++ cli_event_lines (events g) 0 64
                 ++ map (fun app => "CEL Tracking Application: " +:+ app +:+ newline)
                      (elements (apps g))
                 ++ map (fun b => "CEL Event Subscriber: " +:+ fst b +:+ newline)
                      (map_to_list (cel_backends st)))%list
        end
  end.

(** ** Runs of the router *)

(** The messages the router dispatches to the callbacks that take no
    pointer on trust, by type. *)
Inductive cel_message :=
| MsgCacheUpdate (update : stasis_cache_update)
| MsgDial (blob : ast_multi_channel_blob)
| MsgEnteredBridge (blob : ast_bridge_blob)
| MsgLeftBridge (blob : ast_bridge_blob)
| MsgParkedCall (payload : ast_parked_call_payload)
| MsgGeneric (obj : ast_channel_blob)
| MsgBlindTransfer (blob : ast_bridge_blob)
| MsgPickup (obj : ast_multi_channel_blob)
| MsgLocalOptimization (obj : ast_multi_channel_blob).

Section Router.
Context `{cel_platform} `{cel_bridge_platform}.

(** The routes [ast_cel_engine_init] adds to [cel_state_router], but
    for the attended transfer, as functions on the state; [cel_route]
    below has all ten routes and the reads that can go wrong. *)
Definition cel_dispatch (msg : cel_message) (st : cel_state) : cel_state :=
  match msg with
  | MsgCacheUpdate update => cel_snapshot_update_cb update st
  | MsgDial blob => cel_dial_cb blob st
  | MsgEnteredBridge blob => cel_bridge_enter_cb blob st
  | MsgLeftBridge blob => cel_bridge_leave_cb blob st
  | MsgParkedCall payload => cel_parking_cb payload st
  | MsgGeneric obj => cel_generic_cb obj st
  | MsgBlindTransfer blob => cel_blind_transfer_cb blob st
  | MsgPickup obj => cel_pickup_cb obj st
  | MsgLocalOptimization obj => cel_local_cb obj st
  end.

(** The messages of a list dispatched in order. *)
Definition cel_run (msgs : list cel_message) (st : cel_state) : cel_state :=
  fold_left (fun st msg => cel_dispatch msg st) msgs st.

(** Every message type [cel_state_router] has a route for. *)
Inductive cel_routed_message :=
| Routed (msg : cel_message)
| MsgAttendedTransfer (xfer : ast_attended_transfer_message).

(** The ten routes of [cel_state_router].  [None] is a read through a
    NULL pointer in [cel_attended_transfer_cb] or a read past the name
    table in the default branch of [cel_generic_cb]. *)
Definition cel_route (msg : cel_routed_message) (st : cel_state)
    : option cel_state :=
  match msg with
  | Routed (MsgGeneric obj) =>
      if cel_generic_cb_in_bounds obj then Some (cel_generic_cb obj st)
      else None
  | Routed msg => Some (cel_dispatch msg st)
  | MsgAttendedTransfer xfer => cel_attended_transfer_cb xfer st
  end.

(** The messages of a list routed in order, up to the first call that
    goes wrong. *)
Fixpoint cel_route_run (msgs : list cel_routed_message) (st : cel_state)
    : option cel_state :=
  match msgs with
  | [] => Some st
  | msg :: rest =>
      match cel_route msg st with
      | Some st' => cel_route_run rest st'
      | None => None
      end
  end.

(** The messages that touch the store entry of a uniqueid: a dial
    envelope the dial callback stores under it, and an update the
    state monitor takes for the hangup of its channel. *)
Definition stores_envelope (uid : string) (blob : ast_multi_channel_blob)
    : bool :=
  match ast_multi_channel_blob_get_channel blob "caller" with
  | Some caller =>
      (cel_filter_channel_snapshot (Some caller) =? 0)
      && String.eqb (uniqueid caller) uid
      && negb (ast_strlen_zero (get_blob_variable blob "dialstatus"))
  | None => false
  end.

Definition hangs_up (uid : string) (update : stasis_cache_update) : bool :=
  update_is_channel_snapshot update
  && match old_snapshot update, new_snapshot update with
     | Some old, Some new =>
         (cel_filter_channel_snapshot (Some old) =? 0)
         && (cel_filter_channel_snapshot (Some new) =? 0)
         && (ast_test_flag (flags old) AST_FLAG_DEAD =? 0)
         && negb (ast_test_flag (flags new) AST_FLAG_DEAD =? 0)
         && String.eqb (uniqueid new) uid
     | _, _ => false
     end.

(** The most recent dial envelope for a uniqueid that no hangup has
    consumed, after one message and after a list of messages, counted
    from what was stored before. *)
Definition envelope_after (uid : string) (msg : cel_routed_message)
    (stored : option ast_multi_channel_blob) : option ast_multi_channel_blob :=
  match msg with
  | Routed (MsgDial blob) => if stores_envelope uid blob then Some blob else stored
  | Routed (MsgCacheUpdate update) => if hangs_up uid update then None else stored
  | _ => stored
  end.

Definition most_recent_envelope (uid : string) (msgs : list cel_routed_message)
    (stored : option ast_multi_channel_blob) : option ast_multi_channel_blob :=
  fold_left (fun stored msg => envelope_after uid msg stored) msgs stored.

End Router.

(** A step that leaves the configuration, the registry and the clock
    alone and only appends to the fan-out. *)
Definition appends_only (st st' : cel_state) : Prop :=
  cel_configs st' = cel_configs st
  /\ cel_backends st' = cel_backends st
  /\ tvnow st' = tvnow st
  /\ fanout st `prefix_of` fanout st'.

(** The tracker holds, for every linked id, the link and at least one
    channel. *)
Definition linkedids_counted (st : cel_state) : Prop :=
  forall lid refs, linkedids st !! lid = Some refs -> 2 <= refs.

(** Every stored envelope sits under the uniqueid of its caller and
    carries a dial status. *)
Definition dialstatus_store_keyed (st : cel_state) : Prop :=
  forall key blob,
    cel_dialstatus_store st !! key = Some blob ->
    get_caller_uniqueid blob = Some key
    /\ ast_strlen_zero (get_blob_variable blob "dialstatus") = false.

(** An attended transfer between two bridges, for the examples. *)
Definition example_transfer : ast_attended_transfer_message :=
  mk_attended_transfer
    (mk_snapshot_pair (Some (mk_bridge_snapshot "bridge-1")) (Some alice))
    (mk_snapshot_pair (Some (mk_bridge_snapshot "bridge-2")) (Some bob))
    AST_ATTENDED_TRANSFER_DEST_LINK "".

(** Instances for the examples. *)
Definition example_bridge_platform : cel_bridge_platform :=
  {| AST_BRIDGE_TRANSFER_SUCCESS := 0 |}.

Definition example_channel_platform : cel_channel_platform := {|
  ast_strftime_localtime := fun fmt tv => fmt +:+ "@" +:+ pretty (tv_sec tv);
  ast_var_assign_null := fun _ => None;
|}.

(** * Properties *)

(** ** Strings and bit masks *)

Lemma tolower_idem c : tolower (tolower c) = tolower c.
Proof.
  destruct c as [[] [] [] [] [] [] [] []]; vm_compute; reflexivity.
Qed.

Lemma char_code_inj c d : char_code c = char_code d -> c = d.
Proof.
  unfold char_code. intros E. apply N2Z.inj in E.
  rewrite <- (ascii_N_embedding c), <- (ascii_N_embedding d). now rewrite E.
Qed.

Lemma strcasecmp_lower_l a b :
  strcasecmp (ast_str_to_lower a) b = strcasecmp a b.
Proof.
  revert b. induction a as [|c a IH]; intros [|d b]; simpl; try reflexivity.
  - now rewrite tolower_idem.
  - rewrite tolower_idem, IH. reflexivity.
Qed.

Lemma char_code_pos c : 0 <= char_code c.
Proof. unfold char_code. lia. Qed.

(** [strcasecmp] returns 0 exactly on strings with equal lower-case
    forms, provided neither holds the terminator as a character. *)
Lemma strcasecmp_0_iff a b :
  (forall c, c ∈ (list_ascii_of_string a ++ list_ascii_of_string b)%list ->
             tolower c <> zero) ->
  strcasecmp a b = 0 <-> ast_str_to_lower a = ast_str_to_lower b.
Proof.
  revert b. induction a as [|c a IH]; intros [|d b] Hnz; simpl.
  - tauto.
  - split; [|discriminate]. intros E.
    assert (Hd : tolower d <> zero) by (apply Hnz; simpl; left).
    exfalso. apply Hd. apply char_code_inj.
    change (char_code zero) with 0. pose proof (char_code_pos (tolower d)). lia.
  - split; [|discriminate]. intros E.
    assert (Hc : tolower c <> zero) by (apply Hnz; simpl; left).
    exfalso. apply Hc. apply char_code_inj.
    change (char_code zero) with 0. lia.
  - destruct (Z.eqb_spec (char_code (tolower c)) (char_code (tolower d))) as [E|E].
    + apply char_code_inj in E. rewrite E, IH.
      * split; [intros ->; reflexivity | intros [= ?]; assumption].
      * intros x Hx. apply Hnz. simpl.
        rewrite elem_of_app in Hx. rewrite elem_of_cons, elem_of_app, elem_of_cons.
        tauto.
    + split; [lia|]. intros [= E' _]. rewrite E' in E. contradiction.
Qed.

Lemma land_bit a n :
  0 <= n -> Z.land a (Z.shiftl 1 n) = if Z.testbit a n then 2 ^ n else 0.
Proof.
  intros Hn. rewrite Z.shiftl_1_l. apply Z.bits_inj'. intros m Hm.
  rewrite Z.land_spec, Z.pow2_bits_eqb by assumption.
  destruct (Z.eqb_spec n m) as [->|Hne].
  - destruct (Z.testbit a m) eqn:E; simpl.
    + rewrite Z.pow2_bits_true; trivial.
    + now rewrite Z.bits_0.
  - rewrite andb_false_r. destruct (Z.testbit a n).
    + rewrite Z.pow2_bits_false; trivial.
    + now rewrite Z.bits_0.
Qed.

Lemma land_bit_zero a n :
  0 <= n -> (Z.land a (Z.shiftl 1 n) =? 0) = negb (Z.testbit a n).
Proof.
  intros Hn. rewrite land_bit by assumption.
  destruct (Z.testbit a n); simpl; [|reflexivity].
  apply Z.eqb_neq. pose proof (Z.pow_pos_nonneg 2 n). lia.
Qed.

Lemma int_of_int64_bit_zero a n :
  0 <= n < 32 ->
  (int_of_int64 (Z.land a (Z.shiftl 1 n)) =? 0) = negb (Z.testbit a n).
Proof.
  intros Hn. rewrite land_bit by lia. unfold int_of_int64.
  destruct (Z.testbit a n); simpl; [|reflexivity].
  apply Z.eqb_neq.
  assert (Hlo : 0 < 2 ^ n) by (apply Z.pow_pos_nonneg; lia).
  assert (Hhi : 2 ^ n <= 2 ^ 31) by (apply Z.pow_le_mono_r; lia).
  destruct (Z.eq_dec (2 ^ n) (2 ^ 31)) as [E|E].
  - rewrite E. vm_compute. discriminate.
  - rewrite Z.mod_small; lia.
Qed.

(** ** Configuration handlers *)

Lemma cel_event_types_length : length cel_event_types = CEL_MAX_EVENT_IDS.
Proof. reflexivity. Qed.

Lemma str_to_event_type_from_lower i tbl s :
  str_to_event_type_from i tbl (ast_str_to_lower s)
  = str_to_event_type_from i tbl s.
Proof.
  revert i. induction tbl as [|[n|] tbl IH]; intros i; simpl.
  - reflexivity.
  - rewrite strcasecmp_lower_l, IH. reflexivity.
  - apply IH.
Qed.

(** The table lookup does not see letter case. *)
Lemma ast_cel_str_to_event_type_lower s :
  ast_cel_str_to_event_type (ast_str_to_lower s) = ast_cel_str_to_event_type s.
Proof. apply str_to_event_type_from_lower. Qed.

Lemma events_handler_loop_result toks cfg :
  fst (events_handler_loop toks cfg) = 0 \/ fst (events_handler_loop toks cfg) = -1.
Proof.
  revert cfg. induction toks as [|tok rest IH]; intros cfg; simpl.
  - now left.
  - destruct (negb (nonempty (ast_strip tok))); [apply IH|].
    destruct (ast_cel_str_to_event_type (ast_strip tok) =? 0); [apply IH|].
    destruct (ast_cel_str_to_event_type (ast_strip tok) =? -1); [now right|apply IH].
Qed.

(** The events handler fails exactly when some non-blank field of the
    list is not in the table. *)
Lemma events_handler_rejects_unknown value cfg :
  fst (events_handler value cfg) = -1 <->
  Exists (fun tok => nonempty (ast_strip tok) = true
                     /\ ast_cel_str_to_event_type (ast_strip tok) = -1)
         (strsep_all "," value).
Proof.
  unfold events_handler. generalize (strsep_all "," value) as toks.
  intros toks. revert cfg. induction toks as [|tok rest IH]; intros cfg; simpl.
  - split; [discriminate|]. intros E. inversion E.
  - rewrite Exists_cons. destruct (nonempty (ast_strip tok)) eqn:Hne; simpl.
    + destruct (Z.eqb_spec (ast_cel_str_to_event_type (ast_strip tok)) 0) as [E0|E0].
      * rewrite IH. rewrite E0. intuition discriminate.
      * destruct (Z.eqb_spec (ast_cel_str_to_event_type (ast_strip tok)) (-1)) as [E1|E1].
        -- simpl. intuition.
        -- rewrite IH. intuition.
    + rewrite IH. intuition discriminate.
Qed.

(** The handler of the application list stores lower-cased names. *)
Lemma apps_handler_loop_apps toks cfg x :
  x ∈ apps (snd (apps_handler_loop toks cfg)) <->
  x ∈ apps cfg
  \/ exists tok, tok ∈ toks /\ nonempty (ast_strip tok) = true
                 /\ x = ast_str_to_lower (ast_strip tok).
Proof.
  revert cfg. induction toks as [|tok rest IH]; intros cfg; simpl.
  - split; [now left|]. intros [?|(tok & Hin & _)]; [assumption|].
    inversion Hin.
  - destruct (nonempty (ast_strip tok)) eqn:Hne; simpl; rewrite IH; simpl.
    + rewrite elem_of_union, elem_of_singleton. split.
      * intros [[->|?]|(t & Hin & Ht)].
        -- right. exists tok. split; [left|]. now split.
        -- now left.
        -- right. exists t. split; [now right|assumption].
      * intros [?|(t & Hin & Hn & Ht)]; [left; now right|].
        apply elem_of_cons in Hin as [->|Hin].
        -- left. now left.
        -- right. exists t. now repeat split.
    + split.
      * intros [?|(t & Hin & Ht)]; [now left|].
        right. exists t. split; [now right|assumption].
      * intros [?|(t & Hin & Hn & Ht)]; [now left|].
        apply elem_of_cons in Hin as [->|Hin]; [congruence|].
        right. exists t. now repeat split.
Qed.

Section ConfigProperties.
Context `{cel_platform}.

(** Whether an application is tracked depends on its name up to
    letter case only. *)
Lemma cel_track_app_case_insensitive st a b :
  ast_str_to_lower a = ast_str_to_lower b ->
  cel_track_app st a = cel_track_app st b.
Proof. unfold cel_track_app. intros ->. reflexivity. Qed.

End ConfigProperties.

(** C8 (the code departs from the claim).  The claim has event names
    matched with regard to letter case, as the documentation of the
    [events] option in the file says; [ast_cel_str_to_event_type]
    compares with [strcasecmp], so the handler accepts [chan_start]
    and sets the bit of [CHAN_START] instead of rejecting the name. *)
Theorem events_handler_accepts_other_case :
  ast_cel_str_to_event_type "chan_start" = AST_CEL_CHANNEL_START
  /\ events_handler "chan_start" (mk_general true "" 0 ∅)
     = (0, mk_general true "" (Z.shiftl 1 AST_CEL_CHANNEL_START) ∅)
  /\ events_handler "CHAN_START" (mk_general true "" 0 ∅)
     = (0, mk_general true "" (Z.shiftl 1 AST_CEL_CHANNEL_START) ∅)
  /\ fst (events_handler "CHANNEL_BEGIN" (mk_general true "" 0 ∅)) = -1.
Proof. vm_compute. repeat split; reflexivity. Qed.

(** C9.  The pre-apply check rejects the pending configuration exactly
    when applications are listed and neither the [APP_START] nor the
    [APP_END] bit is set in the event mask; a rejected reload leaves
    the configuration in effect untouched, an accepted one installs
    the pending configuration. *)
Theorem cel_pre_apply_config_rejects_iff
    (g : ast_cel_general_config) (st : cel_state) :
  let pending := mk_cel_config (Some g) in
  let apps_without_app_events :=
    size (apps g) <> 0%nat
    /\ Z.testbit (events g) AST_CEL_APP_START = false
    /\ Z.testbit (events g) AST_CEL_APP_END = false in
  (cel_pre_apply_config pending = -1 <-> apps_without_app_events)
  /\ (cel_pre_apply_config pending = 0 <-> ~ apps_without_app_events)
  /\ (apps_without_app_events -> aco_process_config pending st = (-1, st))
  /\ (~ apps_without_app_events ->
      aco_process_config pending st = (0, set_configs st (Some pending))).
Proof.
  intros pending bad.
  assert (Hdec : (cel_pre_apply_config pending = -1 /\ bad)
                 \/ (cel_pre_apply_config pending = 0 /\ ~ bad)).
  { subst pending bad. unfold cel_pre_apply_config. cbn [general].
    rewrite !land_bit_zero by (vm_compute; discriminate).
    destruct (Nat.eqb_spec (size (apps g)) 0) as [E|E].
    - right. split; [reflexivity|]. intros [? _]. contradiction.
    - destruct (Z.testbit (events g) AST_CEL_APP_START) eqn:E5; cbn [negb].
      + right. split; [reflexivity|]. intros (_ & ? & _). congruence.
      + destruct (Z.testbit (events g) AST_CEL_APP_END) eqn:E6; cbn [negb].
        * right. split; [reflexivity|]. intros (_ & _ & ?). congruence.
        * left. repeat split; assumption. }
  unfold aco_process_config. clearbody bad.
  destruct Hdec as [[E Hb]|[E Hb]]; rewrite E.
  - split; [split; [intros _; exact Hb | reflexivity]|].
    split; [split; [discriminate | intros Hn; contradiction]|].
    split; [intros _; reflexivity | intros Hn; contradiction].
  - split; [split; [discriminate | intros Hn; contradiction]|].
    split; [split; [intros _; exact Hb | reflexivity]|].
    split; [intros Hn; contradiction | intros _; reflexivity].
Qed.

Lemma cel_pre_apply_config_rejects_iff_witness :
  aco_process_config
    (mk_cel_config (Some (mk_general true "" (Z.shiftl 1 AST_CEL_HANGUP) {["dial"]})))
    (example_state example_general)
  = (-1, example_state example_general).
Proof.
  apply (proj1 (proj2 (proj2
          (cel_pre_apply_config_rejects_iff
             (mk_general true "" (Z.shiftl 1 AST_CEL_HANGUP) {["dial"]})
             (example_state example_general))))).
  vm_compute. repeat split; discriminate.
Defined.

(** ** The report filter and the linked-id tracker *)

Section EngineProperties.
Context `{cel_platform}.

Lemma ast_cel_track_event_zero st g et :
  current_general st = Some g -> 0 <= et < 32 ->
  (ast_cel_track_event st et =? 0) = negb (Z.testbit (events g) et).
Proof.
  intros Hg Het. unfold ast_cel_track_event. rewrite Hg.
  now apply int_of_int64_bit_zero.
Qed.

Lemma cel_linkedid_ref_empty st : cel_linkedid_ref "" st = (-1, st).
Proof. reflexivity. Qed.

(** The count an acquisition leaves on the entry of a linked id. *)
Lemma cel_linkedid_ref_nonempty l st :
  l <> "" ->
  cel_linkedid_ref l st
  = (0, set_linkedids st
          (<[l := match linkedids st !! l with
                  | None => 2
                  | Some refs => refs + 1
                  end]> (linkedids st))).
Proof.
  intros Hl. unfold cel_linkedid_ref.
  destruct l as [|c l]; [contradiction|]. simpl.
  destruct (linkedids st !! String c l); reflexivity.
Qed.

(** What [cel_report_event] does with an event other than
    [CHANNEL_START] when logging is enabled. *)
Lemma cel_report_event_other snapshot et ud ex st g :
  current_general st = Some g -> enable g = true ->
  et <> AST_CEL_CHANNEL_START -> 0 <= et < 32 ->
  cel_report_event snapshot et ud ex st
  = (0, if Z.testbit (events g) et
           && negb (((et =? AST_CEL_APP_START) || (et =? AST_CEL_APP_END))
                    && (cel_track_app st (appl snapshot) =? 0))
        then distribute (ast_cel_create_event (tvnow st) snapshot et ud ex) st
        else st).
Proof.
  intros Hg Hen Hne Het. unfold cel_report_event. rewrite Hg, Hen. cbn [negb].
  replace (et =? AST_CEL_CHANNEL_START) with false
    by (symmetry; apply Z.eqb_neq; assumption).
  rewrite andb_false_r. cbn [Z.eqb negb].
  rewrite (ast_cel_track_event_zero st g et Hg Het).
  destruct (Z.testbit (events g) et); cbn [negb andb]; [|reflexivity].
  destruct (((et =? AST_CEL_APP_START) || (et =? AST_CEL_APP_END))
            && (cel_track_app st (appl snapshot) =? 0)); reflexivity.
Qed.

(** With logging disabled the report filter does nothing at all. *)
Lemma cel_report_event_disabled snapshot et ud ex st :
  ast_cel_check_enabled st = false ->
  cel_report_event snapshot et ud ex st = (0, st).
Proof.
  unfold ast_cel_check_enabled, cel_report_event.
  destruct (current_general st) as [g|]; [|reflexivity].
  intros ->. reflexivity.
Qed.

(** The report filter touches the tracker for [CHANNEL_START] only,
    never the configuration, the stores or the clock, and only ever
    appends to the fan-out. *)
Lemma cel_report_event_frame snapshot et ud ex st :
  let st' := snd (cel_report_event snapshot et ud ex st) in
  cel_configs st' = cel_configs st
  /\ cel_dialstatus_store st' = cel_dialstatus_store st
  /\ cel_backends st' = cel_backends st
  /\ tvnow st' = tvnow st
  /\ (et <> AST_CEL_CHANNEL_START -> linkedids st' = linkedids st)
  /\ fanout st `prefix_of` fanout st'.
Proof.
  set (framed := fun st' : cel_state =>
         cel_configs st' = cel_configs st
         /\ cel_dialstatus_store st' = cel_dialstatus_store st
         /\ cel_backends st' = cel_backends st
         /\ tvnow st' = tvnow st
         /\ (et <> AST_CEL_CHANNEL_START -> linkedids st' = linkedids st)
         /\ fanout st `prefix_of` fanout st').
  change (framed (snd (cel_report_event snapshot et ud ex st))).
  assert (Hst : framed st) by (unfold framed; repeat split; trivial).
  assert (Href : forall l, et = AST_CEL_CHANNEL_START ->
                           framed (set_linkedids st l)).
  { intros l E. unfold framed. simpl. repeat split; trivial.
    intros; contradiction. }
  assert (Hemit : forall s0 ev, framed s0 -> framed (distribute ev s0)).
  { unfold framed. intros s0 ev (H1 & H2 & H3 & H4 & H5 & H6). simpl.
    repeat split; trivial. now apply prefix_app_r. }
  unfold cel_report_event.
  destruct (current_general st) as [g|] eqn:Hg; [|exact Hst].
  destruct (enable g); cbn [negb]; [|exact Hst].
  destruct (negb (ast_cel_track_event st AST_CEL_LINKEDID_END =? 0)
            && (et =? AST_CEL_CHANNEL_START)) eqn:Hacq.
  - apply andb_true_iff in Hacq as [_ Het]. apply Z.eqb_eq in Het.
    unfold cel_linkedid_ref.
    destruct (ast_strlen_zero (Some (linkedid snapshot))); [exact Hst|].
    set (st1 := match linkedids st !! linkedid snapshot with
                | Some refs => _ | None => _ end).
    assert (Hst1 : exists l, st1 = (0, set_linkedids st l)).
    { subst st1. destruct (linkedids st !! linkedid snapshot); eauto. }
    destruct Hst1 as [l ->]. cbn [negb Z.eqb].
    destruct (ast_cel_track_event (set_linkedids st l) et =? 0);
      [now apply Href|].
    match goal with
    | |- context [if ?c then _ else _] => destruct c
    end; [now apply Href|]. apply Hemit. now apply Href.
  - cbn [negb Z.eqb].
    destruct (ast_cel_track_event st et =? 0); [exact Hst|].
    match goal with
    | |- context [if ?c then _ else _] => destruct c
    end; [exact Hst|]. now apply Hemit.
Qed.

(** C10.  A [CHANNEL_START] candidate with an empty linked id, with
    logging enabled and [LINKEDID_END] tracked: the report function
    returns failure and leaves the whole state as it was, so no event
    reaches a backend and the tracker is not touched, whether or not
    [CHANNEL_START] is tracked. *)
Theorem cel_report_event_empty_linkedid_fails
    (snapshot : ast_channel_snapshot) (userdefevname : option string)
    (extra : option ast_json) (st : cel_state) (g : ast_cel_general_config) :
  current_general st = Some g ->
  enable g = true ->
  Z.testbit (events g) AST_CEL_LINKEDID_END = true ->
  linkedid snapshot = "" ->
  cel_linkedid_ref (linkedid snapshot) st = (-1, st)
  /\ cel_report_event snapshot AST_CEL_CHANNEL_START userdefevname extra st
     = (-1, st).
Proof.
  intros Hg Hen Hbit Hlid. rewrite Hlid. split; [reflexivity|].
  unfold cel_report_event. rewrite Hg, Hen, Hlid. cbn [negb].
  rewrite (ast_cel_track_event_zero st g) by (trivial; vm_compute; split; congruence).
  rewrite Hbit. reflexivity.
Qed.

(** C5.  With logging enabled and [LINKEDID_END] tracked, a
    [CHANNEL_START] candidate has its linked id acquired: the tracker
    after the report is the tracker after [cel_linkedid_ref], and the
    entry of a non-empty id holds one more reference (two when it is
    new); this does not depend on the [CHANNEL_START] bit, without
    which the event is dropped.  With logging disabled the report
    changes nothing. *)
Theorem cel_report_event_channel_start_acquires
    (snapshot : ast_channel_snapshot) (userdefevname : option string)
    (extra : option ast_json) (st : cel_state) (g : ast_cel_general_config) :
  current_general st = Some g ->
  enable g = true ->
  Z.testbit (events g) AST_CEL_LINKEDID_END = true ->
  let r := cel_report_event snapshot AST_CEL_CHANNEL_START userdefevname extra st in
  linkedids (snd r) = linkedids (snd (cel_linkedid_ref (linkedid snapshot) st))
  /\ (linkedid snapshot <> "" ->
      fst r = 0
      /\ linkedids (snd r) !! linkedid snapshot
         = Some (match linkedids st !! linkedid snapshot with
                 | None => 2
                 | Some refs => refs + 1
                 end)
      /\ (Z.testbit (events g) AST_CEL_CHANNEL_START = false ->
          fanout (snd r) = fanout st))
  /\ (forall st_off : cel_state,
        ast_cel_check_enabled st_off = false ->
        cel_report_event snapshot AST_CEL_CHANNEL_START userdefevname extra st_off
        = (0, st_off)).
Proof.
  intros Hg Hen Hbit r.
  assert (Hr : r = cel_report_event snapshot AST_CEL_CHANNEL_START
                     userdefevname extra st) by reflexivity.
  clearbody r. unfold cel_report_event in Hr. rewrite Hg, Hen in Hr.
  cbn [negb] in Hr.
  rewrite (ast_cel_track_event_zero st g) in Hr
    by (trivial; vm_compute; split; congruence).
  rewrite Hbit in Hr. cbn [negb andb] in Hr.
  change (AST_CEL_CHANNEL_START =? AST_CEL_CHANNEL_START) with true in Hr.
  cbv iota in Hr.
  split; [|split].
  - destruct (cel_linkedid_ref (linkedid snapshot) st) as [res st1] eqn:Href.
    destruct (negb (res =? 0)); [subst r; reflexivity|].
    destruct (ast_cel_track_event st1 AST_CEL_CHANNEL_START =? 0);
      [subst r; reflexivity|].
    match type of Hr with
    | context [if ?c then _ else _] => destruct c
    end; subst r; reflexivity.
  - intros Hne. rewrite (cel_linkedid_ref_nonempty _ st Hne) in Hr.
    cbn [Z.eqb negb] in Hr.
    rewrite (ast_cel_track_event_zero _ g) in Hr
      by (trivial; vm_compute; split; congruence).
    destruct (Z.testbit (events g) AST_CEL_CHANNEL_START) eqn:Hcs;
      cbn [negb] in Hr.
    + match type of Hr with
      | context [if ?c then _ else _] => destruct c
      end; subst r; cbn [fst snd]; (split; [reflexivity|]);
        (split; [apply lookup_insert_eq | discriminate]).
    + subst r. cbn [fst snd]. split; [reflexivity|].
      split; [apply lookup_insert_eq | reflexivity].
  - intros st_off Hoff. now apply cel_report_event_disabled.
Qed.

End EngineProperties.

(** ** Balance of acquisitions and retirement checks *)

Section TrackerProperties.
Context `{cel_platform}.

Lemma set_linkedids_id st : set_linkedids st (linkedids st) = st.
Proof. destruct st; reflexivity. Qed.

Lemma nonempty_true s : s <> "" -> nonempty s = true.
Proof. destruct s; [contradiction|reflexivity]. Qed.

(** One retirement check on an entry that holds [refs] references. *)
Lemma check_retire_linkedid_spec snapshot st g refs :
  current_general st = Some g ->
  Z.testbit (events g) AST_CEL_LINKEDID_END = true ->
  linkedid snapshot <> "" ->
  linkedids st !! linkedid snapshot = Some refs ->
  check_retire_linkedid snapshot st
  = if refs =? 2
    then snd (cel_report_event snapshot AST_CEL_LINKEDID_END None None
                (set_linkedids st (delete (linkedid snapshot) (linkedids st))))
    else set_linkedids st (<[linkedid snapshot := refs - 1]> (linkedids st)).
Proof.
  intros Hg Hbit Hne Hl. unfold check_retire_linkedid.
  unfold ast_strlen_zero. rewrite (nonempty_true _ Hne). cbn [negb orb].
  rewrite (ast_cel_track_event_zero st g) by (trivial; vm_compute; split; congruence).
  rewrite Hbit, Hl. cbn [negb]. unfold ao2_ref.
  destruct (Z.eqb_spec (refs + 1) 3) as [E|E];
    destruct (Z.eqb_spec refs 2) as [E'|E']; try lia; [reflexivity|].
  do 2 f_equal. lia.
Qed.

(** The check for the last channel: the entry goes and the event is
    handed to the backends, built from the snapshot of that channel. *)
Lemma check_retire_linkedid_last snapshot st g :
  current_general st = Some g -> enable g = true ->
  Z.testbit (events g) AST_CEL_LINKEDID_END = true ->
  linkedid snapshot <> "" ->
  linkedids st !! linkedid snapshot = Some 2 ->
  check_retire_linkedid snapshot st
  = distribute (ast_cel_create_event (tvnow st) snapshot AST_CEL_LINKEDID_END
                  None None)
      (set_linkedids st (delete (linkedid snapshot) (linkedids st))).
Proof.
  intros Hg Hen Hbit Hne Hl.
  rewrite (check_retire_linkedid_spec snapshot st g 2) by assumption.
  cbn [Z.eqb Pos.eqb].
  rewrite (cel_report_event_other _ _ _ _ _ g)
    by (trivial; vm_compute; try split; congruence).
  rewrite Hbit. reflexivity.
Qed.

(** A check while other channels still carry the id only drops one
    reference. *)
Lemma check_retire_linkedid_not_last snapshot st g refs :
  current_general st = Some g ->
  Z.testbit (events g) AST_CEL_LINKEDID_END = true ->
  linkedid snapshot <> "" ->
  linkedids st !! linkedid snapshot = Some refs -> refs <> 2 ->
  check_retire_linkedid snapshot st
  = set_linkedids st (<[linkedid snapshot := refs - 1]> (linkedids st)).
Proof.
  intros Hg Hbit Hne Hl Hr.
  rewrite (check_retire_linkedid_spec snapshot st g refs) by assumption.
  destruct (Z.eqb_spec refs 2); [contradiction|reflexivity].
Qed.

Ltac same_count :=
  unfold set_linkedids;
  match goal with
  | |- mk_state _ (<[_ := ?a]> _) _ _ _ _ = mk_state _ (<[_ := ?b]> _) _ _ _ _ =>
      replace a with b by (cbn [length]; lia); reflexivity
  end.

Lemma run_ops_app a b st : run_ops (a ++ b) st = run_ops b (run_ops a st).
Proof. unfold run_ops. apply fold_left_app. Qed.

(** While at least one channel stays live, the operations only move
    the count of the entry: it is the count before plus the balance. *)
Lemma run_ops_live L g ops : forall st refs,
  current_general st = Some g ->
  Z.testbit (events g) AST_CEL_LINKEDID_END = true ->
  L <> "" -> Forall (fun op => linkedid (op_snapshot op) = L) ops ->
  linkedids st !! L = Some refs ->
  (forall k, (k <= length ops)%nat -> 2 <= refs + balance (take k ops)) ->
  run_ops ops st
  = set_linkedids st (<[L := refs + balance ops]> (linkedids st)).
Proof.
  induction ops as [|op ops IH]; intros st refs Hg Hbit HL Hall Hl Hlive.
  - cbn [run_ops fold_left balance]. rewrite Z.add_0_r.
    rewrite insert_id by assumption. symmetry. apply set_linkedids_id.
  - apply Forall_cons in Hall as [Hop Hall].
    change (run_ops (op :: ops) st) with (run_ops ops (run_op op st)).
    destruct op as [s|s]; cbn [op_snapshot] in Hop; cbn [run_op balance].
    + rewrite Hop, (cel_linkedid_ref_nonempty L st HL), Hl. cbn [snd].
      rewrite (IH _ (refs + 1)); trivial.
      * cbn [set_linkedids linkedids cel_configs cel_dialstatus_store
             cel_backends tvnow fanout].
        rewrite insert_insert_eq. same_count.
      * apply lookup_insert_eq.
      * intros k Hk. specialize (Hlive (S k) ltac:(cbn [length]; lia)).
        cbn [firstn balance] in Hlive. lia.
    + pose proof (Hlive 1%nat ltac:(cbn [length]; lia)) as H1.
      cbn [firstn balance] in H1. rewrite take_0 in H1. cbn [balance] in H1.
      rewrite (check_retire_linkedid_not_last s st g refs);
        rewrite ?Hop; trivial; [|lia].
      rewrite (IH _ (refs - 1)); trivial.
      * cbn [set_linkedids linkedids cel_configs cel_dialstatus_store
             cel_backends tvnow fanout].
        rewrite insert_insert_eq. same_count.
      * apply lookup_insert_eq.
      * intros k Hk. specialize (Hlive (S k) ltac:(cbn [length]; lia)).
        cbn [firstn balance] in Hlive. lia.
Qed.

(** C1.  A linked id the tracker does not hold is acquired for a first
    channel; acquisitions and retirement checks for channels carrying
    the id follow in any order in which some channel stays live; the
    retirement check of the last live channel comes last.  Up to that
    check the entry counts one reference per live channel beside the
    link and nothing is handed to the backends; the last check unlinks
    the entry and hands out the one [LINKEDID_END], built from the
    snapshot of that last channel. *)
Theorem linkedid_end_exactly_once
    (L : string) (first last : ast_channel_snapshot)
    (mid : list tracker_op) (st : cel_state) (g : ast_cel_general_config) :
  current_general st = Some g ->
  enable g = true ->
  Z.testbit (events g) AST_CEL_LINKEDID_END = true ->
  L <> "" ->
  linkedids st !! L = None ->
  linkedid first = L ->
  linkedid last = L ->
  Forall (fun op => linkedid (op_snapshot op) = L) mid ->
  (forall k, (k <= length mid)%nat -> 0 <= balance (take k mid)) ->
  balance mid = 0 ->
  (forall k, (k <= length mid)%nat ->
     let live := Acquire first :: take k mid in
     fanout (run_ops live st) = fanout st
     /\ linkedids (run_ops live st) !! L = Some (balance live + 1))
  /\ (let st' := run_ops (Acquire first :: mid ++ [Retire last]) st in
      linkedids st' !! L = None
      /\ linkedids st' = linkedids st
      /\ fanout st'
         = (fanout st ++ [reported st last AST_CEL_LINKEDID_END None None])%list).
Proof.
  intros Hg Hen Hbit HL Hfresh Hfirst Hlast Hmid Hlive Hbal.
  set (st1 := set_linkedids st (<[L := 2]> (linkedids st))).
  assert (Hst1 : run_op (Acquire first) st = st1).
  { cbn [run_op]. rewrite Hfirst, (cel_linkedid_ref_nonempty L st HL), Hfresh.
    reflexivity. }
  assert (Hrun : forall k, (k <= length mid)%nat ->
            run_ops (Acquire first :: take k mid) st
            = set_linkedids st
                (<[L := balance (Acquire first :: take k mid) + 1]>
                   (linkedids st))).
  { intros k Hk.
    change (run_ops (Acquire first :: take k mid) st)
      with (run_ops (take k mid) (run_op (Acquire first) st)).
    rewrite Hst1, (run_ops_live L g (take k mid) st1 2); trivial.
    - subst st1.
      cbn [set_linkedids linkedids cel_configs cel_dialstatus_store
           cel_backends tvnow fanout balance].
      rewrite insert_insert_eq. same_count.
    - now apply Forall_take.
    - apply lookup_insert_eq.
    - intros j Hj. rewrite length_take in Hj. rewrite take_take.
      specialize (Hlive (j `min` k)%nat ltac:(lia)). lia. }
  split.
  - intros k Hk live. subst live. rewrite (Hrun k Hk).
    split; [reflexivity | apply lookup_insert_eq].
  - intros st'. subst st'.
    change (run_ops (Acquire first :: mid ++ [Retire last]) st)
      with (run_ops ((Acquire first :: mid) ++ [Retire last]) st).
    rewrite run_ops_app.
    pose proof (Hrun (length mid) (Nat.le_refl _)) as Hfin.
    rewrite take_ge in Hfin by lia. rewrite Hfin.
    cbn [balance]. rewrite Hbal.
    cbn [run_ops fold_left run_op].
    rewrite (check_retire_linkedid_last last _ g); trivial.
    + cbn [set_linkedids linkedids cel_configs cel_dialstatus_store
           cel_backends tvnow fanout distribute].
      rewrite Hlast, delete_insert_eq, lookup_delete_eq.
      rewrite (delete_id _ _ Hfresh). repeat split; reflexivity.
    + now rewrite Hlast.
    + rewrite Hlast. apply lookup_insert_eq.
Qed.

End TrackerProperties.

(** ** The dial callback and the hangup transition *)

Section DialstatusProperties.
Context `{cel_platform}.

Lemma stored_dialstatus_eq b :
  (if negb (ast_strlen_zero (get_blob_variable b "dialstatus"))
   then default "" (get_blob_variable b "dialstatus") else "")
  = stored_dialstatus (Some b).
Proof.
  unfold stored_dialstatus, S_OR, ast_strlen_zero.
  destruct (get_blob_variable b "dialstatus") as [s|]; [|reflexivity].
  destruct (nonempty s); reflexivity.
Qed.

(** The state a hangup transition leaves when [HANGUP] is reported. *)
Lemma cel_channel_state_change_hangup old new st g :
  current_general st = Some g ->
  enable g = true ->
  Z.testbit (events g) AST_CEL_HANGUP = true ->
  ast_test_flag (flags old) AST_FLAG_DEAD = 0 ->
  ast_test_flag (flags new) AST_FLAG_DEAD <> 0 ->
  cel_channel_state_change (Some old) (Some new) st
  = distribute
      (ast_cel_create_event (tvnow st) new AST_CEL_HANGUP None
         (Some (hangup_extra new
                  (stored_dialstatus (cel_dialstatus_store st !! uniqueid new)))))
      (set_dialstatus_store st
         (delete (uniqueid new) (cel_dialstatus_store st))).
Proof.
  intros Hg Hen Hbit Hold Hnew.
  unfold cel_channel_state_change. rewrite Hold.
  apply Z.eqb_neq in Hnew. rewrite Hnew. cbn [Z.eqb negb andb].
  unfold get_dialstatus_blob, ao2_find_unlink.
  rewrite (cel_report_event_other _ _ _ _ _ g)
    by (trivial; vm_compute; try split; congruence).
  rewrite Hbit. cbn [snd andb].
  change (AST_CEL_HANGUP =? AST_CEL_APP_START) with false.
  change (AST_CEL_HANGUP =? AST_CEL_APP_END) with false.
  cbn [orb andb negb].
  cbn [tvnow set_dialstatus_store]. do 4 f_equal.
  destruct (cel_dialstatus_store st !! uniqueid new) as [b|]; [|reflexivity].
  apply stored_dialstatus_eq.
Qed.

End DialstatusProperties.

(** ** Order of the snapshot monitors *)

Section OrderProperties.
Context `{cel_platform}.

(** What is left alone by a step that may only append to the fan-out
    and change the tracker or the dial-status store. *)
Lemma check_retire_linkedid_frame snapshot st :
  let st' := check_retire_linkedid snapshot st in
  cel_configs st' = cel_configs st
  /\ cel_dialstatus_store st' = cel_dialstatus_store st
  /\ cel_backends st' = cel_backends st
  /\ tvnow st' = tvnow st
  /\ fanout st `prefix_of` fanout st'.
Proof.
  unfold check_retire_linkedid.
  destruct (ast_strlen_zero (Some (linkedid snapshot))
            || (ast_cel_track_event st AST_CEL_LINKEDID_END =? 0));
    [repeat split; reflexivity|].
  destruct (linkedids st !! linkedid snapshot) as [refs|];
    [|repeat split; reflexivity].
  unfold ao2_ref. destruct (refs + 1 =? 3); [|repeat split; reflexivity].
  destruct (cel_report_event_frame snapshot AST_CEL_LINKEDID_END None None
              (set_linkedids st (delete (linkedid snapshot) (linkedids st))))
    as (H1 & H2 & H3 & H4 & _ & H6).
  repeat split; assumption.
Qed.

Lemma cel_channel_linkedid_change_frame o n st :
  let st' := cel_channel_linkedid_change o n st in
  cel_configs st' = cel_configs st
  /\ cel_dialstatus_store st' = cel_dialstatus_store st
  /\ cel_backends st' = cel_backends st
  /\ tvnow st' = tvnow st
  /\ fanout st `prefix_of` fanout st'.
Proof.
  unfold cel_channel_linkedid_change.
  destruct o as [old|], n as [new|]; try (repeat split; reflexivity).
  destruct (negb (strcmp (linkedid old) (linkedid new) =? 0));
    [|repeat split; reflexivity].
  set (s1 := snd (cel_linkedid_ref (linkedid new) st)).
  assert (Hs1 : cel_configs s1 = cel_configs st
                /\ cel_dialstatus_store s1 = cel_dialstatus_store st
                /\ cel_backends s1 = cel_backends st
                /\ tvnow s1 = tvnow st /\ fanout s1 = fanout st).
  { subst s1. unfold cel_linkedid_ref.
    destruct (ast_strlen_zero (Some (linkedid new)));
      [repeat split; reflexivity|].
    destruct (linkedids st !! linkedid new); repeat split; reflexivity. }
  destruct Hs1 as (H1 & H2 & H3 & H4 & H5).
  destruct (check_retire_linkedid_frame old s1) as (K1 & K2 & K3 & K4 & K5).
  rewrite <- H1, <- H2, <- H3, <- H4, <- H5. repeat split; assumption.
Qed.

(** C3.  An update that passes the filter runs the application monitor,
    then the state monitor, then the linked-id monitor.  Hence, when
    the application and the hangup flag change in one update, the
    [APP_END] entry of the fan-out precedes the [HANGUP] entry; and
    when the update removes the channel, [CHANNEL_END] is in the
    fan-out, with the tracker still as it was, before the retirement
    check runs. *)
Theorem cel_snapshot_update_cb_order
    (update : stasis_cache_update) (st : cel_state) :
  update_is_channel_snapshot update = true ->
  cel_filter_channel_snapshot (old_snapshot update) = 0 ->
  cel_filter_channel_snapshot (new_snapshot update) = 0 ->
  let o := old_snapshot update in
  let n := new_snapshot update in
  cel_snapshot_update_cb update st
  = cel_channel_linkedid_change o n
      (cel_channel_state_change o n (cel_channel_app_change o n st))
  /\ (forall old new g,
        o = Some old -> n = Some new ->
        current_general st = Some g -> enable g = true ->
        Z.testbit (events g) AST_CEL_APP_END = true ->
        Z.testbit (events g) AST_CEL_HANGUP = true ->
        appl old <> "" -> strcmp (appl old) (appl new) <> 0 ->
        cel_track_app st (appl old) <> 0 ->
        ast_test_flag (flags old) AST_FLAG_DEAD = 0 ->
        ast_test_flag (flags new) AST_FLAG_DEAD <> 0 ->
        exists mid tail,
          fanout (cel_snapshot_update_cb update st)
          = (fanout st
             ++ [reported st old AST_CEL_APP_END None None]
             ++ mid
             ++ [reported st new AST_CEL_HANGUP None
                   (Some (hangup_extra new
                      (stored_dialstatus
                         (cel_dialstatus_store st !! uniqueid new))))]
             ++ tail)%list)
  /\ (forall old g,
        o = Some old -> n = None ->
        current_general st = Some g -> enable g = true ->
        Z.testbit (events g) AST_CEL_CHANNEL_END = true ->
        exists pre st1,
          fanout st1
          = (fanout st ++ pre
             ++ [reported st old AST_CEL_CHANNEL_END None None])%list
          /\ linkedids st1 = linkedids st
          /\ cel_snapshot_update_cb update st = check_retire_linkedid old st1
          /\ fanout st1 `prefix_of` fanout (check_retire_linkedid old st1)).
Proof.
  intros Htype Hfo Hfn o n.
  assert (Horder : cel_snapshot_update_cb update st
                   = cel_channel_linkedid_change o n
                       (cel_channel_state_change o n
                          (cel_channel_app_change o n st))).
  { unfold cel_snapshot_update_cb. rewrite Htype, Hfo, Hfn. reflexivity. }
  split; [exact Horder|]. split.
  - intros old new g Ho Hn Hg Hen Hae Hhu Happ Hcmp Htrack Hold Hnew.
    rewrite Horder, Ho, Hn.
    (* the application monitor *)
    set (sa1 := distribute
                  (ast_cel_create_event (tvnow st) old AST_CEL_APP_END None None)
                  st).
    set (sa := cel_channel_app_change (Some old) (Some new) st).
    assert (Hsa : cel_configs sa = cel_configs st
                  /\ cel_dialstatus_store sa = cel_dialstatus_store st
                  /\ cel_backends sa = cel_backends st
                  /\ tvnow sa = tvnow st
                  /\ fanout sa1 `prefix_of` fanout sa).
    { subst sa. unfold cel_channel_app_change.
      apply Z.eqb_neq in Hcmp. rewrite Hcmp.
      assert (Hz : ast_strlen_zero (Some (appl old)) = false).
      { unfold ast_strlen_zero. now rewrite (nonempty_true _ Happ). }
      rewrite Hz. cbn [negb].
      rewrite (cel_report_event_other old _ _ _ st g)
        by (trivial; vm_compute; try split; congruence).
      rewrite Hae. apply Z.eqb_neq in Htrack. rewrite Htrack.
      rewrite andb_false_r. cbn [negb andb snd]. fold sa1.
      destruct (negb (ast_strlen_zero (Some (appl new))));
        [|repeat split; reflexivity].
      destruct (cel_report_event_frame new AST_CEL_APP_START None None sa1)
        as (H1 & H2 & H3 & H4 & _ & H6).
      repeat split; assumption. }
    destruct Hsa as (Ha1 & Ha2 & Ha3 & Ha4 & [mid Hmid]). clearbody sa.
    (* the state monitor *)
    assert (Hga : current_general sa = Some g).
    { unfold current_general in *. now rewrite Ha1. }
    rewrite (cel_channel_state_change_hangup old new sa g Hga Hen Hhu Hold Hnew).
    (* the linked-id monitor *)
    match goal with
    | |- context [cel_channel_linkedid_change ?a ?b ?s] =>
        destruct (cel_channel_linkedid_change_frame a b s)
          as (_ & _ & _ & _ & [tail Htail])
    end.
    exists mid, tail. rewrite Htail.
    cbn [distribute fanout set_dialstatus_store cel_backends tvnow].
    rewrite Hmid, Ha2, Ha3, Ha4. subst sa1. cbn [distribute fanout].
    unfold reported. rewrite <- !app_assoc. reflexivity.
  - intros old g Ho Hn Hg Hen Hce. rewrite Horder, Ho, Hn.
    set (sa := cel_channel_app_change (Some old) None st).
    assert (Hsa : cel_configs sa = cel_configs st
                  /\ cel_backends sa = cel_backends st
                  /\ tvnow sa = tvnow st
                  /\ linkedids sa = linkedids st
                  /\ fanout st `prefix_of` fanout sa).
    { subst sa. unfold cel_channel_app_change.
      destruct (negb (ast_strlen_zero (Some (appl old))));
        [|repeat split; reflexivity].
      destruct (cel_report_event_frame old AST_CEL_APP_END None None st)
        as (H1 & _ & H3 & H4 & H5 & H6).
      repeat split; trivial. apply H5. vm_compute. congruence. }
    destruct Hsa as (Ha1 & Ha3 & Ha4 & Ha5 & [pre Hpre]). clearbody sa.
    assert (Hga : current_general sa = Some g).
    { unfold current_general in *. now rewrite Ha1. }
    set (s1 := distribute
                 (ast_cel_create_event (tvnow sa) old AST_CEL_CHANNEL_END
                    None None) sa).
    assert (Hs1 : cel_channel_state_change (Some old) None sa
                  = check_retire_linkedid old s1).
    { unfold cel_channel_state_change.
      rewrite (cel_report_event_other old _ _ _ sa g)
        by (trivial; vm_compute; try split; congruence).
      rewrite Hce. reflexivity. }
    exists pre, s1. rewrite Hs1. split; [|split; [|split]].
    + subst s1. cbn [distribute fanout]. unfold reported.
      rewrite Hpre, Ha3, Ha4, <- app_assoc. reflexivity.
    + subst s1. exact Ha5.
    + reflexivity.
    + apply check_retire_linkedid_frame.
Qed.

End OrderProperties.

(** ** The record round trip *)

Section RecordProperties.
Context `{cel_platform}.

Lemma S_OR_Some s : S_OR (Some s) "" = s.
Proof. destruct s; reflexivity. Qed.

(** The record [ast_cel_fill_record] reads back from an event that
    [ast_cel_create_event] built: every field is the one of the
    snapshot, except [peer_account], which is read from the account
    code element. *)
Lemma ast_cel_fill_record_created now snapshot et ud ex r :
  version r = AST_CEL_EVENT_RECORD_VERSION ->
  ast_cel_fill_record (ast_cel_create_event now snapshot et ud ex) r
  = (0, {| version := version r;
           event_type := et;
           event_time := now;
           event_name := ast_cel_get_type_name et;
           user_defined_name :=
             if et =? AST_CEL_USER_DEFINED then Some (S_OR ud "") else Some "";
           caller_id_name := caller_name snapshot;
           caller_id_num := caller_number snapshot;
           caller_id_ani := caller_ani snapshot;
           caller_id_rdnis := caller_rdnis snapshot;
           caller_id_dnid := caller_dnid snapshot;
           extension := exten snapshot;
           rec_context := chan_context snapshot;
           channel_name := name snapshot;
           application_name := appl snapshot;
           application_data := data snapshot;
           account_code := accountcode snapshot;
           peer_account := accountcode snapshot;
           unique_id := uniqueid snapshot;
           linked_id := linkedid snapshot;
           amaflag := amaflags snapshot;
           user_field := userfield snapshot;
           peer := "";
           extra := S_OR (ast_json_dump_string <$> ex) "" |}).
Proof.
  intros Hv. unfold ast_cel_fill_record. rewrite Hv, Z.eqb_refl. cbn [negb].
  set (e := ast_cel_create_event now snapshot et ud ex).
  assert (Hstr : forall ie s,
            ast_event_get_ie e ie = Some (AST_EVENT_IE_PLTYPE_STR s) ->
            ast_event_get_ie_str e ie = Some s).
  { intros ie s Hie. unfold ast_event_get_ie_str. now rewrite Hie. }
  assert (Huint : forall ie v,
            ast_event_get_ie e ie = Some (AST_EVENT_IE_PLTYPE_UINT v) ->
            ast_event_get_ie_uint e ie = v).
  { intros ie v Hie. unfold ast_event_get_ie_uint. now rewrite Hie. }
  repeat match goal with
         | |- context [ast_event_get_ie_str e ?ie] =>
             erewrite (Hstr ie) by reflexivity
         | |- context [ast_event_get_ie_uint e ?ie] =>
             erewrite (Huint ie) by reflexivity
         end.
  rewrite !S_OR_Some. destruct now. reflexivity.
Qed.

(** C6 (the code departs from the claim).  For a channel whose account
    code is [acct] and whose peer account is [peer], the record filled
    from the event built for it has [peer_account] equal to [acct]:
    the fill reads the account-code element where the builder stored
    the peer account under the peer-account element. *)
Theorem fill_record_peer_account_reads_acctcode
    (now : timeval) (et : Z) :
  let r := snd (ast_cel_fill_record
                  (ast_cel_create_event now alice et None None) fresh_record) in
  peeraccount alice = "peer"
  /\ peer_account r = "acct"
  /\ peer_account r <> peeraccount alice
  /\ account_code r = accountcode alice
  /\ ast_event_get_ie_str (ast_cel_create_event now alice et None None)
       AST_EVENT_IE_CEL_PEERACCT = Some "peer".
Proof.
  intros r. subst r.
  rewrite ast_cel_fill_record_created by reflexivity. cbn [snd peer_account].
  repeat split; try reflexivity. discriminate.
Qed.

End RecordProperties.

(** ** The backend registry *)

(** C7 (as amended).  Registration with a NULL or empty name fails and
    leaves the registry alone; registration under any other name
    succeeds, whether or not the name is registered already, and the
    registry then holds the given callback under that name; removing a
    name that is not registered fails and leaves the registry alone,
    removing a registered one unlinks it. *)
Theorem backend_register_unregister
    (name : string) (cb : ast_cel_backend_cb) (st : cel_state) :
  ast_cel_backend_register None cb st = (-1, st)
  /\ ast_cel_backend_register (Some "") cb st = (-1, st)
  /\ (name <> "" ->
      ast_cel_backend_register (Some name) cb st
      = (0, set_backends st (<[name := cb]> (cel_backends st))))
  /\ (cel_backends st !! name = None ->
      ast_cel_backend_unregister name st = (-1, st))
  /\ (is_Some (cel_backends st !! name) ->
      ast_cel_backend_unregister name st
      = (0, set_backends st (delete name (cel_backends st)))).
Proof.
  split; [reflexivity|]. split; [reflexivity|]. split; [|split].
  - intros Hne. unfold ast_cel_backend_register, ast_strlen_zero.
    now rewrite (nonempty_true _ Hne).
  - intros Hn. unfold ast_cel_backend_unregister, ao2_find_unlink.
    now rewrite Hn.
  - intros [x Hx]. unfold ast_cel_backend_unregister, ao2_find_unlink.
    now rewrite Hx.
Qed.

(** * The properties on concrete runs *)

Section Examples.

#[local] Existing Instance example_platform.

(** Three channels share the linked id [1000.1]; they come and go
    interleaved, the third is the last to go. *)
Lemma linkedid_end_exactly_once_witness :
  let st := example_state example_general in
  let mid := [Acquire bob; Retire alice; Acquire carol; Retire bob] in
  linkedids (run_ops (Acquire alice :: mid) st) !! "1000.1" = Some 2
  /\ fanout (run_ops (Acquire alice :: mid) st) = fanout st
  /\ linkedids (run_ops (Acquire alice :: mid ++ [Retire carol]) st)
       !! "1000.1" = None
  /\ fanout (run_ops (Acquire alice :: mid ++ [Retire carol]) st)
     = (fanout st ++ [reported st carol AST_CEL_LINKEDID_END None None])%list.
Proof.
  intros st mid.
  assert (Hlive : forall k, (k <= length mid)%nat -> 0 <= balance (take k mid)).
  { intros k Hk.
    do 5 (destruct k as [|k]; [vm_compute; discriminate|]).
    simpl in Hk. lia. }
  pose proof (linkedid_end_exactly_once "1000.1" alice carol mid st
                example_general eq_refl eq_refl eq_refl
                ltac:(discriminate) eq_refl eq_refl eq_refl
                ltac:(repeat constructor) Hlive eq_refl)
    as (H1 & H2 & _ & H4).
  destruct (H1 4%nat ltac:(simpl; lia)) as [H11 H12].
  repeat split; assumption.
Defined.


(** One update ends the application [Dial] and hangs the channel up;
    another removes a channel. *)
Lemma cel_snapshot_update_cb_order_witness :
  let st := example_state example_general_apps in
  let old := with_appl alice "Dial" in
  let new := dead_chan alice in
  (exists mid tail,
     fanout (cel_snapshot_update_cb (mk_cache_update true (Some old) (Some new)) st)
     = (fanout st
        ++ [reported st old AST_CEL_APP_END None None]
        ++ mid
        ++ [reported st new AST_CEL_HANGUP None
              (Some (hangup_extra new
                 (stored_dialstatus (cel_dialstatus_store st !! uniqueid new))))]
        ++ tail)%list)
  /\ cel_snapshot_update_cb (mk_cache_update true (Some old) None)
       (example_state example_general)
     = cel_channel_linkedid_change (Some old) None
         (cel_channel_state_change (Some old) None
            (cel_channel_app_change (Some old) None
               (example_state example_general))).
Proof.
  intros st old new. split.
  - pose proof (cel_snapshot_update_cb_order
                  (mk_cache_update true (Some old) (Some new)) st
                  eq_refl eq_refl eq_refl) as (_ & H2 & _).
    apply (H2 old new example_general_apps); try reflexivity;
      vm_compute; discriminate.
  - apply (cel_snapshot_update_cb_order
             (mk_cache_update true (Some old) None)
             (example_state example_general) eq_refl eq_refl eq_refl).
Defined.


(** C4 (counterexample).  A pickup whose two channels both carry the
    INTERNAL flag: the callback does not consult the filter and the
    [PICKUP] event is handed to the registered backend. *)
Lemma internal_pickup_is_reported :
  cel_filter_channel_snapshot (Some (internal_chan alice)) <> 0
  /\ cel_filter_channel_snapshot (Some (internal_chan bob)) <> 0
  /\ fanout (cel_pickup_cb pickup_blob (example_state example_general))
     = [reported (example_state example_general) (internal_chan alice)
          AST_CEL_PICKUP None
          (Some (JObj [("pickup_channel", JStr (name (internal_chan bob)))]))]
  /\ cel_backends (example_state example_general) !! "cel_manager"
     = Some 1%nat
  /\ fanout (cel_pickup_cb pickup_blob (example_state example_general))
     <> fanout (example_state example_general).
Proof.
  split; [vm_compute; discriminate|]. split; [vm_compute; discriminate|].
  split; [vm_compute; reflexivity|]. split; [vm_compute; reflexivity|].
  vm_compute. discriminate.
Qed.

(** Only [LINKEDID_END] is tracked: the start event is dropped, the
    linked id is acquired. *)
Lemma cel_report_event_channel_start_acquires_witness :
  let st := example_state (mk_general true "" (Z.shiftl 1 AST_CEL_LINKEDID_END) ∅) in
  let r := cel_report_event alice AST_CEL_CHANNEL_START None None st in
  fst r = 0
  /\ linkedids (snd r) !! "1000.1" = Some 2
  /\ fanout (snd r) = fanout st.
Proof.
  intros st r.
  pose proof (cel_report_event_channel_start_acquires alice None None st
                (mk_general true "" (Z.shiftl 1 AST_CEL_LINKEDID_END) ∅)
                eq_refl eq_refl eq_refl) as (_ & H2 & _).
  destruct (H2 ltac:(discriminate)) as (H21 & H22 & H23).
  split; [exact H21|]. split; [exact H22|]. apply H23. reflexivity.
Defined.

Lemma cel_report_event_empty_linkedid_fails_witness :
  let st := example_state example_general in
  cel_report_event (example_snapshot "1000.9" "") AST_CEL_CHANNEL_START
    None None st = (-1, st).
Proof.
  intros st.
  apply (cel_report_event_empty_linkedid_fails (example_snapshot "1000.9" "")
           None None st example_general eq_refl eq_refl eq_refl eq_refl).
Defined.

Lemma backend_register_unregister_witness :
  let st := example_state example_general in
  ast_cel_backend_register (Some "cel_custom") 2%nat st
  = (0, set_backends st (<["cel_custom" := 2%nat]> (cel_backends st)))
  /\ ast_cel_backend_unregister "cel_custom" st = (-1, st).
Proof.
  intros st.
  pose proof (backend_register_unregister "cel_custom" 2%nat st)
    as (_ & _ & H3 & H4 & _).
  split; [apply H3; discriminate | apply H4; vm_compute; reflexivity].
Defined.

(** C7 (counterexample).  A second registration under a name that is
    registered already returns success. *)
Lemma duplicate_backend_registration_succeeds :
  let st := example_state example_general in
  cel_backends st !! "cel_manager" = Some 1%nat
  /\ fst (ast_cel_backend_register (Some "cel_manager") 2%nat st) = 0
  /\ ast_cel_backend_register (Some "cel_manager") 2%nat st <> (-1, st).
Proof.
  vm_compute. repeat split; try reflexivity. discriminate.
Qed.

(** The parking, local-optimisation and generic callbacks report for
    an internal channel as for any other. *)
Example internal_channels_outside_the_filter :
  let st := example_state example_general in
  let chan := internal_chan alice in
  event_types_of
    (cel_parking_cb (mk_parked_call_payload chan PARKED_CALL "SIP/bob" "default") st)
  = [ AST_CEL_PARK_START ]
  /\ event_types_of
       (cel_parking_cb
          (mk_parked_call_payload chan PARKED_CALL_TIMEOUT "" "default") st)
     = [ AST_CEL_PARK_END ]
  /\ event_types_of
       (cel_local_cb
          (mk_multi_channel_blob [("1", chan); ("2", internal_chan bob)] None) st)
     = [ AST_CEL_LOCAL_OPTIMIZE ]
  /\ event_types_of
       (cel_generic_cb
          (mk_channel_blob chan
             (Some (JObj [("event_type", JInt AST_CEL_USER_DEFINED);
                          ("event_details",
                           JObj [("event", JStr "survey");
                                 ("extra", JObj [])])]))) st)
     = [ AST_CEL_USER_DEFINED ].
Proof. vm_compute. repeat split; reflexivity. Qed.

(** A simple call with every event tracked: start, answer, hangup,
    end of the channel, end of the linked id. *)
Example simple_call_events :
  let up := with_state alice AST_STATE_UP in
  event_types_of
    (run_updates
       [ channel_update None (Some alice);
         channel_update (Some alice) (Some up);
         channel_update (Some up) (Some (dead_chan up));
         channel_update (Some (dead_chan up)) None ]
       (example_state example_general))
  = [ AST_CEL_CHANNEL_START; AST_CEL_ANSWER; AST_CEL_HANGUP;
      AST_CEL_CHANNEL_END; AST_CEL_LINKEDID_END ].
Proof. vm_compute. reflexivity. Qed.

(** The dial status of a dial envelope reaches the hangup event, and
    the store is empty afterwards. *)
Example dial_status_reaches_hangup :
  let st := run_updates
              [ channel_update (Some alice) (Some (dead_chan alice)) ]
              (cel_dial_cb (dial_blob alice "BUSY")
                 (run_updates [ channel_update None (Some alice) ]
                    (example_state example_general))) in
  event_types_of st = [ AST_CEL_CHANNEL_START; AST_CEL_HANGUP ]
  /\ event_extras_of st
     = [ Some ""; Some (json_compact (hangup_extra (dead_chan alice) "BUSY")) ]
  /\ cel_dialstatus_store st = ∅.
Proof. vm_compute. repeat split; reflexivity. Qed.

(** Only the listed application is reported, under any letter case. *)
Example app_filter_blocks_events :
  let g := mk_general true ""
             (Z.lor (Z.shiftl 1 AST_CEL_APP_START) (Z.shiftl 1 AST_CEL_APP_END))
             {[ "dial" ]} in
  event_types_of
    (run_updates [ channel_update (Some alice) (Some (with_appl alice "Queue")) ]
       (example_state g)) = []
  /\ event_types_of
       (run_updates
          [ channel_update (Some alice) (Some (with_appl alice "Dial")) ]
          (example_state g)) = [ AST_CEL_APP_START ].
Proof. vm_compute. split; reflexivity. Qed.

(** The handlers of the two configuration lists on sample values. *)
Example events_handler_list :
  events_handler " HANGUP, APP_END ,," (mk_general true "" 0 ∅)
  = (0, mk_general true "" 80 ∅)
  /\ events_handler "ALL" (mk_general true "" 0 ∅)
     = (0, mk_general true "" (-1) ∅)
  /\ apps (snd (apps_handler "Dial, QUEUE" (mk_general true "" 0 ∅)))
     = {[ "dial"; "queue" ]}.
Proof. vm_compute. repeat split; reflexivity. Qed.

End Examples.

(** * Further properties of [main/cel.c] *)

(** ** Event names and the event mask *)

Lemma str_to_event_type_from_spec tbl : forall i name,
  str_to_event_type_from i tbl name = -1
  \/ (i <= str_to_event_type_from i tbl name < i + Z.of_nat (length tbl)
      /\ exists n,
           tbl !! Z.to_nat (str_to_event_type_from i tbl name - i) = Some (Some n)
           /\ strcasecmp name n = 0).
Proof.
  induction tbl as [|[n|] tbl IH]; intros i name; cbn [str_to_event_type_from].
  - now left.
  - destruct (Z.eqb_spec (strcasecmp name n) 0) as [E|E].
    + right. split; [cbn [length]; lia|]. exists n.
      rewrite Z.sub_diag. split; [reflexivity|assumption].
    + destruct (IH (i + 1) name) as [Hr|(Hr & m & Hm & Hc)]; [now left|].
      right. split; [cbn [length]; lia|]. exists m. split; [|assumption].
      replace (Z.to_nat (str_to_event_type_from (i + 1) tbl name - i))
        with (S (Z.to_nat (str_to_event_type_from (i + 1) tbl name - (i + 1))))
        by lia.
      exact Hm.
  - destruct (IH (i + 1) name) as [Hr|(Hr & m & Hm & Hc)]; [now left|].
    right. split; [cbn [length]; lia|]. exists m. split; [|assumption].
    replace (Z.to_nat (str_to_event_type_from (i + 1) tbl name - i))
      with (S (Z.to_nat (str_to_event_type_from (i + 1) tbl name - (i + 1))))
      by lia.
    exact Hm.
Qed.

(** The slots of the name table: named up to 17, NULL from 18 on. *)
Lemma cel_event_types_named k n :
  cel_event_types !! k = Some (Some n) ->
  (k < 18)%nat /\ ast_cel_get_type_name (Z.of_nat k) = n.
Proof.
  intros Hk.
  do 18 (destruct k as [|k];
         [vm_compute in Hk; injection Hk as <-;
          split; [lia | vm_compute; reflexivity]|]).
  do 46 (destruct k as [|k]; [vm_compute in Hk; discriminate|]).
  vm_compute in Hk. discriminate.
Qed.

Lemma ast_cel_get_type_name_unknown c :
  17 < c < 64 -> ast_cel_get_type_name c = "Unknown".
Proof.
  intros Hc. replace c with (Z.of_nat (Z.to_nat c)) by lia.
  assert (Hk : (17 < Z.to_nat c < 64)%nat) by lia.
  generalize dependent (Z.to_nat c). intros k Hk.
  do 18 (destruct k as [|k]; [lia|]).
  do 46 (destruct k as [|k]; [vm_compute; reflexivity|]).
  lia.
Qed.

Lemma ast_cel_str_to_event_type_range name :
  ast_cel_str_to_event_type name = -1
  \/ (0 <= ast_cel_str_to_event_type name <= 17
      /\ strcasecmp name
           (ast_cel_get_type_name (ast_cel_str_to_event_type name)) = 0).
Proof.
  unfold ast_cel_str_to_event_type at 1 2.
  destruct (str_to_event_type_from_spec cel_event_types 0 name)
    as [Hr|(Hr & n & Hn & Hc)]; [now left|].
  right. fold (ast_cel_str_to_event_type name) in *.
  rewrite Z.sub_0_r in Hn.
  destruct (cel_event_types_named _ _ Hn) as [Hk Hname].
  rewrite Z2Nat.id in Hname by lia. split; [lia|]. now rewrite Hname.
Qed.

(** X1.  Names and codes of event types round-trip: the name of each
    code from 0 to 17 is looked up to that code, and a name that is
    looked up to a code is, up to letter case, the name of that code,
    which lies between 0 and 17.  The codes from 18 to 63 have the name
    [Unknown], which no lookup finds. *)
Theorem event_type_name_round_trip :
  (forall c, 0 <= c <= 17 ->
     ast_cel_str_to_event_type (ast_cel_get_type_name c) = c)
  /\ (forall name c,
        ast_cel_str_to_event_type name = c -> c <> -1 ->
        0 <= c <= 17 /\ strcasecmp name (ast_cel_get_type_name c) = 0)
  /\ (forall c, 17 < c < 64 ->
        ast_cel_get_type_name c = "Unknown"
        /\ ast_cel_str_to_event_type (ast_cel_get_type_name c) = -1).
Proof.
  split; [|split].
  - intros c Hc. replace c with (Z.of_nat (Z.to_nat c)) by lia.
    assert (Hk : (Z.to_nat c < 18)%nat) by lia.
    generalize dependent (Z.to_nat c). intros k Hk.
    do 18 (destruct k as [|k]; [vm_compute; reflexivity|]). lia.
  - intros name c <- Hne.
    destruct (ast_cel_str_to_event_type_range name) as [E|E];
      [contradiction|exact E].
  - intros c Hc. rewrite (ast_cel_get_type_name_unknown c Hc).
    split; [reflexivity | vm_compute; reflexivity].
Qed.

(** X2.  [ast_cel_track_event] returns the masked 64-bit value as an
    [int]: for a code below 32 the result is non-zero exactly when the
    bit is set, and for a code from 32 to 63 it is zero whatever the
    mask holds. *)
Theorem ast_cel_track_event_int_result
    (st : cel_state) (g : ast_cel_general_config) (et : Z) :
  current_general st = Some g ->
  (0 <= et < 32 ->
   (ast_cel_track_event st et <> 0 <-> Z.testbit (events g) et = true))
  /\ (32 <= et < 64 -> ast_cel_track_event st et = 0).
Proof.
  intros Hg. split.
  - intros Het. pose proof (ast_cel_track_event_zero st g et Hg Het) as Hz.
    destruct (Z.testbit (events g) et); cbn [negb] in Hz.
    + apply Z.eqb_neq in Hz. tauto.
    + apply Z.eqb_eq in Hz. split; [contradiction|discriminate].
  - intros Het. unfold ast_cel_track_event. rewrite Hg.
    rewrite land_bit by lia. unfold int_of_int64.
    destruct (Z.testbit (events g) et); [|reflexivity].
    replace (2 ^ et) with (2 ^ (et - 32) * 2 ^ 32)
      by (rewrite <- Z.pow_add_r by lia; f_equal; lia).
    rewrite Z.add_comm, Z_mod_plus_full. reflexivity.
Qed.

Lemma events_handler_loop_frame toks : forall cfg,
  let cfg' := snd (events_handler_loop toks cfg) in
  enable cfg' = enable cfg /\ date_format cfg' = date_format cfg
  /\ apps cfg' = apps cfg
  /\ (forall i, 0 <= i -> Z.testbit (events cfg) i = true ->
                Z.testbit (events cfg') i = true).
Proof.
  induction toks as [|tok rest IH]; intros cfg; cbn [events_handler_loop].
  - repeat split; trivial.
  - destruct (ast_strlen_zero (Some (ast_strip tok))); [apply IH|].
    destruct (ast_cel_str_to_event_type_range (ast_strip tok)) as [E|[E _]].
    + rewrite E. cbn [Z.eqb]. repeat split; trivial.
    + destruct (Z.eqb_spec (ast_cel_str_to_event_type (ast_strip tok)) 0) as [E0|E0].
      * destruct (IH (set_events cfg (-1))) as (H1 & H2 & H3 & H4).
        repeat split; trivial. intros i Hi _. apply H4; trivial.
        cbn [set_events events]. now apply Z.bits_m1.
      * destruct (Z.eqb_spec (ast_cel_str_to_event_type (ast_strip tok)) (-1));
          [lia|].
        match goal with
        | |- context [events_handler_loop rest ?c] =>
            destruct (IH c) as (H1 & H2 & H3 & H4)
        end.
        repeat split; trivial. intros i Hi Hb. apply H4; trivial.
        cbn [set_events events]. rewrite Z.lor_spec, Hb. reflexivity.
Qed.

Lemma events_handler_loop_bits toks : forall cfg i,
  0 <= i ->
  fst (events_handler_loop toks cfg) = 0 ->
  (Z.testbit (events (snd (events_handler_loop toks cfg))) i = true <->
   Z.testbit (events cfg) i = true
   \/ exists tok, tok ∈ toks /\ nonempty (ast_strip tok) = true
                  /\ (ast_cel_str_to_event_type (ast_strip tok) = 0
                      \/ ast_cel_str_to_event_type (ast_strip tok) = i)).
Proof.
  induction toks as [|tok rest IH]; intros cfg i Hi; cbn [events_handler_loop].
  - intros _. split; [now left|]. intros [?|(t & Hin & _)]; [assumption|].
    inversion Hin.
  - unfold ast_strlen_zero.
    destruct (nonempty (ast_strip tok)) eqn:Hne; cbn [negb].
    + destruct (ast_cel_str_to_event_type_range (ast_strip tok)) as [E|[E _]].
      * rewrite E. cbn [Z.eqb fst]. discriminate.
      * destruct (Z.eqb_spec (ast_cel_str_to_event_type (ast_strip tok)) 0)
          as [E0|E0].
        -- intros Hok. rewrite (IH _ i Hi Hok). cbn [set_events events].
           rewrite Z.bits_m1 by assumption. split.
           ++ intros _. right. exists tok. split; [left|]. split; [assumption|].
              now left.
           ++ intros _. now left.
        -- destruct (Z.eqb_spec (ast_cel_str_to_event_type (ast_strip tok)) (-1));
             [lia|].
           intros Hok. rewrite (IH _ i Hi Hok). cbn [set_events events].
           rewrite Z.lor_spec, Z.shiftl_1_l, Z.pow2_bits_eqb by lia.
           split.
           ++ intros [Hb|(t & Hin & Ht)].
              ** apply orb_true_iff in Hb as [Hb|Hb]; [now left|].
                 apply Z.eqb_eq in Hb. right. exists tok.
                 split; [left|]. split; [assumption|]. now right.
              ** right. exists t. split; [now right|assumption].
           ++ intros [Hb|(t & Hin & Hn & Ht)].
              ** left. rewrite Hb. reflexivity.
              ** apply elem_of_cons in Hin as [->|Hin].
                 --- destruct Ht as [Ht|Ht]; [contradiction|].
                     left. apply orb_true_iff. right. now apply Z.eqb_eq.
                 --- right. exists t. now repeat split.
    + intros Hok. rewrite (IH _ i Hi Hok). split.
      * intros [Hb|(t & Hin & Ht)]; [now left|].
        right. exists t. split; [now right|assumption].
      * intros [Hb|(t & Hin & Hn & Ht)]; [now left|].
        apply elem_of_cons in Hin as [->|Hin]; [congruence|].
        right. exists t. now repeat split.
Qed.

(** X3.  When the handler of the [events] option succeeds, a bit of
    the mask is set exactly if it was set before or if a non-blank
    field of the list names that event type or is the name [ALL]. *)
Theorem events_handler_sets_named_bits
    (value : string) (cfg : ast_cel_general_config) (i : Z) :
  0 <= i ->
  fst (events_handler value cfg) = 0 ->
  (Z.testbit (events (snd (events_handler value cfg))) i = true <->
   Z.testbit (events cfg) i = true
   \/ exists tok, tok ∈ strsep_all "," value
                  /\ nonempty (ast_strip tok) = true
                  /\ (ast_cel_str_to_event_type (ast_strip tok) = 0
                      \/ ast_cel_str_to_event_type (ast_strip tok) = i)).
Proof. intros Hi Hok. now apply events_handler_loop_bits. Qed.

(** X4.  Whether it succeeds or fails on an unknown name, the handler
    of the [events] option changes nothing but the mask, and never
    clears a bit of the mask. *)
Theorem events_handler_only_adds_bits
    (value : string) (cfg : ast_cel_general_config) :
  let cfg' := snd (events_handler value cfg) in
  enable cfg' = enable cfg
  /\ date_format cfg' = date_format cfg
  /\ apps cfg' = apps cfg
  /\ (forall i, 0 <= i -> Z.testbit (events cfg) i = true ->
                Z.testbit (events cfg') i = true).
Proof. apply events_handler_loop_frame. Qed.

Lemma apps_handler_loop_frame toks : forall cfg,
  fst (apps_handler_loop toks cfg) = 0
  /\ enable (snd (apps_handler_loop toks cfg)) = enable cfg
  /\ date_format (snd (apps_handler_loop toks cfg)) = date_format cfg
  /\ events (snd (apps_handler_loop toks cfg)) = events cfg.
Proof.
  induction toks as [|tok rest IH]; intros cfg; cbn [apps_handler_loop].
  - repeat split.
  - destruct (ast_strlen_zero (Some (ast_strip tok))); [apply IH|].
    match goal with
    | |- context [apps_handler_loop rest ?c] =>
        destruct (IH c) as (H1 & H2 & H3 & H4)
    end.
    repeat split; assumption.
Qed.

Lemma ast_str_to_lower_idem s :
  ast_str_to_lower (ast_str_to_lower s) = ast_str_to_lower s.
Proof.
  induction s as [|c s IH]; [reflexivity|].
  cbn [ast_str_to_lower]. now rewrite tolower_idem, IH.
Qed.

Section AppsProperties.
Context `{cel_platform}.

(** X5.  The handler of the [apps] option never fails and touches
    only the application set; under the configuration it leaves, an
    application is tracked exactly if its lower-cased name was in the
    set before or equals the lower-cased text of a non-blank field of
    the list. *)
Theorem apps_handler_tracks_ignoring_case
    (value : string) (cfg : ast_cel_general_config) (st : cel_state)
    (app : string) :
  current_general st = Some (snd (apps_handler value cfg)) ->
  fst (apps_handler value cfg) = 0
  /\ enable (snd (apps_handler value cfg)) = enable cfg
  /\ events (snd (apps_handler value cfg)) = events cfg
  /\ (cel_track_app st app <> 0 <->
      ast_str_to_lower app ∈ apps cfg
      \/ exists tok, tok ∈ strsep_all "," value
                     /\ nonempty (ast_strip tok) = true
                     /\ ast_str_to_lower (ast_strip tok) = ast_str_to_lower app).
Proof.
  intros Hg. unfold apps_handler in *.
  destruct (apps_handler_loop_frame (strsep_all "," value) cfg)
    as (H1 & H2 & _ & H4).
  split; [exact H1|]. split; [exact H2|]. split; [exact H4|].
  unfold cel_track_app. rewrite Hg.
  pose proof (apps_handler_loop_apps (strsep_all "," value) cfg
                (ast_str_to_lower app)) as Happs.
  destruct (bool_decide_reflect
              (ast_str_to_lower app
               ∈ apps (snd (apps_handler_loop (strsep_all "," value) cfg))))
    as [Hin|Hin].
  - split; [intros _|discriminate].
    apply Happs in Hin as [Hin|(t & Ht & Hn & Heq)]; [now left|].
    right. exists t. now repeat split.
  - split; [intros Hc; contradiction|].
    intros Hor. exfalso. apply Hin, Happs.
    destruct Hor as [?|(t & Ht & Hn & Heq)]; [now left|].
    right. exists t. now repeat split.
Qed.

End AppsProperties.

(** ** The report filter, case by case *)

Section ReportProperties.
Context `{cel_platform}.

Lemma cel_track_app_zero st g app :
  current_general st = Some g ->
  (cel_track_app st app =? 0)
  = negb (bool_decide (ast_str_to_lower app ∈ apps g)).
Proof.
  intros Hg. unfold cel_track_app. rewrite Hg.
  destruct (bool_decide (ast_str_to_lower app ∈ apps g)); reflexivity.
Qed.

(** X6.  The decision of [cel_report_event] under a configuration: it
    fails exactly for a [CHANNEL_START] with an empty linked id while
    logging is enabled and [LINKEDID_END] is tracked; it hands one
    event to the backends exactly when it does not fail, logging is
    enabled, the bit of the event type is set and, for [APP_START] and
    [APP_END], the lower-cased application is in the application set;
    otherwise the fan-out stays as it was. *)
Theorem cel_report_event_decision
    (snapshot : ast_channel_snapshot) (et : Z) (userdefevname : option string)
    (extra : option ast_json) (st : cel_state) (g : ast_cel_general_config) :
  current_general st = Some g ->
  0 <= et < 32 ->
  let fails :=
    enable g && Z.testbit (events g) AST_CEL_LINKEDID_END
    && (et =? AST_CEL_CHANNEL_START) && negb (nonempty (linkedid snapshot)) in
  let passes :=
    enable g && negb fails && Z.testbit (events g) et
    && (negb ((et =? AST_CEL_APP_START) || (et =? AST_CEL_APP_END))
        || bool_decide (ast_str_to_lower (appl snapshot) ∈ apps g)) in
  let r := cel_report_event snapshot et userdefevname extra st in
  fst r = (if fails then -1 else 0)
  /\ fanout (snd r)
     = (if passes
        then (fanout st ++ [reported st snapshot et userdefevname extra])%list
        else fanout st).
Proof.
  intros Hg Het fails passes r. subst fails passes r.
  destruct (enable g) eqn:Hen; cbn [andb negb].
  2:{ rewrite cel_report_event_disabled; [split; reflexivity|].
      unfold ast_cel_check_enabled. now rewrite Hg. }
  destruct (Z.eqb_spec et AST_CEL_CHANNEL_START) as [E|E].
  - subst et. unfold cel_report_event. rewrite Hg, Hen. cbn [negb].
    rewrite (ast_cel_track_event_zero st g) by (trivial; vm_compute; split; congruence).
    change (AST_CEL_CHANNEL_START =? AST_CEL_CHANNEL_START) with true.
    change (AST_CEL_CHANNEL_START =? AST_CEL_APP_START) with false.
    change (AST_CEL_CHANNEL_START =? AST_CEL_APP_END) with false.
    cbn [orb andb negb]. rewrite !andb_true_r.
    destruct (Z.testbit (events g) AST_CEL_LINKEDID_END); cbn [negb andb].
    + unfold cel_linkedid_ref, ast_strlen_zero.
      destruct (nonempty (linkedid snapshot)); cbn [negb];
        [|split; reflexivity].
      destruct (linkedids st !! linkedid snapshot); cbn [negb Z.eqb];
        rewrite (ast_cel_track_event_zero _ g) by (trivial; lia);
        (destruct (Z.testbit (events g) AST_CEL_CHANNEL_START);
         cbn [negb]; split; reflexivity).
    + cbn [Z.eqb negb].
      rewrite (ast_cel_track_event_zero _ g) by (trivial; lia).
      destruct (Z.testbit (events g) AST_CEL_CHANNEL_START);
        cbn [negb]; split; reflexivity.
  - rewrite (cel_report_event_other _ _ _ _ _ g) by assumption.
    rewrite andb_false_r. cbn [andb negb fst snd].
    rewrite (cel_track_app_zero st g) by assumption.
    split; [reflexivity|].
    destruct (Z.testbit (events g) et); cbn [andb]; [|reflexivity].
    destruct ((et =? AST_CEL_APP_START) || (et =? AST_CEL_APP_END));
      destruct (bool_decide (ast_str_to_lower (appl snapshot) ∈ apps g));
      reflexivity.
Qed.

(** X7.  The edge cases of the retirement check: it does nothing when
    the linked id of the snapshot is empty, when [LINKEDID_END] is not
    tracked, or when the tracker has no entry for the id; and when the
    last reference goes while logging is disabled, the entry is
    unlinked without any event. *)
Theorem check_retire_linkedid_edges
    (snapshot : ast_channel_snapshot) (st : cel_state) :
  (linkedid snapshot = "" -> check_retire_linkedid snapshot st = st)
  /\ (ast_cel_track_event st AST_CEL_LINKEDID_END = 0 ->
      check_retire_linkedid snapshot st = st)
  /\ (linkedids st !! linkedid snapshot = None ->
      check_retire_linkedid snapshot st = st)
  /\ (forall g,
        current_general st = Some g -> enable g = false ->
        Z.testbit (events g) AST_CEL_LINKEDID_END = true ->
        linkedid snapshot <> "" ->
        linkedids st !! linkedid snapshot = Some 2 ->
        check_retire_linkedid snapshot st
        = set_linkedids st (delete (linkedid snapshot) (linkedids st))).
Proof.
  split; [|split; [|split]].
  - intros E. unfold check_retire_linkedid. now rewrite E.
  - intros E. unfold check_retire_linkedid. rewrite E.
    now rewrite orb_true_r.
  - intros E. unfold check_retire_linkedid. rewrite E.
    destruct (_ || _); reflexivity.
  - intros g Hg Hen Hbit Hne Hl.
    rewrite (check_retire_linkedid_spec snapshot st g 2) by assumption.
    cbn [Z.eqb Pos.eqb]. rewrite cel_report_event_disabled; [reflexivity|].
    unfold ast_cel_check_enabled.
    change (current_general
              (set_linkedids st (delete (linkedid snapshot) (linkedids st))))
      with (current_general st).
    now rewrite Hg.
Qed.

End ReportProperties.

(** ** The snapshot monitors, case by case *)

Section MonitorProperties.
Context `{cel_platform}.

Lemma strcmp_refl a : strcmp a a = 0.
Proof.
  induction a as [|c a IH]; [reflexivity|].
  cbn [strcmp]. now rewrite Z.eqb_refl.
Qed.

Lemma ast_strlen_zero_Some s : ast_strlen_zero (Some s) = negb (nonempty s).
Proof. reflexivity. Qed.

(** The report of a [CHANNEL_START] that is tracked together with
    [LINKEDID_END], for a channel with a linked id. *)
Lemma cel_report_event_start snapshot ud ex st g :
  current_general st = Some g -> enable g = true ->
  Z.testbit (events g) AST_CEL_LINKEDID_END = true ->
  Z.testbit (events g) AST_CEL_CHANNEL_START = true ->
  linkedid snapshot <> "" ->
  cel_report_event snapshot AST_CEL_CHANNEL_START ud ex st
  = (0, distribute
          (ast_cel_create_event (tvnow st) snapshot AST_CEL_CHANNEL_START ud ex)
          (snd (cel_linkedid_ref (linkedid snapshot) st))).
Proof.
  intros Hg Hen Hle Hcs Hne. unfold cel_report_event. rewrite Hg, Hen.
  cbn [negb].
  rewrite (ast_cel_track_event_zero st g) by (trivial; vm_compute; split; congruence).
  rewrite Hle. cbn [negb andb].
  change (AST_CEL_CHANNEL_START =? AST_CEL_CHANNEL_START) with true. cbv iota.
  rewrite (cel_linkedid_ref_nonempty _ st Hne). cbn [Z.eqb negb snd].
  rewrite (ast_cel_track_event_zero _ g) by (trivial; vm_compute; split; congruence).
  rewrite Hcs. reflexivity.
Qed.

(** X8.  The state monitor on an update with both snapshots, [HANGUP]
    and [ANSWER] being reported: a hangup transition (old not dead,
    new dead) gives [HANGUP] alone and consumes the dial-status entry,
    also when the state changes to up in the same update; otherwise a
    change of state to up gives [ANSWER]; otherwise nothing.  A channel
    that was dead before is not hung up again and keeps its dial-status
    entry.  The tracker is never touched. *)
Theorem cel_channel_state_change_decision
    (old new : ast_channel_snapshot) (st : cel_state)
    (g : ast_cel_general_config) :
  current_general st = Some g ->
  enable g = true ->
  Z.testbit (events g) AST_CEL_HANGUP = true ->
  Z.testbit (events g) AST_CEL_ANSWER = true ->
  let was_hungup := negb (ast_test_flag (flags old) AST_FLAG_DEAD =? 0) in
  let is_hungup := negb (ast_test_flag (flags new) AST_FLAG_DEAD =? 0) in
  let hangs_up := negb was_hungup && is_hungup in
  let answers := negb (state old =? state new) && (state new =? AST_STATE_UP) in
  let st' := cel_channel_state_change (Some old) (Some new) st in
  fanout st'
  = (fanout st
     ++ (if hangs_up
         then [reported st new AST_CEL_HANGUP None
                 (Some (hangup_extra new
                    (stored_dialstatus
                       (cel_dialstatus_store st !! uniqueid new))))]
         else if answers then [reported st new AST_CEL_ANSWER None None]
              else []))%list
  /\ cel_dialstatus_store st'
     = (if hangs_up
        then delete (uniqueid new) (cel_dialstatus_store st)
        else cel_dialstatus_store st)
  /\ linkedids st' = linkedids st.
Proof.
  intros Hg Hen Hhu Han was_hungup is_hungup hangs_up answers st'.
  destruct hangs_up eqn:Hh.
  - subst hangs_up was_hungup is_hungup.
    apply andb_true_iff in Hh as [Hw Hi].
    apply negb_true_iff, negb_false_iff, Z.eqb_eq in Hw.
    apply negb_true_iff, Z.eqb_neq in Hi.
    subst st'.
    rewrite (cel_channel_state_change_hangup old new st g) by assumption.
    repeat split; reflexivity.
  - subst st'. unfold cel_channel_state_change.
    fold was_hungup is_hungup. fold hangs_up. rewrite Hh. fold answers.
    destruct answers.
    + rewrite (cel_report_event_other _ _ _ _ _ g)
        by (trivial; vm_compute; try split; congruence).
      rewrite Han. repeat split; reflexivity.
    + rewrite app_nil_r. repeat split; reflexivity.
Qed.

(** X9.  The application monitor on an update with both snapshots,
    [APP_START] and [APP_END] being tracked: nothing when the two
    application names are equal as [strcmp] has it; otherwise [APP_END]
    built from the old snapshot, if the old application is non-empty
    and listed, and after it [APP_START] built from the new snapshot,
    if the new application is non-empty and listed.  Tracker and
    dial-status store stay as they were. *)
Theorem cel_channel_app_change_decision
    (old new : ast_channel_snapshot) (st : cel_state)
    (g : ast_cel_general_config) :
  current_general st = Some g ->
  enable g = true ->
  Z.testbit (events g) AST_CEL_APP_START = true ->
  Z.testbit (events g) AST_CEL_APP_END = true ->
  let changed := negb (strcmp (appl old) (appl new) =? 0) in
  let ended :=
    changed && nonempty (appl old)
    && bool_decide (ast_str_to_lower (appl old) ∈ apps g) in
  let started :=
    changed && nonempty (appl new)
    && bool_decide (ast_str_to_lower (appl new) ∈ apps g) in
  let st' := cel_channel_app_change (Some old) (Some new) st in
  fanout st'
  = (fanout st
     ++ (if ended then [reported st old AST_CEL_APP_END None None] else [])
     ++ (if started then [reported st new AST_CEL_APP_START None None] else []))%list
  /\ linkedids st' = linkedids st
  /\ cel_dialstatus_store st' = cel_dialstatus_store st.
Proof.
  intros Hg Hen Has Hae changed ended started st'.
  subst st' ended started changed. unfold cel_channel_app_change.
  destruct (strcmp (appl old) (appl new) =? 0); cbn [negb andb].
  { rewrite app_nil_r. repeat split; reflexivity. }
  rewrite !ast_strlen_zero_Some, !negb_involutive.
  set (st1 := if nonempty (appl old)
              then snd (cel_report_event old AST_CEL_APP_END None None st)
              else st).
  assert (Hst1 : st1 = if nonempty (appl old)
                          && bool_decide (ast_str_to_lower (appl old) ∈ apps g)
                       then distribute
                              (ast_cel_create_event (tvnow st) old
                                 AST_CEL_APP_END None None) st
                       else st).
  { subst st1. destruct (nonempty (appl old)); [|reflexivity].
    rewrite (cel_report_event_other _ _ _ _ _ g)
      by (trivial; vm_compute; try split; congruence).
    rewrite Hae, (cel_track_app_zero st g) by assumption.
    change (AST_CEL_APP_END =? AST_CEL_APP_START) with false.
    change (AST_CEL_APP_END =? AST_CEL_APP_END) with true.
    cbn [orb andb snd].
    destruct (bool_decide (ast_str_to_lower (appl old) ∈ apps g));
      reflexivity. }
  assert (Hg1 : current_general st1 = Some g).
  { rewrite Hst1. destruct (_ && _); exact Hg. }
  assert (Henv : tvnow st1 = tvnow st /\ cel_backends st1 = cel_backends st).
  { rewrite Hst1. destruct (_ && _); split; reflexivity. }
  destruct Henv as [Htv Hbk].
  assert (Hres : (if nonempty (appl new)
                  then snd (cel_report_event new AST_CEL_APP_START None None st1)
                  else st1)
                 = if nonempty (appl new)
                      && bool_decide (ast_str_to_lower (appl new) ∈ apps g)
                   then distribute
                          (ast_cel_create_event (tvnow st) new
                             AST_CEL_APP_START None None) st1
                   else st1).
  { destruct (nonempty (appl new)); [|reflexivity].
    rewrite (cel_report_event_other _ _ _ _ _ g)
      by (trivial; vm_compute; try split; congruence).
    rewrite Has, (cel_track_app_zero st1 g), Htv by assumption.
    change (AST_CEL_APP_START =? AST_CEL_APP_START) with true.
    cbn [orb andb snd].
    destruct (bool_decide (ast_str_to_lower (appl new) ∈ apps g));
      reflexivity. }
  clearbody st1. rewrite Hres. unfold reported.
  destruct (nonempty (appl new)
            && bool_decide (ast_str_to_lower (appl new) ∈ apps g));
    cbn [distribute fanout linkedids cel_dialstatus_store];
    rewrite ?Hbk; rewrite Hst1;
    destruct (nonempty (appl old)
              && bool_decide (ast_str_to_lower (appl old) ∈ apps g));
    cbn [distribute fanout linkedids cel_dialstatus_store cel_backends];
    rewrite ?app_nil_r, <- ?app_assoc; repeat split; reflexivity.
Qed.

(** X10.  The linked-id monitor when the linked id of a channel
    changes: the new id gains a reference (it is created with two when
    it is new) and the old id loses one; if the channel was the last
    one on the old id, the old entry is unlinked and [LINKEDID_END] is
    handed out, built from the old snapshot; otherwise nothing is
    handed out. *)
Theorem cel_channel_linkedid_change_moves_reference
    (old new : ast_channel_snapshot) (st : cel_state)
    (g : ast_cel_general_config) (refs : Z) :
  current_general st = Some g ->
  enable g = true ->
  Z.testbit (events g) AST_CEL_LINKEDID_END = true ->
  strcmp (linkedid old) (linkedid new) <> 0 ->
  linkedid old <> "" ->
  linkedid new <> "" ->
  linkedids st !! linkedid old = Some refs ->
  let st' := cel_channel_linkedid_change (Some old) (Some new) st in
  linkedids st' !! linkedid new
  = Some (match linkedids st !! linkedid new with
          | None => 2
          | Some r => r + 1
          end)
  /\ (refs = 2 ->
      linkedids st' !! linkedid old = None
      /\ fanout st'
         = (fanout st ++ [reported st old AST_CEL_LINKEDID_END None None])%list)
  /\ (refs <> 2 ->
      linkedids st' !! linkedid old = Some (refs - 1)
      /\ fanout st' = fanout st).
Proof.
  intros Hg Hen Hbit Hcmp Hold Hnew Hl st'.
  assert (Hdiff : linkedid old <> linkedid new).
  { intros E. apply Hcmp. rewrite E. apply strcmp_refl. }
  subst st'. unfold cel_channel_linkedid_change.
  apply Z.eqb_neq in Hcmp. rewrite Hcmp. cbn [negb].
  rewrite (cel_linkedid_ref_nonempty _ st Hnew). cbn [snd].
  set (cnt := match linkedids st !! linkedid new with
              | Some r => r + 1 | None => 2 end).
  set (st1 := set_linkedids st (<[linkedid new := cnt]> (linkedids st))).
  assert (Hl1 : linkedids st1 !! linkedid old = Some refs).
  { subst st1. cbn [set_linkedids linkedids].
    rewrite lookup_insert_ne by congruence. exact Hl. }
  assert (Hg1 : current_general st1 = Some g) by exact Hg.
  split; [|split].
  - rewrite (check_retire_linkedid_spec old st1 g refs) by assumption.
    destruct (refs =? 2).
    + destruct (cel_report_event_frame old AST_CEL_LINKEDID_END None None
                  (set_linkedids st1 (delete (linkedid old) (linkedids st1))))
        as (_ & _ & _ & _ & Hlk & _).
      rewrite Hlk by (vm_compute; congruence).
      subst st1. cbn [set_linkedids linkedids].
      rewrite lookup_delete_ne, lookup_insert_eq by congruence. reflexivity.
    + subst st1. cbn [set_linkedids linkedids].
      rewrite lookup_insert_ne, lookup_insert_eq by congruence. reflexivity.
  - intros ->. rewrite (check_retire_linkedid_last old st1 g) by assumption.
    subst st1.
    cbn [distribute set_linkedids linkedids fanout tvnow cel_backends].
    split; [apply lookup_delete_eq | reflexivity].
  - intros Hr.
    rewrite (check_retire_linkedid_not_last old st1 g refs) by assumption.
    subst st1. cbn [set_linkedids linkedids fanout].
    split; [apply lookup_insert_eq | reflexivity].
Qed.

(** X11.  The life of one channel that alone carries its linked id,
    with [CHANNEL_START], [CHANNEL_END] and [LINKEDID_END] tracked and
    no application running: the update that creates it acquires the
    id, the update that removes it hands out [CHANNEL_END] and then
    [LINKEDID_END], and the tracker is back to what it was. *)
Theorem channel_start_then_end_restores_tracker
    (s : ast_channel_snapshot) (st : cel_state) (g : ast_cel_general_config) :
  current_general st = Some g ->
  enable g = true ->
  Z.testbit (events g) AST_CEL_CHANNEL_START = true ->
  Z.testbit (events g) AST_CEL_CHANNEL_END = true ->
  Z.testbit (events g) AST_CEL_LINKEDID_END = true ->
  cel_filter_channel_snapshot (Some s) = 0 ->
  appl s = "" ->
  linkedid s <> "" ->
  linkedids st !! linkedid s = None ->
  let st1 := cel_snapshot_update_cb (mk_cache_update true None (Some s)) st in
  let st2 := cel_snapshot_update_cb (mk_cache_update true (Some s) None) st1 in
  linkedids st1 !! linkedid s = Some 2
  /\ fanout st2
     = (fanout st
        ++ [ reported st s AST_CEL_CHANNEL_START None None;
             reported st s AST_CEL_CHANNEL_END None None;
             reported st s AST_CEL_LINKEDID_END None None ])%list
  /\ linkedids st2 = linkedids st.
Proof.
  intros Hg Hen Hcs Hce Hle Hf Happ Hne Hfresh st1 st2.
  assert (Hst1 : st1 = distribute
            (ast_cel_create_event (tvnow st) s AST_CEL_CHANNEL_START None None)
            (set_linkedids st (<[linkedid s := 2]> (linkedids st)))).
  { subst st1. unfold cel_snapshot_update_cb.
    cbn [update_is_channel_snapshot old_snapshot new_snapshot].
    rewrite Hf. cbn [cel_filter_channel_snapshot Z.eqb negb orb].
    cbn [cel_channel_monitors fold_left].
    unfold cel_channel_app_change. rewrite Happ.
    cbn [ast_strlen_zero nonempty negb].
    cbn [cel_channel_state_change cel_channel_linkedid_change].
    rewrite (cel_report_event_start s None None st g) by assumption.
    rewrite (cel_linkedid_ref_nonempty _ st Hne), Hfresh. reflexivity. }
  assert (Hg1 : current_general st1 = Some g) by (rewrite Hst1; exact Hg).
  assert (Hst2 : st2 = distribute
            (ast_cel_create_event (tvnow st) s AST_CEL_LINKEDID_END None None)
            (set_linkedids
               (distribute
                  (ast_cel_create_event (tvnow st) s AST_CEL_CHANNEL_END None None)
                  st1)
               (delete (linkedid s) (linkedids st1)))).
  { subst st2. unfold cel_snapshot_update_cb.
    cbn [update_is_channel_snapshot old_snapshot new_snapshot].
    rewrite Hf. cbn [cel_filter_channel_snapshot Z.eqb negb orb].
    cbn [cel_channel_monitors fold_left].
    unfold cel_channel_app_change. rewrite Happ.
    cbn [ast_strlen_zero nonempty negb].
    cbn [cel_channel_state_change cel_channel_linkedid_change].
    rewrite (cel_report_event_other _ _ _ _ _ g)
      by (trivial; vm_compute; try split; congruence).
    rewrite Hce.
    change (AST_CEL_CHANNEL_END =? AST_CEL_APP_START) with false.
    change (AST_CEL_CHANNEL_END =? AST_CEL_APP_END) with false.
    cbn [orb andb negb snd].
    rewrite (check_retire_linkedid_last s _ g); trivial.
    - rewrite Hst1. reflexivity.
    - rewrite Hst1. cbn [distribute linkedids set_linkedids].
      apply lookup_insert_eq. }
  split; [rewrite Hst1; cbn [distribute linkedids set_linkedids];
          apply lookup_insert_eq|].
  rewrite Hst2, Hst1.
  cbn [distribute set_linkedids linkedids fanout tvnow cel_backends].
  unfold reported. split.
  - rewrite <- !app_assoc. reflexivity.
  - rewrite delete_insert_eq. now apply delete_id.
Qed.

End MonitorProperties.

(** ** What the callbacks keep *)

Section RouterProperties.
Context `{cel_platform} `{cel_bridge_platform}.

Lemma appends_only_refl st : appends_only st st.
Proof. repeat split; reflexivity. Qed.

Lemma appends_only_trans a b c :
  appends_only a b -> appends_only b c -> appends_only a c.
Proof.
  intros (H1 & H2 & H3 & H4) (K1 & K2 & K3 & K4).
  repeat split; try congruence. now transitivity (fanout b).
Qed.

Lemma report_appends_only s et ud ex st :
  appends_only st (snd (cel_report_event s et ud ex st)).
Proof.
  destruct (cel_report_event_frame s et ud ex st) as (H1 & _ & H3 & H4 & _ & H6).
  repeat split; assumption.
Qed.

Lemma report_store s et ud ex st :
  cel_dialstatus_store (snd (cel_report_event s et ud ex st))
  = cel_dialstatus_store st.
Proof. apply (cel_report_event_frame s et ud ex st). Qed.

Lemma report_linkedids s et ud ex st :
  et <> AST_CEL_CHANNEL_START ->
  linkedids (snd (cel_report_event s et ud ex st)) = linkedids st.
Proof. apply (cel_report_event_frame s et ud ex st). Qed.

Lemma ref_appends_only l st :
  appends_only st (snd (cel_linkedid_ref l st))
  /\ cel_dialstatus_store (snd (cel_linkedid_ref l st)) = cel_dialstatus_store st.
Proof.
  unfold cel_linkedid_ref. destruct (ast_strlen_zero (Some l)).
  - split; [apply appends_only_refl | reflexivity].
  - destruct (linkedids st !! l); (split; [repeat split|]; reflexivity).
Qed.

Lemma retire_appends_only s st :
  appends_only st (check_retire_linkedid s st)
  /\ cel_dialstatus_store (check_retire_linkedid s st) = cel_dialstatus_store st.
Proof.
  destruct (check_retire_linkedid_frame s st) as (H1 & H2 & H3 & H4 & H5).
  repeat split; assumption.
Qed.

(** The tracker after a report: as before, or after one acquisition. *)
Lemma report_linkedids_cases s et ud ex st :
  linkedids (snd (cel_report_event s et ud ex st)) = linkedids st
  \/ linkedids (snd (cel_report_event s et ud ex st))
     = linkedids (snd (cel_linkedid_ref (linkedid s) st)).
Proof.
  destruct (Z.eq_dec et AST_CEL_CHANNEL_START) as [E|E];
    [|left; now apply report_linkedids].
  unfold cel_report_event.
  destruct (current_general st) as [g|]; [|now left].
  destruct (enable g); cbn [negb]; [|now left].
  destruct (negb (ast_cel_track_event st AST_CEL_LINKEDID_END =? 0)
            && (et =? AST_CEL_CHANNEL_START)).
  - right. destruct (cel_linkedid_ref (linkedid s) st) as [res st1].
    destruct (negb (res =? 0)); [reflexivity|].
    destruct (ast_cel_track_event st1 et =? 0); [reflexivity|].
    match goal with |- context [if ?c then _ else _] => destruct c end;
      reflexivity.
  - left. cbn [negb Z.eqb].
    destruct (ast_cel_track_event st et =? 0); [reflexivity|].
    match goal with |- context [if ?c then _ else _] => destruct c end;
      reflexivity.
Qed.

Lemma counted_ref l st :
  linkedids_counted st -> linkedids_counted (snd (cel_linkedid_ref l st)).
Proof.
  intros Hc. unfold cel_linkedid_ref.
  destruct (ast_strlen_zero (Some l)); [exact Hc|].
  destruct (linkedids st !! l) as [r|] eqn:Hl; cbn [snd];
    intros k refs Hk; cbn [set_linkedids linkedids] in Hk;
    (destruct (decide (l = k)) as [->|Hne];
     [rewrite lookup_insert_eq in Hk; injection Hk as <-
     |rewrite lookup_insert_ne in Hk by assumption; now apply (Hc k)]).
  - specialize (Hc _ _ Hl). lia.
  - unfold ao2_alloc. lia.
Qed.

Lemma counted_same st st' :
  linkedids st' = linkedids st -> linkedids_counted st -> linkedids_counted st'.
Proof. unfold linkedids_counted. intros ->. trivial. Qed.

Lemma counted_report s et ud ex st :
  linkedids_counted st ->
  linkedids_counted (snd (cel_report_event s et ud ex st)).
Proof.
  intros Hc. destruct (report_linkedids_cases s et ud ex st) as [E|E].
  - now apply (counted_same st).
  - apply (counted_same (snd (cel_linkedid_ref (linkedid s) st))); trivial.
    now apply counted_ref.
Qed.

Lemma counted_retire s st :
  linkedids_counted st -> linkedids_counted (check_retire_linkedid s st).
Proof.
  intros Hc. unfold check_retire_linkedid.
  destruct (_ || _); [exact Hc|].
  destruct (linkedids st !! linkedid s) as [r|] eqn:Hl; [|exact Hc].
  unfold ao2_ref. destruct (Z.eqb_spec (r + 1) 3) as [E|E].
  - apply (counted_same
             (set_linkedids st (delete (linkedid s) (linkedids st)))).
    + apply report_linkedids. vm_compute. congruence.
    + intros k refs Hk. cbn [set_linkedids linkedids] in Hk.
      apply lookup_delete_Some in Hk as [_ Hk]. now apply (Hc k).
  - intros k refs Hk. cbn [set_linkedids linkedids] in Hk.
    destruct (decide (linkedid s = k)) as [<-|Hne].
    + rewrite lookup_insert_eq in Hk. injection Hk as <-.
      specialize (Hc _ _ Hl). lia.
    + rewrite lookup_insert_ne in Hk by assumption. now apply (Hc k).
Qed.

(** The three monitors. *)
Lemma app_change_keeps o n st :
  appends_only st (cel_channel_app_change o n st)
  /\ cel_dialstatus_store (cel_channel_app_change o n st)
     = cel_dialstatus_store st
  /\ linkedids (cel_channel_app_change o n st) = linkedids st.
Proof.
  unfold cel_channel_app_change.
  match goal with |- context [if ?c then st else _] => destruct c end;
    [split; [apply appends_only_refl|split; reflexivity]|].
  set (st1 := match o with
              | Some old => if negb (ast_strlen_zero (Some (appl old)))
                            then snd (cel_report_event old AST_CEL_APP_END
                                        None None st)
                            else st
              | None => st end).
  assert (H1 : appends_only st st1
               /\ cel_dialstatus_store st1 = cel_dialstatus_store st
               /\ linkedids st1 = linkedids st).
  { subst st1. destruct o as [old|];
      [|split; [apply appends_only_refl|split; reflexivity]].
    destruct (negb _);
      [|split; [apply appends_only_refl|split; reflexivity]].
    split; [apply report_appends_only|].
    split; [apply report_store|].
    apply report_linkedids. vm_compute. congruence. }
  clearbody st1. destruct H1 as (A1 & S1 & L1).
  destruct n as [new|]; [|split; [exact A1|split; assumption]].
  destruct (negb _); [|split; [exact A1|split; assumption]].
  split; [eapply appends_only_trans; [exact A1|apply report_appends_only]|].
  split; [now rewrite report_store|].
  rewrite report_linkedids by (vm_compute; congruence). exact L1.
Qed.

Lemma state_change_keeps o n st :
  appends_only st (cel_channel_state_change o n st)
  /\ (forall k b,
        cel_dialstatus_store (cel_channel_state_change o n st) !! k = Some b ->
        cel_dialstatus_store st !! k = Some b)
  /\ (linkedids_counted st ->
      linkedids_counted (cel_channel_state_change o n st)).
Proof.
  unfold cel_channel_state_change.
  destruct n as [new|], o as [old|].
  - destruct (negb _ && _).
    + unfold get_dialstatus_blob, ao2_find_unlink.
      set (st1 := set_dialstatus_store st
                    (delete (uniqueid new) (cel_dialstatus_store st))).
      match goal with
      | |- context [cel_report_event new AST_CEL_HANGUP None ?e st1] =>
          set (ex := e)
      end.
      split; [|split].
      * apply (appends_only_trans st st1); [repeat split; reflexivity|].
        apply report_appends_only.
      * intros k b. rewrite report_store. subst st1.
        cbn [set_dialstatus_store cel_dialstatus_store].
        intros Hk. now apply lookup_delete_Some in Hk as [_ Hk].
      * intros Hc. apply (counted_same st1);
          [apply report_linkedids; vm_compute; congruence|exact Hc].
    + destruct (negb _ && _);
        [|split; [apply appends_only_refl|split; trivial]].
      split; [apply report_appends_only|].
      split; [intros k b; now rewrite report_store|].
      intros Hc. apply (counted_same st); trivial.
      apply report_linkedids. vm_compute. congruence.
  - split; [apply report_appends_only|].
    split; [intros k b; now rewrite report_store|].
    apply counted_report.
  - destruct (retire_appends_only old
                (snd (cel_report_event old AST_CEL_CHANNEL_END None None st)))
      as [A S].
    split; [eapply appends_only_trans; [apply report_appends_only|exact A]|].
    split; [intros k b; now rewrite S, report_store|].
    intros Hc. apply counted_retire. apply (counted_same st); trivial.
    apply report_linkedids. vm_compute. congruence.
  - split; [apply appends_only_refl|split; trivial].
Qed.

Lemma linkedid_change_keeps o n st :
  appends_only st (cel_channel_linkedid_change o n st)
  /\ cel_dialstatus_store (cel_channel_linkedid_change o n st)
     = cel_dialstatus_store st
  /\ (linkedids_counted st ->
      linkedids_counted (cel_channel_linkedid_change o n st)).
Proof.
  destruct (cel_channel_linkedid_change_frame o n st) as (H1 & H2 & H3 & H4 & H5).
  split; [repeat split; assumption|]. split; [assumption|].
  intros Hc. unfold cel_channel_linkedid_change.
  destruct o as [old|], n as [new|]; trivial.
  destruct (negb _); trivial.
  apply counted_retire. now apply counted_ref.
Qed.

Lemma snapshot_update_keeps update st :
  appends_only st (cel_snapshot_update_cb update st)
  /\ (forall k b,
        cel_dialstatus_store (cel_snapshot_update_cb update st) !! k = Some b ->
        cel_dialstatus_store st !! k = Some b)
  /\ (linkedids_counted st ->
      linkedids_counted (cel_snapshot_update_cb update st)).
Proof.
  unfold cel_snapshot_update_cb.
  destruct (update_is_channel_snapshot update);
    [|split; [apply appends_only_refl|now split]].
  destruct (_ || _); [split; [apply appends_only_refl|now split]|].
  cbn [cel_channel_monitors fold_left].
  set (o := old_snapshot update). set (n := new_snapshot update).
  destruct (app_change_keeps o n st) as (A1 & S1 & L1).
  set (sa := cel_channel_app_change o n st) in *. clearbody sa.
  destruct (state_change_keeps o n sa) as (A2 & S2 & L2).
  set (sb := cel_channel_state_change o n sa) in *. clearbody sb.
  destruct (linkedid_change_keeps o n sb) as (A3 & S3 & L3).
  split; [|split].
  - eapply appends_only_trans; [exact A1|].
    eapply appends_only_trans; [exact A2|exact A3].
  - intros k b. rewrite S3. intros Hk. apply S2 in Hk. now rewrite S1 in Hk.
  - intros Hc. apply L3, L2. now apply (counted_same st).
Qed.

(** The dial callback: the state after the forward report, then
    possibly the store. *)
Lemma dial_keeps blob st :
  appends_only st (cel_dial_cb blob st)
  /\ linkedids (cel_dial_cb blob st) = linkedids st
  /\ (dialstatus_store_keyed st -> dialstatus_store_keyed (cel_dial_cb blob st)).
Proof.
  unfold cel_dial_cb.
  destruct (negb _);
    [split; [apply appends_only_refl|now split]|].
  unfold get_caller_uniqueid.
  destruct (ast_multi_channel_blob_get_channel blob "caller") as [caller|] eqn:Hc;
    [|split; [apply appends_only_refl|now split]].
  set (st1 := if negb (ast_strlen_zero (get_blob_variable blob "forward"))
              then snd (cel_report_event caller AST_CEL_FORWARD None
                          (Some (JObj [("forward",
                             JStr (default "" (get_blob_variable blob "forward")))]))
                          st)
              else st).
  assert (H1 : appends_only st st1
               /\ cel_dialstatus_store st1 = cel_dialstatus_store st
               /\ linkedids st1 = linkedids st).
  { subst st1. destruct (negb _);
      [|split; [apply appends_only_refl|split; reflexivity]].
    split; [apply report_appends_only|].
    split; [apply report_store|].
    apply report_linkedids. vm_compute. congruence. }
  assert (Hgoal : appends_only st
                    (if ast_strlen_zero (get_blob_variable blob "dialstatus")
                     then st1 else save_dialstatus blob st1)
                  /\ linkedids
                       (if ast_strlen_zero (get_blob_variable blob "dialstatus")
                        then st1 else save_dialstatus blob st1) = linkedids st
                  /\ (dialstatus_store_keyed st ->
                      dialstatus_store_keyed
                        (if ast_strlen_zero (get_blob_variable blob "dialstatus")
                         then st1 else save_dialstatus blob st1))).
  { clearbody st1. destruct H1 as ((C1 & B1 & T1 & F1) & S1 & L1).
    destruct (ast_strlen_zero (get_blob_variable blob "dialstatus")) eqn:Hd.
    - split; [repeat split; assumption|]. split; [assumption|].
      unfold dialstatus_store_keyed. now rewrite S1.
    - unfold save_dialstatus, get_caller_uniqueid, ao2_link. rewrite Hc.
      split; [repeat split; assumption|]. split; [assumption|].
      intros Hk key b. cbn [set_dialstatus_store cel_dialstatus_store].
      rewrite S1. intros Hb.
      destruct (decide (uniqueid caller = key)) as [<-|Hne].
      + rewrite lookup_insert_eq in Hb. injection Hb as <-.
        unfold get_caller_uniqueid. rewrite Hc. now split.
      + rewrite lookup_insert_ne in Hb by assumption. now apply Hk. }
  subst st1.
  destruct (negb (ast_strlen_zero (get_blob_variable blob "forward")));
    exact Hgoal.
Qed.

(** The callbacks that report one event of a type other than
    [CHANNEL_START], or nothing. *)
Lemma single_report_keeps st st' :
  (st' = st
   \/ exists s et ud ex,
        et <> AST_CEL_CHANNEL_START
        /\ st' = snd (cel_report_event s et ud ex st)) ->
  appends_only st st'
  /\ linkedids st' = linkedids st
  /\ cel_dialstatus_store st' = cel_dialstatus_store st.
Proof.
  intros [->|(s & et & ud & ex & Het & ->)].
  - split; [apply appends_only_refl|now split].
  - split; [apply report_appends_only|].
    split; [now apply report_linkedids|apply report_store].
Qed.

Lemma single_report_callbacks msg st :
  match msg with
  | MsgCacheUpdate _ | MsgDial _ => True
  | _ =>
      cel_dispatch msg st = st
      \/ exists s et ud ex,
           et <> AST_CEL_CHANNEL_START
           /\ cel_dispatch msg st = snd (cel_report_event s et ud ex st)
  end.
Proof.
  destruct msg as [u|b|b|b|p|obj|b|obj|obj]; cbn [cel_dispatch]; trivial.
  - unfold cel_bridge_enter_cb. destruct (negb _); [now left|].
    right. eexists _, _, _, _. split; [|reflexivity]. vm_compute. congruence.
  - unfold cel_bridge_leave_cb. destruct (negb _); [now left|].
    right. eexists _, _, _, _. split; [|reflexivity]. vm_compute. congruence.
  - unfold cel_parking_cb. right.
    destruct (park_event_type p);
      (eexists _, _, _, _; split; [|reflexivity]); vm_compute; congruence.
  - unfold cel_generic_cb.
    destruct (Z.eqb_spec (cel_generic_event_type obj) AST_CEL_USER_DEFINED)
      as [E|E]; [|now left].
    right. eexists _, _, _, _. split; [|reflexivity]. rewrite E. vm_compute. congruence.
  - unfold cel_blind_transfer_cb.
    destruct (ast_json_object_get (blob b) "result"); [|now left].
    destruct (negb _); [now left|].
    destruct (ast_json_object_get (blob b) "exten"); [|now left].
    destruct (ast_json_object_get (blob b) "context"); [|now left].
    destruct (ast_json_string_get _); [|now left].
    destruct (ast_json_string_get _); [|now left].
    right. eexists _, _, _, _. split; [|reflexivity]. vm_compute. congruence.
  - unfold cel_pickup_cb.
    destruct (ast_multi_channel_blob_get_channel obj "channel"); [|now left].
    destruct (ast_multi_channel_blob_get_channel obj "target"); [|now left].
    right. eexists _, _, _, _. split; [|reflexivity]. vm_compute. congruence.
  - unfold cel_local_cb.
    destruct (ast_multi_channel_blob_get_channel obj "1"); [|now left].
    destruct (ast_multi_channel_blob_get_channel obj "2"); [|now left].
    right. eexists _, _, _, _. split; [|reflexivity]. vm_compute. congruence.
Qed.

Lemma dispatch_keeps msg st :
  appends_only st (cel_dispatch msg st)
  /\ (linkedids_counted st -> linkedids_counted (cel_dispatch msg st))
  /\ (dialstatus_store_keyed st -> dialstatus_store_keyed (cel_dispatch msg st))
  /\ (match msg with MsgCacheUpdate _ => True
      | _ => linkedids (cel_dispatch msg st) = linkedids st end)
  /\ (match msg with MsgCacheUpdate _ | MsgDial _ => True
      | _ => cel_dialstatus_store (cel_dispatch msg st)
             = cel_dialstatus_store st end).
Proof.
  pose proof (single_report_callbacks msg st) as Hs.
  destruct msg as [u|b|b|b|p|obj|b|obj|obj];
    try (apply single_report_keeps in Hs as (A & L & S);
         split; [exact A|];
         split; [now apply counted_same|];
         split; [unfold dialstatus_store_keyed; now rewrite S|];
         split; assumption).
  - cbn [cel_dispatch]. destruct (snapshot_update_keeps u st) as (A & S & L).
    split; [exact A|]. split; [exact L|]. split; [|now split].
    intros Hk key b Hb. apply Hk. now apply S.
  - cbn [cel_dispatch]. destruct (dial_keeps b st) as (A & L & K).
    split; [exact A|]. split; [now apply counted_same|].
    split; [exact K|]. now split.
Qed.

(** X12.  In every state reached by routed messages from a state in
    which each tracker entry counts at least two references (the link
    and one channel), each entry still counts at least two: the
    retirement check never leaves an entry that no channel holds. *)
Theorem tracker_entries_stay_counted
    (msgs : list cel_message) (st : cel_state) :
  linkedids_counted st -> linkedids_counted (cel_run msgs st).
Proof.
  revert st. induction msgs as [|msg msgs IH]; intros st Hc; [exact Hc|].
  change (cel_run (msg :: msgs) st) with (cel_run msgs (cel_dispatch msg st)).
  apply IH. now apply dispatch_keeps.
Qed.

(** The ten routes. *)
Lemma cel_route_dispatch msg st st' :
  cel_route (Routed msg) st = Some st' -> st' = cel_dispatch msg st.
Proof.
  destruct msg; cbn [cel_route cel_dispatch];
    try (intros [= <-]; reflexivity).
  destruct (cel_generic_cb_in_bounds obj); [|discriminate].
  intros [= <-]. reflexivity.
Qed.

Lemma attended_transfer_single_report xfer st st' :
  cel_attended_transfer_cb xfer st = Some st' ->
  st' = st
  \/ exists s et ud ex,
       et <> AST_CEL_CHANNEL_START
       /\ st' = snd (cel_report_event s et ud ex st).
Proof.
  unfold cel_attended_transfer_cb.
  destruct (bridge_snapshot (to_transferee xfer));
    destruct (bridge_snapshot (to_transfer_target xfer));
    destruct (channel_snapshot (to_transferee xfer));
    destruct (channel_snapshot (to_transfer_target xfer));
    destruct (dest_type xfer); cbv beta iota zeta;
    intros Heq; try discriminate; injection Heq as <-;
    solve [ now left
          | right; eexists _, _, _, _; split; [|reflexivity];
            vm_compute; congruence ].
Qed.

Lemma route_keeps msg st st' :
  cel_route msg st = Some st' ->
  appends_only st st'
  /\ (linkedids_counted st -> linkedids_counted st')
  /\ (dialstatus_store_keyed st -> dialstatus_store_keyed st')
  /\ (match msg with Routed (MsgCacheUpdate _) => True
      | _ => linkedids st' = linkedids st end)
  /\ (match msg with Routed (MsgCacheUpdate _) | Routed (MsgDial _) => True
      | _ => cel_dialstatus_store st' = cel_dialstatus_store st end).
Proof.
  destruct msg as [msg|xfer].
  - intros Hr. apply cel_route_dispatch in Hr. subst st'.
    destruct (dispatch_keeps msg st) as (A & C & K & L & S).
    split; [exact A|]. split; [exact C|]. split; [exact K|].
    destruct msg; split; assumption.
  - cbn [cel_route]. intros Hr.
    apply attended_transfer_single_report in Hr.
    apply single_report_keeps in Hr as (A & L & S).
    split; [exact A|]. split; [now apply counted_same|].
    split; [unfold dialstatus_store_keyed; now rewrite S|].
    split; assumption.
Qed.

Lemma route_run_appends_only msgs : forall st st',
  cel_route_run msgs st = Some st' -> appends_only st st'.
Proof.
  induction msgs as [|msg msgs IH]; intros st st' Hrun.
  - injection Hrun as <-. apply appends_only_refl.
  - cbn [cel_route_run] in Hrun.
    destruct (cel_route msg st) as [st1|] eqn:Hr; [|discriminate].
    eapply appends_only_trans; [apply (route_keeps msg st st1 Hr)|].
    now apply IH.
Qed.

(** X13.  In every state reached through the router (all ten routes)
    from a state in which each stored dial envelope sits under the
    uniqueid of its caller and carries a non-empty dial status, this
    still holds: the store gains only envelopes with a dial status,
    under the key the hangup lookup uses. *)
Theorem dialstatus_store_stays_keyed
    (msgs : list cel_routed_message) (st st' : cel_state) :
  dialstatus_store_keyed st ->
  cel_route_run msgs st = Some st' ->
  dialstatus_store_keyed st'.
Proof.
  revert st. induction msgs as [|msg msgs IH]; intros st Hk Hrun.
  - injection Hrun as <-. exact Hk.
  - cbn [cel_route_run] in Hrun.
    destruct (cel_route msg st) as [st1|] eqn:Hr; [|discriminate].
    apply (IH st1); [|exact Hrun]. now apply (route_keeps msg st st1).
Qed.

(** X14.  A run of the router (all ten routes) returns unless one of
    its messages makes its callback go wrong.  No run changes the
    configuration, the backend registry or the clock, and events
    handed out are never taken back; only snapshot updates change the
    linked-id tracker, and only snapshot updates and dial messages
    change the dial-status store. *)
Theorem routed_messages_keep
    (msgs : list cel_routed_message) (st : cel_state) :
  (Forall (fun msg => forall s, cel_route msg s <> None) msgs ->
   cel_route_run msgs st <> None)
  /\ forall st',
       cel_route_run msgs st = Some st' ->
       appends_only st st'
       /\ (Forall (fun msg => match msg with
                              | Routed (MsgCacheUpdate _) => False
                              | _ => True end) msgs ->
           linkedids st' = linkedids st)
       /\ (Forall (fun msg => match msg with
                              | Routed (MsgCacheUpdate _)
                              | Routed (MsgDial _) => False
                              | _ => True end) msgs ->
           cel_dialstatus_store st' = cel_dialstatus_store st).
Proof.
  revert st. induction msgs as [|msg msgs IH]; intros st.
  - split; [discriminate|]. intros st' [= <-].
    split; [apply appends_only_refl|now split].
  - cbn [cel_route_run]. split.
    + intros Hall. apply Forall_cons in Hall as [Hm Hall].
      destruct (cel_route msg st) as [st1|] eqn:Hr;
        [|now destruct (Hm st)].
      now apply IH.
    + intros st' Hrun.
      destruct (cel_route msg st) as [st1|] eqn:Hr; [|discriminate].
      destruct (IH st1) as [_ IH']. destruct (IH' st' Hrun) as (A & L & S).
      destruct (route_keeps msg st st1 Hr) as (A0 & _ & _ & L0 & S0).
      split; [eapply appends_only_trans; eassumption|]. split.
      * intros Hall. apply Forall_cons in Hall as [Hm Hall].
        rewrite (L Hall). destruct msg as [[]|]; try exact L0; contradiction.
      * intros Hall. apply Forall_cons in Hall as [Hm Hall].
        rewrite (S Hall). destruct msg as [[]|]; try exact S0; contradiction.
Qed.

(** ** The store entry of a channel along a run *)

Lemma state_change_store o n st :
  cel_dialstatus_store (cel_channel_state_change o n st)
  = match o, n with
    | Some old, Some new =>
        if (ast_test_flag (flags old) AST_FLAG_DEAD =? 0)
           && negb (ast_test_flag (flags new) AST_FLAG_DEAD =? 0)
        then delete (uniqueid new) (cel_dialstatus_store st)
        else cel_dialstatus_store st
    | _, _ => cel_dialstatus_store st
    end.
Proof.
  unfold cel_channel_state_change. destruct n as [new|], o as [old|].
  - rewrite negb_involutive.
    destruct ((ast_test_flag (flags old) AST_FLAG_DEAD =? 0)
              && negb (ast_test_flag (flags new) AST_FLAG_DEAD =? 0)).
    + unfold get_dialstatus_blob, ao2_find_unlink. now rewrite report_store.
    + destruct (negb _ && _); [apply report_store|reflexivity].
  - apply report_store.
  - destruct (retire_appends_only old
                (snd (cel_report_event old AST_CEL_CHANNEL_END None None st)))
      as [_ S].
    rewrite S. apply report_store.
  - reflexivity.
Qed.

Lemma snapshot_update_store_lookup uid update st :
  cel_dialstatus_store (cel_snapshot_update_cb update st) !! uid
  = if hangs_up uid update then None else cel_dialstatus_store st !! uid.
Proof.
  unfold cel_snapshot_update_cb, hangs_up.
  destruct (update_is_channel_snapshot update); [|reflexivity].
  cbn [andb].
  set (o := old_snapshot update). set (n := new_snapshot update).
  destruct (negb (cel_filter_channel_snapshot o =? 0)
            || negb (cel_filter_channel_snapshot n =? 0)) eqn:Hf.
  - destruct o as [old|], n as [new|]; try reflexivity.
    apply orb_true_iff in Hf as [Hf|Hf]; apply negb_true_iff in Hf;
      rewrite Hf; [reflexivity|now rewrite andb_false_r].
  - apply orb_false_iff in Hf as [Ho Hn].
    apply negb_false_iff in Ho, Hn.
    cbn [cel_channel_monitors fold_left].
    destruct (linkedid_change_keeps o n
                (cel_channel_state_change o n (cel_channel_app_change o n st)))
      as (_ & S3 & _).
    rewrite S3, state_change_store.
    destruct (app_change_keeps o n st) as (_ & S1 & _). rewrite S1.
    destruct o as [old|], n as [new|]; try reflexivity.
    rewrite Ho, Hn. cbn [andb].
    destruct ((ast_test_flag (flags old) AST_FLAG_DEAD =? 0)
              && negb (ast_test_flag (flags new) AST_FLAG_DEAD =? 0));
      [|reflexivity].
    cbn [andb]. destruct (String.eqb_spec (uniqueid new) uid) as [E|E].
    + rewrite E. apply lookup_delete_eq.
    + now apply lookup_delete_ne.
Qed.

Lemma dial_store_lookup uid blob st :
  cel_dialstatus_store (cel_dial_cb blob st) !! uid
  = if stores_envelope uid blob then Some blob
    else cel_dialstatus_store st !! uid.
Proof.
  unfold cel_dial_cb, stores_envelope, get_caller_uniqueid.
  destruct (ast_multi_channel_blob_get_channel blob "caller") as [caller|] eqn:Hc.
  2:{ destruct (negb _); reflexivity. }
  destruct (cel_filter_channel_snapshot (Some caller) =? 0);
    cbn [negb andb]; [|reflexivity].
  set (st1 := if negb (ast_strlen_zero (get_blob_variable blob "forward"))
              then snd (cel_report_event caller AST_CEL_FORWARD None
                          (Some (JObj [("forward",
                             JStr (default "" (get_blob_variable blob "forward")))]))
                          st)
              else st).
  assert (S1 : cel_dialstatus_store st1 = cel_dialstatus_store st).
  { subst st1. destruct (negb _); [apply report_store|reflexivity]. }
  assert (Hgoal :
    cel_dialstatus_store
      (if ast_strlen_zero (get_blob_variable blob "dialstatus")
       then st1 else save_dialstatus blob st1) !! uid
    = if String.eqb (uniqueid caller) uid
         && negb (ast_strlen_zero (get_blob_variable blob "dialstatus"))
      then Some blob else cel_dialstatus_store st !! uid).
  { clearbody st1.
    destruct (ast_strlen_zero (get_blob_variable blob "dialstatus")).
    - rewrite andb_false_r. now rewrite S1.
    - rewrite andb_true_r.
      unfold save_dialstatus, get_caller_uniqueid, ao2_link. rewrite Hc.
      cbn [set_dialstatus_store cel_dialstatus_store]. rewrite S1.
      destruct (String.eqb_spec (uniqueid caller) uid) as [E|E].
      + rewrite E. apply lookup_insert_eq.
      + now apply lookup_insert_ne. }
  subst st1.
  destruct (negb (ast_strlen_zero (get_blob_variable blob "forward")));
    exact Hgoal.
Qed.

Lemma route_store_lookup uid msg st st' :
  cel_route msg st = Some st' ->
  cel_dialstatus_store st' !! uid
  = envelope_after uid msg (cel_dialstatus_store st !! uid).
Proof.
  intros Hr.
  destruct (route_keeps msg st st' Hr) as (_ & _ & _ & _ & S).
  destruct msg as [msg|xfer]; [|cbn [envelope_after]; now rewrite S].
  apply cel_route_dispatch in Hr.
  destruct msg; cbn [envelope_after]; try (now rewrite S); subst st';
    cbn [cel_dispatch].
  - apply snapshot_update_store_lookup.
  - apply dial_store_lookup.
Qed.

Lemma route_run_store_lookup uid msgs : forall st st',
  cel_route_run msgs st = Some st' ->
  cel_dialstatus_store st' !! uid
  = most_recent_envelope uid msgs (cel_dialstatus_store st !! uid).
Proof.
  induction msgs as [|msg msgs IH]; intros st st' Hrun.
  - injection Hrun as <-. reflexivity.
  - cbn [cel_route_run] in Hrun.
    destruct (cel_route msg st) as [st1|] eqn:Hr; [|discriminate].
    unfold most_recent_envelope. cbn [fold_left].
    rewrite <- (route_store_lookup uid msg st st1 Hr).
    now apply IH.
Qed.

Lemma most_recent_envelope_kept uid blob msgs :
  Forall (fun msg => match msg with
                     | Routed (MsgDial later) => stores_envelope uid later = false
                     | Routed (MsgCacheUpdate update) => hangs_up uid update = false
                     | _ => True end) msgs ->
  most_recent_envelope uid msgs (Some blob) = Some blob.
Proof.
  unfold most_recent_envelope.
  induction msgs as [|msg msgs IH]; intros Hall; [reflexivity|].
  apply Forall_cons in Hall as [Hm Hall]. cbn [fold_left].
  replace (envelope_after uid msg (Some blob)) with (Some blob);
    [now apply IH|].
  destruct msg as [[]|]; cbn [envelope_after]; try reflexivity;
    now rewrite Hm.
Qed.

Lemma most_recent_envelope_none uid msgs :
  Forall (fun msg => match msg with
                     | Routed (MsgDial blob) => stores_envelope uid blob = false
                     | _ => True end) msgs ->
  most_recent_envelope uid msgs None = None.
Proof.
  unfold most_recent_envelope.
  induction msgs as [|msg msgs IH]; intros Hall; [reflexivity|].
  apply Forall_cons in Hall as [Hm Hall]. cbn [fold_left].
  replace (envelope_after uid msg None) with (@None ast_multi_channel_blob);
    [now apply IH|].
  destruct msg as [[]|]; cbn [envelope_after]; try reflexivity.
  - now destruct (hangs_up uid update).
  - now rewrite Hm.
Qed.

(** C2.  After any run of the router, the store holds for a uniqueid
    the most recent dial envelope of that caller that no hangup has
    consumed.  On a hangup transition, with [HANGUP] reported, the
    event carries the object of hangupcause, hangupsource and
    dialstatus, where dialstatus is the one of that envelope and the
    empty string when there is none; the lookup removes the entry, so
    a second hangup carries the empty string.  In particular the dial
    status is the one of the last dial envelope for the caller, also
    when earlier envelopes came before it and other messages after it;
    and it is empty when no envelope for the caller was stored. *)
Theorem hangup_carries_stored_dialstatus
    (msgs : list cel_routed_message) (st0 st : cel_state)
    (old new : ast_channel_snapshot) (g : ast_cel_general_config) :
  cel_route_run msgs st0 = Some st ->
  current_general st = Some g ->
  enable g = true ->
  Z.testbit (events g) AST_CEL_HANGUP = true ->
  ast_test_flag (flags old) AST_FLAG_DEAD = 0 ->
  ast_test_flag (flags new) AST_FLAG_DEAD <> 0 ->
  let uid := uniqueid new in
  let found := most_recent_envelope uid msgs (cel_dialstatus_store st0 !! uid) in
  let hangup_event (at_state : cel_state) (dialstatus : string) :=
    reported at_state new AST_CEL_HANGUP None
      (Some (JObj [ ("hangupcause", JInt (hangupcause new));
                    ("hangupsource", JStr (hangupsource new));
                    ("dialstatus", JStr dialstatus) ])) in
  let st' := cel_channel_state_change (Some old) (Some new) st in
  cel_dialstatus_store st !! uid = found
  /\ fanout st' = (fanout st ++ [hangup_event st (stored_dialstatus found)])%list
  /\ cel_dialstatus_store st' = delete uid (cel_dialstatus_store st)
  /\ fanout (cel_channel_state_change (Some old) (Some new) st')
     = (fanout st' ++ [hangup_event st' ""])%list
  /\ (forall pre blob post d,
        msgs = (pre ++ Routed (MsgDial blob) :: post)%list ->
        stores_envelope uid blob = true ->
        get_blob_variable blob "dialstatus" = Some d ->
        Forall (fun msg =>
                  match msg with
                  | Routed (MsgDial later) => stores_envelope uid later = false
                  | Routed (MsgCacheUpdate update) => hangs_up uid update = false
                  | _ => True
                  end) post ->
        found = Some blob /\ stored_dialstatus found = d)
  /\ (cel_dialstatus_store st0 !! uid = None ->
      Forall (fun msg =>
                match msg with
                | Routed (MsgDial blob) => stores_envelope uid blob = false
                | _ => True
                end) msgs ->
      found = None /\ stored_dialstatus found = "").
Proof.
  intros Hrun Hg Hen Hbit Hold Hnew uid found hangup_event st'.
  assert (Hfound : cel_dialstatus_store st !! uid = found)
    by (now apply route_run_store_lookup).
  assert (Hst' : st' = distribute
            (ast_cel_create_event (tvnow st) new AST_CEL_HANGUP None
               (Some (hangup_extra new (stored_dialstatus found))))
            (set_dialstatus_store st (delete uid (cel_dialstatus_store st)))).
  { subst st' found. rewrite <- Hfound.
    now apply (cel_channel_state_change_hangup old new st g). }
  split; [exact Hfound|]. split; [now rewrite Hst'|].
  split; [now rewrite Hst'|]. split; [|split].
  - rewrite (cel_channel_state_change_hangup old new st' g); trivial;
      [|now rewrite Hst'].
    replace (cel_dialstatus_store st' !! uniqueid new)
      with (@None ast_multi_channel_blob); [reflexivity|].
    rewrite Hst'. cbn [distribute set_dialstatus_store cel_dialstatus_store].
    symmetry. apply lookup_delete_eq.
  - intros pre blob post d -> Hs Hd Hpost. subst found.
    unfold most_recent_envelope. rewrite fold_left_app. cbn [fold_left].
    cbn [envelope_after]. rewrite Hs.
    fold (most_recent_envelope uid post (Some blob)).
    rewrite (most_recent_envelope_kept uid blob post Hpost).
    split; [reflexivity|].
    unfold stored_dialstatus, S_OR. rewrite Hd.
    unfold stores_envelope in Hs.
    destruct (ast_multi_channel_blob_get_channel blob "caller");
      [|discriminate].
    apply andb_true_iff in Hs as [_ Hs]. rewrite Hd in Hs.
    unfold ast_strlen_zero in Hs. rewrite negb_involutive in Hs.
    now rewrite Hs.
  - intros Hnone Hall. subst found. rewrite Hnone.
    rewrite (most_recent_envelope_none uid msgs Hall). now split.
Qed.

(** ** The INTERNAL filter *)

(** A report that passes: logging on, the event tracked, and neither a
    start of a channel nor an application event. *)
Lemma cel_report_event_passes s et ud ex st g :
  current_general st = Some g ->
  enable g = true ->
  Z.testbit (events g) et = true ->
  0 <= et < 32 ->
  et <> AST_CEL_CHANNEL_START ->
  et <> AST_CEL_APP_START ->
  et <> AST_CEL_APP_END ->
  snd (cel_report_event s et ud ex st)
  = distribute (ast_cel_create_event (tvnow st) s et ud ex) st.
Proof.
  intros Hg Hen Hbit Het Hstart Happ1 Happ2.
  rewrite (cel_report_event_other _ _ _ _ _ g) by assumption.
  rewrite Hbit. apply Z.eqb_neq in Happ1, Happ2.
  now rewrite Happ1, Happ2.
Qed.

(** C4 (as amended).  The snapshot, bridge-enter, bridge-leave and dial
    callbacks drop a message whose channel (the old or the new
    snapshot, the bridged channel, the caller) has the INTERNAL
    technology flag: the state, and with it the fan-out and the
    tracker, stays as it was.  The parking, pickup,
    local-optimisation, generic, blind-transfer and attended-transfer
    callbacks do not consult the filter: whenever they return they
    have not changed the tracker, and with logging on and their event
    tracked they report for a channel with the flag as for any
    other. *)
Theorem internal_snapshot_is_dropped
    (s : ast_channel_snapshot) (st : cel_state) :
  Z.land (tech_properties s) AST_CHAN_TP_INTERNAL <> 0 ->
  ((forall other,
      cel_snapshot_update_cb (mk_cache_update true (Some s) other) st = st)
   /\ (forall other,
         cel_snapshot_update_cb (mk_cache_update true other (Some s)) st = st)
   /\ (forall b j, cel_bridge_enter_cb (mk_bridge_blob b s j) st = st)
   /\ (forall b j, cel_bridge_leave_cb (mk_bridge_blob b s j) st = st)
   /\ (forall blob,
         ast_multi_channel_blob_get_channel blob "caller" = Some s ->
         cel_dial_cb blob st = st))
  /\ ((forall payload, linkedids (cel_parking_cb payload st) = linkedids st)
      /\ (forall obj, linkedids (cel_pickup_cb obj st) = linkedids st)
      /\ (forall obj, linkedids (cel_local_cb obj st) = linkedids st)
      /\ (forall obj,
            cel_generic_cb_in_bounds obj = true ->
            linkedids (cel_generic_cb obj st) = linkedids st)
      /\ (forall obj, linkedids (cel_blind_transfer_cb obj st) = linkedids st)
      /\ (forall xfer st',
            cel_attended_transfer_cb xfer st = Some st' ->
            linkedids st' = linkedids st))
  /\ (forall g,
        current_general st = Some g ->
        enable g = true ->
        (Z.testbit (events g) AST_CEL_PARK_START = true ->
         forall dial lot,
           fanout (cel_parking_cb
                     (mk_parked_call_payload s PARKED_CALL dial lot) st)
           = (fanout st
              ++ [reported st s AST_CEL_PARK_START None
                    (Some (JObj [ ("parker_dial_string", JStr dial);
                                  ("parking_lot", JStr lot) ]))])%list)
        /\ (Z.testbit (events g) AST_CEL_PARK_END = true ->
            forall dial lot,
              fanout (cel_parking_cb
                        (mk_parked_call_payload s PARKED_CALL_TIMEOUT dial lot)
                        st)
              = (fanout st
                 ++ [reported st s AST_CEL_PARK_END None
                       (Some (JObj [("reason", JStr "ParkedCallTimeOut")]))])%list)
        /\ (Z.testbit (events g) AST_CEL_PICKUP = true ->
            forall obj picker,
              ast_multi_channel_blob_get_channel obj "channel" = Some picker ->
              ast_multi_channel_blob_get_channel obj "target" = Some s ->
              fanout (cel_pickup_cb obj st)
              = (fanout st
                 ++ [reported st s AST_CEL_PICKUP None
                       (Some (JObj [("pickup_channel", JStr (name picker))]))])%list)
        /\ (Z.testbit (events g) AST_CEL_LOCAL_OPTIMIZE = true ->
            forall obj localtwo,
              ast_multi_channel_blob_get_channel obj "1" = Some s ->
              ast_multi_channel_blob_get_channel obj "2" = Some localtwo ->
              fanout (cel_local_cb obj st)
              = (fanout st
                 ++ [reported st s AST_CEL_LOCAL_OPTIMIZE None
                       (Some (JObj [("local_two", JStr (name localtwo))]))])%list)
        /\ (Z.testbit (events g) AST_CEL_USER_DEFINED = true ->
            forall event extra,
              fanout (cel_generic_cb
                        (ast_cel_publish_event s AST_CEL_USER_DEFINED
                           (Some (JObj [("event", JStr event);
                                        ("extra", extra)]))) st)
              = (fanout st
                 ++ [reported st s AST_CEL_USER_DEFINED (Some event)
                       (Some extra)])%list)
        /\ (Z.testbit (events g) AST_CEL_BLINDTRANSFER = true ->
            forall b result exten context,
              int_of_int64 result = AST_BRIDGE_TRANSFER_SUCCESS ->
              fanout (cel_blind_transfer_cb
                        (mk_bridge_blob b s
                           (Some (JObj [ ("result", JInt result);
                                         ("exten", JStr exten);
                                         ("context", JStr context) ]))) st)
              = (fanout st
                 ++ [reported st s AST_CEL_BLINDTRANSFER None
                       (Some (JObj [ ("extension", JStr exten);
                                     ("context", JStr context);
                                     ("bridge_id", JStr (bridge_uniqueid b)) ]))])%list)
        /\ (Z.testbit (events g) AST_CEL_ATTENDEDTRANSFER = true ->
            forall b1 b2 c2 app,
              exists st',
                cel_attended_transfer_cb
                  (mk_attended_transfer (mk_snapshot_pair (Some b1) (Some s))
                     (mk_snapshot_pair (Some b2) (Some c2))
                     AST_ATTENDED_TRANSFER_DEST_BRIDGE_MERGE app) st = Some st'
                /\ fanout st'
                   = (fanout st
                      ++ [reported st s AST_CEL_ATTENDEDTRANSFER None
                            (Some (JObj [ ("bridge1_id", JStr (bridge_uniqueid b1));
                                          ("channel2_name", JStr (name c2));
                                          ("bridge2_id",
                                           JStr (bridge_uniqueid b2)) ]))])%list)).
Proof.
  intros Hint.
  assert (Hf : negb (cel_filter_channel_snapshot (Some s) =? 0) = true).
  { unfold cel_filter_channel_snapshot. apply negb_true_iff.
    now apply Z.eqb_neq. }
  split; [|split].
  - split; [|split; [|split; [|split]]].
    + intros other. unfold cel_snapshot_update_cb.
      cbn [update_is_channel_snapshot old_snapshot new_snapshot].
      now rewrite Hf.
    + intros other. unfold cel_snapshot_update_cb.
      cbn [update_is_channel_snapshot old_snapshot new_snapshot].
      rewrite Hf. now rewrite orb_true_r.
    + intros b j. unfold cel_bridge_enter_cb. cbn [channel]. now rewrite Hf.
    + intros b j. unfold cel_bridge_leave_cb. cbn [channel]. now rewrite Hf.
    + intros blob Hc. unfold cel_dial_cb. rewrite Hc. now rewrite Hf.
  - split; [|split; [|split; [|split; [|split]]]].
    + intros payload. apply (dispatch_keeps (MsgParkedCall payload) st).
    + intros obj. apply (dispatch_keeps (MsgPickup obj) st).
    + intros obj. apply (dispatch_keeps (MsgLocalOptimization obj) st).
    + intros obj _. apply (dispatch_keeps (MsgGeneric obj) st).
    + intros obj. apply (dispatch_keeps (MsgBlindTransfer obj) st).
    + intros xfer st' Hx. apply attended_transfer_single_report in Hx.
      now apply single_report_keeps in Hx.
  - intros g Hg Hen.
    split; [|split; [|split; [|split; [|split; [|split]]]]]; intros Hbit.
    + intros dial lot. unfold cel_parking_cb.
      cbn [park_event_type parkee parker_dial_string parkinglot].
      rewrite (cel_report_event_passes _ _ _ _ _ g)
        by (trivial; vm_compute; try split; congruence).
      reflexivity.
    + intros dial lot. unfold cel_parking_cb.
      cbn [park_event_type parkee parker_dial_string parkinglot].
      rewrite (cel_report_event_passes _ _ _ _ _ g)
        by (trivial; vm_compute; try split; congruence).
      reflexivity.
    + intros obj picker Hc Ht. unfold cel_pickup_cb. rewrite Hc, Ht.
      rewrite (cel_report_event_passes _ _ _ _ _ g)
        by (trivial; vm_compute; try split; congruence).
      reflexivity.
    + intros obj localtwo H1 H2. unfold cel_local_cb. rewrite H1, H2.
      rewrite (cel_report_event_passes _ _ _ _ _ g)
        by (trivial; vm_compute; try split; congruence).
      reflexivity.
    + intros event extra. unfold cel_generic_cb, cel_generic_event_type,
        ast_cel_publish_event.
      cbn [chan_blob snapshot ast_json_object_get json_assoc String.eqb
           Ascii.eqb Bool.eqb ast_json_integer_get ast_json_string_get].
      change (int_of_int64 AST_CEL_USER_DEFINED) with AST_CEL_USER_DEFINED.
      change (AST_CEL_USER_DEFINED =? AST_CEL_USER_DEFINED) with true.
      cbv iota.
      rewrite (cel_report_event_passes _ _ _ _ _ g)
        by (trivial; vm_compute; try split; congruence).
      reflexivity.
    + intros b result exten context Hres. unfold cel_blind_transfer_cb.
      cbn [blob channel bridge ast_json_object_get json_assoc String.eqb
           Ascii.eqb Bool.eqb ast_json_integer_get ast_json_string_get].
      rewrite Hres, Z.eqb_refl. cbn [negb].
      rewrite (cel_report_event_passes _ _ _ _ _ g)
        by (trivial; vm_compute; try split; congruence).
      reflexivity.
    + intros b1 b2 c2 app. eexists. split.
      * unfold cel_attended_transfer_cb.
        cbn [to_transferee to_transfer_target bridge_snapshot channel_snapshot
             dest_type dest_app].
        rewrite (cel_report_event_passes _ _ _ _ _ g)
          by (trivial; vm_compute; try split; congruence).
        reflexivity.
      * reflexivity.
Qed.

(** X15.  The dial callback for a caller that passes the filter, with
    [FORWARD] reported: a non-empty forward gives one [FORWARD] event
    built from the caller, a non-empty dial status puts the envelope
    into the store under the uniqueid of the caller, and both happen
    for an envelope that carries both; the tracker is not touched. *)
Theorem cel_dial_cb_decision
    (blob : ast_multi_channel_blob) (caller : ast_channel_snapshot)
    (st : cel_state) (g : ast_cel_general_config) :
  ast_multi_channel_blob_get_channel blob "caller" = Some caller ->
  cel_filter_channel_snapshot (Some caller) = 0 ->
  current_general st = Some g ->
  enable g = true ->
  Z.testbit (events g) AST_CEL_FORWARD = true ->
  let forward := get_blob_variable blob "forward" in
  let st' := cel_dial_cb blob st in
  fanout st'
  = (fanout st
     ++ (if ast_strlen_zero forward then []
         else [reported st caller AST_CEL_FORWARD None
                 (Some (JObj [("forward", JStr (default "" forward))]))]))%list
  /\ cel_dialstatus_store st'
     = (if ast_strlen_zero (get_blob_variable blob "dialstatus")
        then cel_dialstatus_store st
        else <[uniqueid caller := blob]> (cel_dialstatus_store st))
  /\ linkedids st' = linkedids st.
Proof.
  intros Hc Hf Hg Hen Hbit forward st'. subst st' forward.
  unfold cel_dial_cb, get_caller_uniqueid. rewrite Hc, Hf.
  cbn [Z.eqb negb].
  unfold save_dialstatus, get_caller_uniqueid, ao2_link. rewrite Hc.
  destruct (ast_strlen_zero (get_blob_variable blob "forward")); cbn [negb].
  - rewrite app_nil_r.
    destruct (ast_strlen_zero (get_blob_variable blob "dialstatus"));
      repeat split; reflexivity.
  - rewrite (cel_report_event_other _ _ _ _ _ g)
      by (trivial; vm_compute; try split; congruence).
    rewrite Hbit.
    change (AST_CEL_FORWARD =? AST_CEL_APP_START) with false.
    change (AST_CEL_FORWARD =? AST_CEL_APP_END) with false.
    cbn [orb andb negb snd].
    destruct (ast_strlen_zero (get_blob_variable blob "dialstatus"));
      repeat split; reflexivity.
Qed.

End RouterProperties.

(** ** User events and transfers *)

(** The conversion to [int] keeps a value that fits. *)
Lemma int_of_int64_small z :
  - 2 ^ 31 <= z < 2 ^ 31 -> int_of_int64 z = z.
Proof.
  intros Hz. unfold int_of_int64.
  change (2 ^ 31) with 2147483648 in *. change (2 ^ 32) with 4294967296.
  rewrite Z.mod_small by lia. lia.
Qed.

Section PublishProperties.
Context `{cel_platform} `{cel_bridge_platform}.

(** X16.  A user event published with [ast_cel_publish_event] comes
    out of [cel_generic_cb] as one [USER_DEFINED] event that carries
    the published name and extra object, and a backend that fills a
    record from it reads the name and the extra text back; a
    publication of any other event type of the enumeration (the codes
    0 to 63 of the name table), or without a blob, stays inside the
    name table and is ignored by the callback. *)
Theorem published_user_event_is_reported
    (chan : ast_channel_snapshot) (event : string) (extra_obj : ast_json)
    (st : cel_state) (g : ast_cel_general_config) :
  current_general st = Some g ->
  enable g = true ->
  Z.testbit (events g) AST_CEL_USER_DEFINED = true ->
  let details := JObj [("event", JStr event); ("extra", extra_obj)] in
  let st' := cel_generic_cb
               (ast_cel_publish_event chan AST_CEL_USER_DEFINED (Some details))
               st in
  let ev := reported st chan AST_CEL_USER_DEFINED (Some event) (Some extra_obj) in
  let r := snd (ast_cel_fill_record (fst ev) fresh_record) in
  fanout st' = (fanout st ++ [ev])%list
  /\ event_type r = AST_CEL_USER_DEFINED
  /\ event_name r = "USER_DEFINED"
  /\ user_defined_name r = Some event
  /\ extra r = ast_json_dump_string extra_obj
  /\ (forall et b,
        0 <= et < 64 ->
        et <> AST_CEL_USER_DEFINED ->
        cel_generic_cb_in_bounds (ast_cel_publish_event chan et b) = true
        /\ cel_generic_cb (ast_cel_publish_event chan et b) st = st)
  /\ cel_generic_cb_in_bounds
       (ast_cel_publish_event chan AST_CEL_USER_DEFINED None) = true
  /\ cel_generic_cb (ast_cel_publish_event chan AST_CEL_USER_DEFINED None) st
     = st.
Proof.
  intros Hg Hen Hbit details st' ev r. subst st' ev r details.
  split; [|split; [|split; [|split; [|split; [|split; [|split]]]]]].
  - unfold cel_generic_cb, cel_generic_event_type, ast_cel_publish_event.
    cbn [chan_blob snapshot ast_json_object_get json_assoc String.eqb
         Ascii.eqb Bool.eqb ast_json_integer_get ast_json_string_get].
    change (int_of_int64 AST_CEL_USER_DEFINED) with AST_CEL_USER_DEFINED.
    change (AST_CEL_USER_DEFINED =? AST_CEL_USER_DEFINED) with true. cbv iota.
    rewrite (cel_report_event_other _ _ _ _ _ g)
      by (trivial; vm_compute; try split; congruence).
    rewrite Hbit. reflexivity.
  - unfold reported. cbn [fst].
    rewrite ast_cel_fill_record_created by reflexivity. reflexivity.
  - unfold reported. cbn [fst].
    rewrite ast_cel_fill_record_created by reflexivity. reflexivity.
  - unfold reported. cbn [fst].
    rewrite ast_cel_fill_record_created by reflexivity.
    cbn [snd user_defined_name].
    change (AST_CEL_USER_DEFINED =? AST_CEL_USER_DEFINED) with true.
    cbv iota. now rewrite S_OR_Some.
  - unfold reported. cbn [fst].
    rewrite ast_cel_fill_record_created by reflexivity.
    cbn [snd extra fmap option_fmap option_map]. apply S_OR_Some.
  - intros et b Het Hne.
    unfold cel_generic_cb, cel_generic_cb_in_bounds, cel_generic_event_type,
      ast_cel_publish_event.
    destruct b as [b|];
      cbn [chan_blob snapshot ast_json_object_get json_assoc String.eqb
           Ascii.eqb Bool.eqb ast_json_integer_get].
    + rewrite (int_of_int64_small et)
        by (change (2 ^ 31) with 2147483648; lia).
      apply Z.eqb_neq in Hne. rewrite Hne. cbn [orb].
      split; [|reflexivity].
      apply andb_true_iff. split; [apply Z.leb_le|apply Z.ltb_lt]; lia.
    + split; reflexivity.
  - reflexivity.
  - reflexivity.
Qed.

(** X17.  The blind-transfer callback reports exactly when the blob has
    a [result] that, converted to the 32-bit result type, is the
    success code, and [exten] and [context] strings: then,
    [BLINDTRANSFER] being reported, one event is built from the
    transferer channel with the extension, the context and the id of
    the bridge; in every other case the state stays as it was. *)
Theorem cel_blind_transfer_cb_decision
    (obj : ast_bridge_blob) (st : cel_state) (g : ast_cel_general_config) :
  current_general st = Some g ->
  enable g = true ->
  Z.testbit (events g) AST_CEL_BLINDTRANSFER = true ->
  let result := ast_json_object_get (blob obj) "result" in
  let exten := ast_json_string_get (ast_json_object_get (blob obj) "exten") in
  let context := ast_json_string_get (ast_json_object_get (blob obj) "context") in
  match result, exten, context with
  | Some r, Some e, Some c =>
      if int_of_int64 (ast_json_integer_get (Some r))
         =? AST_BRIDGE_TRANSFER_SUCCESS
      then fanout (cel_blind_transfer_cb obj st)
           = (fanout st
              ++ [reported st (channel obj) AST_CEL_BLINDTRANSFER None
                    (Some (JObj [ ("extension", JStr e);
                                  ("context", JStr c);
                                  ("bridge_id",
                                   JStr (bridge_uniqueid (bridge obj))) ]))])%list
      else cel_blind_transfer_cb obj st = st
  | _, _, _ => cel_blind_transfer_cb obj st = st
  end.
Proof.
  intros Hg Hen Hbit result exten context. subst result exten context.
  unfold cel_blind_transfer_cb.
  destruct (ast_json_object_get (blob obj) "result") as [r|]; [|reflexivity].
  destruct (ast_json_object_get (blob obj) "exten") as [je|];
    destruct (ast_json_object_get (blob obj) "context") as [jc|];
    cbn [ast_json_string_get].
  - destruct (ast_json_string_get (Some je)) as [e|] eqn:He;
      destruct (ast_json_string_get (Some jc)) as [c|] eqn:Hc;
      cbn [ast_json_string_get] in He, Hc |- *; rewrite ?He, ?Hc;
      try (destruct (negb _); reflexivity).
    destruct (int_of_int64 (ast_json_integer_get (Some r))
              =? AST_BRIDGE_TRANSFER_SUCCESS);
      cbn [negb]; [|reflexivity].
    rewrite (cel_report_event_other _ _ _ _ _ g)
      by (trivial; vm_compute; try split; congruence).
    rewrite Hbit. reflexivity.
  - destruct (match je with JStr s => Some s | _ => None end);
      destruct (negb _); reflexivity.
  - destruct (negb _); reflexivity.
  - destruct (negb _); reflexivity.
Qed.

(** X18.  The attended-transfer callback, [ATTENDEDTRANSFER] being
    reported.  With a bridge on the transferee side, a merge, link or
    three-way transfer is reported on the transferee channel with the
    two bridge ids and the name of the target channel.  Without one,
    the two sides swap roles: a transfer to an application is
    reported on the target channel with the id of the target bridge
    and the name of the transferee channel.  A failed transfer is
    dropped. *)
Theorem cel_attended_transfer_cb_sides
    (b1 b2 : ast_bridge_snapshot) (c1 c2 : ast_channel_snapshot)
    (app : string) (st : cel_state) (g : ast_cel_general_config) :
  current_general st = Some g ->
  enable g = true ->
  Z.testbit (events g) AST_CEL_ATTENDEDTRANSFER = true ->
  (forall dest,
     dest = AST_ATTENDED_TRANSFER_DEST_BRIDGE_MERGE
     \/ dest = AST_ATTENDED_TRANSFER_DEST_LINK
     \/ dest = AST_ATTENDED_TRANSFER_DEST_THREEWAY ->
     cel_attended_transfer_cb
       (mk_attended_transfer (mk_snapshot_pair (Some b1) (Some c1))
          (mk_snapshot_pair (Some b2) (Some c2)) dest app) st
     = Some (distribute
               (ast_cel_create_event (tvnow st) c1 AST_CEL_ATTENDEDTRANSFER None
                  (Some (JObj [ ("bridge1_id", JStr (bridge_uniqueid b1));
                                ("channel2_name", JStr (name c2));
                                ("bridge2_id", JStr (bridge_uniqueid b2)) ])))
               st))
  /\ cel_attended_transfer_cb
       (mk_attended_transfer (mk_snapshot_pair None (Some c1))
          (mk_snapshot_pair (Some b2) (Some c2))
          AST_ATTENDED_TRANSFER_DEST_APP app) st
     = Some (distribute
               (ast_cel_create_event (tvnow st) c2 AST_CEL_ATTENDEDTRANSFER None
                  (Some (JObj [ ("bridge1_id", JStr (bridge_uniqueid b2));
                                ("channel2_name", JStr (name c1));
                                ("app", JStr app) ])))
               st)
  /\ (forall transferee target,
        cel_attended_transfer_cb
          (mk_attended_transfer transferee target
             AST_ATTENDED_TRANSFER_DEST_FAIL app) st = Some st).
Proof.
  intros Hg Hen Hbit. split; [|split].
  - intros dest [->|[->| ->]];
      unfold cel_attended_transfer_cb;
      cbn [to_transferee to_transfer_target bridge_snapshot channel_snapshot
           dest_type dest_app];
      rewrite (cel_report_event_other _ _ _ _ _ g)
        by (trivial; vm_compute; try split; congruence);
      rewrite Hbit; reflexivity.
  - unfold cel_attended_transfer_cb.
    cbn [to_transferee to_transfer_target bridge_snapshot channel_snapshot
         dest_type dest_app].
    rewrite (cel_report_event_other _ _ _ _ _ g)
      by (trivial; vm_compute; try split; congruence).
    rewrite Hbit. reflexivity.
  - intros transferee target. unfold cel_attended_transfer_cb.
    cbn [to_transferee to_transfer_target dest_type].
    destruct (bridge_snapshot transferee); reflexivity.
Qed.

(** X19.  When the transferee side has no bridge, the swap makes the
    second bridge the missing one; for a merge, link or three-way
    transfer the callback then reads the id of that bridge through the
    NULL pointer, whatever the other fields are: no event is reported
    for such a message. *)
Theorem cel_attended_transfer_cb_null_bridge
    (xfer : ast_attended_transfer_message) (st : cel_state) :
  bridge_snapshot (to_transferee xfer) = None ->
  dest_type xfer = AST_ATTENDED_TRANSFER_DEST_BRIDGE_MERGE
  \/ dest_type xfer = AST_ATTENDED_TRANSFER_DEST_LINK
  \/ dest_type xfer = AST_ATTENDED_TRANSFER_DEST_THREEWAY ->
  cel_attended_transfer_cb xfer st = None.
Proof.
  intros Hb Hd. unfold cel_attended_transfer_cb. rewrite Hb.
  destruct Hd as [->|[->| ->]];
    destruct (bridge_snapshot (to_transfer_target xfer));
    destruct (channel_snapshot (to_transferee xfer)); reflexivity.
Qed.

End PublishProperties.

(** ** Replacing the configuration *)

Section ConfigChangeProperties.
Context `{cel_platform}.

(** X20.  [ast_cel_set_config] on an engine that holds a configuration
    object: [ast_cel_get_config] then returns what was set, the
    tracker, the dial-status store, the registry and the fan-out are
    as before, and with logging switched off in the new configuration
    no report does anything.  Without a configuration object the
    function reads through NULL. *)
Theorem ast_cel_set_config_effect
    (config : option ast_cel_general_config) (st : cel_state) :
  (cel_configs st = None -> ast_cel_set_config config st = None)
  /\ (cel_configs st <> None ->
      exists st',
        ast_cel_set_config config st = Some st'
        /\ ast_cel_get_config st' = config
        /\ linkedids st' = linkedids st
        /\ cel_dialstatus_store st' = cel_dialstatus_store st
        /\ cel_backends st' = cel_backends st
        /\ fanout st' = fanout st
        /\ ((config = None \/ exists g, config = Some g /\ enable g = false) ->
            forall s et ud ex, cel_report_event s et ud ex st' = (0, st'))).
Proof.
  unfold ast_cel_set_config. split.
  - intros ->. reflexivity.
  - intros Hc. destruct (cel_configs st) as [c|]; [|contradiction].
    eexists. split; [reflexivity|]. repeat split.
    intros Hoff s et ud ex. apply cel_report_event_disabled.
    unfold ast_cel_check_enabled. cbn.
    destruct Hoff as [->|(g & -> & Hen)]; [reflexivity|exact Hen].
Qed.

End ConfigChangeProperties.

(** ** The fabricated channel and the status command *)

Section FabricateProperties.
Context `{cel_platform} `{cel_channel_platform}.

(** X21.  The channel fabricated from an event that
    [ast_cel_create_event] built for a snapshot and an event type of
    the name table (codes 0 to 63): the six variables are
    set, [eventenum] to the name of the event type, [eventtype] to the
    user-given name for [USER_DEFINED] and to the name of the type
    otherwise, [eventextra] to the extra text and [BRIDGEPEER] to the
    empty string; the caller ids, extension, context, name, unique and
    linked id, account code, user field, AMA flags, application and
    data are the ones of the snapshot, and the peer account of the
    channel is the account code of the snapshot. *)
Theorem fabricated_channel_of_created_event
    (now : timeval) (snap : ast_channel_snapshot) (et : Z)
    (userdefevname : option string) (extra_obj : option ast_json)
    (st : cel_state) (g : ast_cel_general_config) :
  current_general st = Some g ->
  0 <= et < 64 ->
  exists chan,
    ast_cel_fabricate_channel_from_event
      (ast_cel_create_event now snap et userdefevname extra_obj) st = Some chan
    /\ map fst (varshead chan)
       = [ "BRIDGEPEER"; "eventextra"; "userdeftype"; "eventenum";
           "eventtime"; "eventtype" ]
    /\ getvar (varshead chan) "eventenum" = Some (ast_cel_get_type_name et)
    /\ getvar (varshead chan) "eventtype"
       = Some (if et =? AST_CEL_USER_DEFINED then S_OR userdefevname ""
               else ast_cel_get_type_name et)
    /\ getvar (varshead chan) "userdeftype"
       = Some (if et =? AST_CEL_USER_DEFINED then S_OR userdefevname "" else "")
    /\ getvar (varshead chan) "eventextra"
       = Some (S_OR (ast_json_dump_string <$> extra_obj) "")
    /\ getvar (varshead chan) "BRIDGEPEER" = Some ""
    /\ getvar (varshead chan) "eventtime"
       = Some (if nonempty (date_format g)
               then ast_strftime_localtime (date_format g) now
               else snprintf_timebuf (tv_sec now) (tv_usec now))
    /\ (chan_caller_id_name chan, chan_caller_id_number chan,
        chan_caller_ani chan, chan_redirecting_from chan,
        chan_dialed_number chan)
       = (caller_name snap, caller_number snap, caller_ani snap,
          caller_rdnis snap, caller_dnid snap)
    /\ (chan_exten chan, chan_channel_context chan, chan_name chan,
        chan_uniqueid chan, chan_linkedid chan)
       = (exten snap, chan_context snap, name snap, uniqueid snap,
          linkedid snap)
    /\ (chan_accountcode chan, chan_userfield chan, chan_amaflags chan,
        chan_appl chan, chan_data chan)
       = (accountcode snap, userfield snap, amaflags snap, appl snap,
          data snap)
    /\ chan_peeraccount chan = accountcode snap.
Proof.
  intros Hg _. unfold ast_cel_fabricate_channel_from_event. rewrite Hg.
  rewrite ast_cel_fill_record_created by reflexivity.
  cbn [Z.eqb negb event_type user_defined_name event_name event_time extra
       peer caller_id_name caller_id_num caller_id_ani caller_id_rdnis
       caller_id_dnid extension rec_context channel_name unique_id linked_id
       account_code peer_account user_field amaflag application_name
       application_data].
  unfold ast_strlen_zero.
  destruct (et =? AST_CEL_USER_DEFINED); destruct (nonempty (date_format g));
    cbn [negb]; eexists; (split; [reflexivity|]);
    repeat split; reflexivity.
Qed.

End FabricateProperties.

Lemma cli_event_lines_app e n : forall m i,
  cli_event_lines e i (n + m)
  = (cli_event_lines e i n ++ cli_event_lines e (i + Z.of_nat n) m)%list.
Proof.
  induction n as [|n IH]; intros m i.
  - cbn [cli_event_lines Nat.add Z.of_nat app]. now rewrite Z.add_0_r.
  - cbn [cli_event_lines Nat.add]. rewrite IH.
    replace (i + 1 + Z.of_nat n) with (i + Z.of_nat (S n)) by lia.
    destruct (Z.land e (Z.shiftl 1 i) =? 0); [reflexivity|].
    destruct (negb _); reflexivity.
Qed.

Lemma cli_event_lines_unknown e n : forall i,
  (forall j, i <= j < i + Z.of_nat n -> ast_cel_get_type_name j = "Unknown") ->
  cli_event_lines e i n = [].
Proof.
  induction n as [|n IH]; intros i Hu; [reflexivity|].
  cbn [cli_event_lines]. rewrite IH by (intros j Hj; apply Hu; lia).
  rewrite (Hu i) by lia.
  destruct (Z.land e (Z.shiftl 1 i) =? 0); reflexivity.
Qed.

Lemma cli_event_lines_known e n : forall a,
  (forall j, Z.of_nat a <= j < Z.of_nat (a + n) ->
             strcasecmp (ast_cel_get_type_name j) "Unknown" <> 0) ->
  cli_event_lines e (Z.of_nat a) n
  = flat_map
      (fun k => if Z.testbit e (Z.of_nat k)
                then ["CEL Tracking Event: "
                      +:+ ast_cel_get_type_name (Z.of_nat k) +:+ newline]
                else [])
      (seq a n).
Proof.
  induction n as [|n IH]; intros a Hk; [reflexivity|].
  cbn [cli_event_lines seq flat_map].
  replace (Z.of_nat a + 1) with (Z.of_nat (S a)) by lia.
  rewrite IH by (intros j Hj; apply Hk; lia).
  rewrite land_bit_zero by lia.
  destruct (Z.testbit e (Z.of_nat a)); cbn [negb]; [|reflexivity].
  assert (Ha : strcasecmp (ast_cel_get_type_name (Z.of_nat a)) "Unknown" <> 0)
    by (apply Hk; lia).
  apply Z.eqb_neq in Ha. rewrite Ha. reflexivity.
Qed.

Lemma event_names_known j :
  0 <= j < 18 -> strcasecmp (ast_cel_get_type_name j) "Unknown" <> 0.
Proof.
  intros Hj. replace j with (Z.of_nat (Z.to_nat j)) by lia.
  assert (Hk : (Z.to_nat j < 18)%nat) by lia.
  generalize dependent (Z.to_nat j). intros k Hk.
  do 18 (destruct k as [|k]; [vm_compute; discriminate|]). lia.
Qed.

(** X23.  The output of [cel show status].  More than three arguments
    give the usage request.  Otherwise the first line tells whether
    logging is enabled; when it is not, that line is all.  When it is,
    the lines that follow name, in the order of the codes, exactly the
    event types from 0 ([ALL]) to 17 whose bit is set in the mask, the
    bits from 18 to 63 giving no line; after them come the lines of
    the applications, each [CEL Tracking Application:] with a listed
    application and every listed application among them, and then the
    lines of the backends, each [CEL Event Subscriber:] with a
    registered name and every registered name among them. *)
Theorem handle_cli_status_output (argc : Z) (st : cel_state) :
  (3 < argc -> handle_cli_status CLI_HANDLER argc st = CLI_SHOWUSAGE)
  /\ (argc <= 3 -> ast_cel_check_enabled st = false ->
      handle_cli_status CLI_HANDLER argc st
      = CLI_SUCCESS ["CEL Logging: Disabled" +:+ newline])
  /\ (argc <= 3 ->
      forall g, current_general st = Some g -> enable g = true ->
      exists app_lines backend_lines,
        handle_cli_status CLI_HANDLER argc st
        = CLI_SUCCESS
            (["CEL Logging: Enabled" +:+ newline]
             ++ flat_map
                  (fun k => if Z.testbit (events g) (Z.of_nat k)
                            then ["CEL Tracking Event: "
                                  +:+ ast_cel_get_type_name (Z.of_nat k)
                                  +:+ newline]
                            else [])
                  (seq 0 18)
             ++ app_lines ++ backend_lines)%list
        /\ (forall line,
              line ∈ app_lines <->
              exists app, app ∈ apps g
                          /\ line = "CEL Tracking Application: " +:+ app
                                    +:+ newline)
        /\ (forall line,
              line ∈ backend_lines <->
              exists name cb, cel_backends st !! name = Some cb
                              /\ line = "CEL Event Subscriber: " +:+ name
                                        +:+ newline)).
Proof.
  unfold handle_cli_status. split; [|split].
  - intros Ha. apply Z.ltb_lt in Ha. now rewrite Ha.
  - intros Ha Hoff.
    assert (Hn : (3 <? argc) = false) by (apply Z.ltb_ge; lia).
    rewrite Hn, Hoff. unfold ast_cel_check_enabled in Hoff.
    destruct (current_general st) as [g|]; [|reflexivity].
    rewrite Hoff. reflexivity.
  - intros Ha g Hg Hen.
    assert (Hn : (3 <? argc) = false) by (apply Z.ltb_ge; lia).
    rewrite Hn. unfold ast_cel_check_enabled. rewrite Hg, Hen. cbn [negb].
    eexists _, _. split; [|split].
    + change 64%nat with (18 + 46)%nat.
      rewrite cli_event_lines_app.
      rewrite (cli_event_lines_unknown (events g) 46)
        by (intros j Hj; apply ast_cel_get_type_name_unknown; lia).
      rewrite app_nil_r.
      change 0 with (Z.of_nat 0) at 1.
      rewrite cli_event_lines_known
        by (intros j Hj; apply event_names_known; lia).
      reflexivity.
    + intros line. rewrite list_elem_of_In, in_map_iff. split.
      * intros (app & <- & Hin). exists app. split; [|reflexivity].
        apply elem_of_elements. now apply list_elem_of_In.
      * intros (app & Hin & ->). exists app. split; [reflexivity|].
        apply list_elem_of_In. now apply elem_of_elements.
    + intros line. rewrite list_elem_of_In, in_map_iff. split.
      * intros ([name cb] & <- & Hin). exists name, cb. split; [|reflexivity].
        apply elem_of_map_to_list. now apply list_elem_of_In.
      * intros (name & cb & Hin & ->). exists (name, cb).
        split; [reflexivity|].
        apply list_elem_of_In. now apply elem_of_map_to_list.
Qed.

Section LoadProperties.

Lemma cel_pre_apply_config_rejects g :
  cel_pre_apply_config (mk_cel_config (Some g)) = -1 <->
  apps g <> ∅
  /\ Z.testbit (events g) AST_CEL_APP_START = false
  /\ Z.testbit (events g) AST_CEL_APP_END = false.
Proof.
  unfold cel_pre_apply_config. cbn [general].
  rewrite !land_bit_zero by (vm_compute; discriminate).
  destruct (Nat.eqb_spec (size (apps g)) 0) as [E|E].
  - apply size_empty_inv in E. apply leibniz_equiv in E.
    split; [discriminate | intros [? _]; contradiction].
  - assert (Hne : apps g <> ∅).
    { intros Hempty. apply E. rewrite Hempty. apply size_empty. }
    destruct (Z.testbit (events g) AST_CEL_APP_START); cbn [negb];
      [split; [discriminate | intros (_ & ? & _); discriminate]|].
    destruct (Z.testbit (events g) AST_CEL_APP_END); cbn [negb];
      [split; [discriminate | intros (_ & _ & ?); discriminate]|].
    split; [intros _; repeat split; trivial | reflexivity].
Qed.

(** X24.  The two option handlers and the pre-apply check together, in
    terms of the option values: after [events] and [apps] have been
    loaded into a configuration (the [events] list being accepted), the
    pre-apply check rejects exactly when some application is listed or
    was there before, and neither the mask before nor any field of the
    [events] value brings in [APP_START], [APP_END] or [ALL]. *)
Theorem loaded_options_pre_apply
    (events_value apps_value : string) (cfg : ast_cel_general_config) :
  fst (events_handler events_value cfg) = 0 ->
  let loaded :=
    snd (apps_handler apps_value (snd (events_handler events_value cfg))) in
  cel_pre_apply_config (mk_cel_config (Some loaded)) = -1 <->
  (apps cfg <> ∅
   \/ exists tok, tok ∈ strsep_all "," apps_value
                  /\ nonempty (ast_strip tok) = true)
  /\ Z.testbit (events cfg) AST_CEL_APP_START = false
  /\ Z.testbit (events cfg) AST_CEL_APP_END = false
  /\ (forall tok, tok ∈ strsep_all "," events_value ->
        nonempty (ast_strip tok) = true ->
        ast_cel_str_to_event_type (ast_strip tok) <> AST_CEL_ALL
        /\ ast_cel_str_to_event_type (ast_strip tok) <> AST_CEL_APP_START
        /\ ast_cel_str_to_event_type (ast_strip tok) <> AST_CEL_APP_END).
Proof.
  intros Hok loaded. subst loaded. unfold apps_handler, events_handler in *.
  set (toks := strsep_all "," events_value) in *.
  set (atoks := strsep_all "," apps_value).
  set (cfg1 := snd (events_handler_loop toks cfg)).
  rewrite cel_pre_apply_config_rejects.
  destruct (apps_handler_loop_frame atoks cfg1) as (_ & _ & _ & Hev).
  rewrite Hev.
  destruct (events_handler_loop_frame toks cfg) as (_ & _ & Happs & _).
  fold cfg1 in Happs.
  pose proof (events_handler_loop_bits toks cfg AST_CEL_APP_START
                ltac:(vm_compute; discriminate) Hok) as H5.
  pose proof (events_handler_loop_bits toks cfg AST_CEL_APP_END
                ltac:(vm_compute; discriminate) Hok) as H6.
  fold cfg1 in H5, H6.
  assert (Hne : apps (snd (apps_handler_loop atoks cfg1)) <> ∅ <->
                apps cfg <> ∅
                \/ exists tok, tok ∈ atoks /\ nonempty (ast_strip tok) = true).
  { split.
    - intros Hne. apply set_choose_L in Hne as [x Hx].
      apply apps_handler_loop_apps in Hx as [Hx|(tok & Ht & Hn & _)].
      + left. rewrite <- Happs. intros Hempty. rewrite Hempty in Hx.
        now apply not_elem_of_empty in Hx.
      + right. now exists tok.
    - intros Hsome Hempty.
      assert (Hin : exists x, x ∈ apps (snd (apps_handler_loop atoks cfg1))).
      { destruct Hsome as [Hc|(tok & Ht & Hn)].
        - rewrite <- Happs in Hc. apply set_choose_L in Hc as [x Hx].
          exists x. apply apps_handler_loop_apps. now left.
        - exists (ast_str_to_lower (ast_strip tok)).
          apply apps_handler_loop_apps. right. now exists tok. }
      destruct Hin as [x Hx]. rewrite Hempty in Hx.
      now apply not_elem_of_empty in Hx. }
  rewrite Hne. clear Hne.
  split.
  - intros (Ha & E5 & E6). split; [exact Ha|].
    split.
    { apply not_true_is_false. intros E.
      assert (Hb : Z.testbit (events cfg1) AST_CEL_APP_START = true)
        by (apply H5; now left).
      congruence. }
    split.
    { apply not_true_is_false. intros E.
      assert (Hb : Z.testbit (events cfg1) AST_CEL_APP_END = true)
        by (apply H6; now left).
      congruence. }
    intros tok Ht Hn. repeat split; intros Heq.
    + assert (Hb : Z.testbit (events cfg1) AST_CEL_APP_START = true)
        by (apply H5; right; exists tok; repeat split; trivial; now left).
      congruence.
    + assert (Hb : Z.testbit (events cfg1) AST_CEL_APP_START = true)
        by (apply H5; right; exists tok; repeat split; trivial; now right).
      congruence.
    + assert (Hb : Z.testbit (events cfg1) AST_CEL_APP_END = true)
        by (apply H6; right; exists tok; repeat split; trivial; now right).
      congruence.
  - intros (Ha & E5 & E6 & Htoks). split; [exact Ha|].
    split.
    + apply not_true_is_false. intros E.
      apply H5 in E as [E|(tok & Ht & Hn & [E|E])]; [congruence| |];
        destruct (Htoks tok Ht Hn) as (N0 & N5 & N6); contradiction.
    + apply not_true_is_false. intros E.
      apply H6 in E as [E|(tok & Ht & Hn & [E|E])]; [congruence| |];
        destruct (Htoks tok Ht Hn) as (N0 & N5 & N6); contradiction.
Qed.

End LoadProperties.

Section RegistryProperties.
Context `{cel_platform}.

(** X25.  Reports reach the backends registered at the time of the
    report.  A backend registered under a non-empty name is handed the
    next reported event, and after it has been unregistered (which
    then succeeds) the event after that is handed to the registry
    without it; the other backends see both. *)
Theorem reports_reach_registered_backends
    (name : string) (cb : ast_cel_backend_cb) (s : ast_channel_snapshot)
    (et : Z) (ud : option string) (ex : option ast_json)
    (st : cel_state) (g : ast_cel_general_config) :
  name <> "" ->
  current_general st = Some g ->
  enable g = true ->
  0 <= et < 32 ->
  Z.testbit (events g) et = true ->
  et <> AST_CEL_CHANNEL_START ->
  et <> AST_CEL_APP_START ->
  et <> AST_CEL_APP_END ->
  let ev := ast_cel_create_event (tvnow st) s et ud ex in
  let st1 := snd (ast_cel_backend_register (Some name) cb st) in
  let st2 := snd (cel_report_event s et ud ex st1) in
  let r := ast_cel_backend_unregister name st2 in
  let st3 := snd (cel_report_event s et ud ex (snd r)) in
  fst r = 0
  /\ exists during after,
       fanout st3 = (fanout st ++ [(ev, during); (ev, after)])%list
       /\ during !! name = Some cb
       /\ after !! name = None
       /\ forall other, other <> name ->
            during !! other = cel_backends st !! other
            /\ after !! other = cel_backends st !! other.
Proof.
  intros Hname Hg Hen Het Hbit Hstart Happ1 Happ2. cbv zeta.
  assert (Hreport : forall st0,
            current_general st0 = Some g ->
            cel_report_event s et ud ex st0
            = (0, distribute (ast_cel_create_event (tvnow st0) s et ud ex) st0)).
  { intros st0 Hg0.
    rewrite (cel_report_event_other _ _ _ _ _ g) by assumption.
    rewrite Hbit.
    apply Z.eqb_neq in Happ1, Happ2. rewrite Happ1, Happ2. reflexivity. }
  assert (Hst1 : snd (ast_cel_backend_register (Some name) cb st)
                 = set_backends st (<[name := cb]> (cel_backends st))).
  { unfold ast_cel_backend_register, ast_strlen_zero.
    rewrite (nonempty_true name Hname). reflexivity. }
  rewrite Hst1. clear Hst1.
  set (st1 := set_backends st (<[name := cb]> (cel_backends st))).
  rewrite (Hreport st1 Hg). cbn [snd].
  unfold ast_cel_backend_unregister, ao2_find_unlink.
  change (cel_backends (distribute
            (ast_cel_create_event (tvnow st1) s et ud ex) st1))
    with (<[name := cb]> (cel_backends st)).
  rewrite lookup_insert_eq. cbn [fst snd]. split; [reflexivity|].
  exists (<[name := cb]> (cel_backends st)), (delete name (cel_backends st)).
  split.
  - rewrite Hreport by exact Hg.
    cbn [snd distribute set_backends fanout cel_backends tvnow st1].
    subst st1.
    cbn [snd distribute set_backends fanout cel_backends tvnow].
    rewrite delete_insert_eq. rewrite <- app_assoc. reflexivity.
  - split; [apply lookup_insert_eq|]. split; [apply lookup_delete_eq|].
    intros other Hother. split.
    + now apply lookup_insert_ne.
    + now apply lookup_delete_ne.
Qed.

End RegistryProperties.

(** * The further properties on concrete runs *)

Section FurtherExamples.

#[local] Existing Instance example_platform.
#[local] Existing Instance example_bridge_platform.
#[local] Existing Instance example_channel_platform.

Lemma example_state_general :
  current_general (example_state example_general) = Some example_general.
Proof. vm_compute. reflexivity. Defined.

Lemma event_type_name_round_trip_witness :
  ast_cel_str_to_event_type (ast_cel_get_type_name AST_CEL_HANGUP)
  = AST_CEL_HANGUP
  /\ strcasecmp "hangup" (ast_cel_get_type_name AST_CEL_HANGUP) = 0
  /\ ast_cel_get_type_name 40 = "Unknown".
Proof.
  destruct event_type_name_round_trip as (H1 & H2 & H3).
  split; [apply H1; vm_compute; split; discriminate|].
  split.
  - apply (H2 "hangup" AST_CEL_HANGUP); [vm_compute; reflexivity|].
    vm_compute. discriminate.
  - apply H3. lia.
Defined.

Lemma ast_cel_track_event_int_result_witness :
  ast_cel_track_event (example_state example_general) AST_CEL_LINKEDID_END <> 0
  /\ ast_cel_track_event (example_state example_general) 40 = 0.
Proof.
  destruct (ast_cel_track_event_int_result (example_state example_general)
              example_general AST_CEL_LINKEDID_END example_state_general)
    as [H1 _].
  destruct (ast_cel_track_event_int_result (example_state example_general)
              example_general 40 example_state_general) as [_ H2].
  split.
  - apply H1; [vm_compute; split; congruence | reflexivity].
  - apply H2. lia.
Defined.

Lemma events_handler_sets_named_bits_witness :
  Z.testbit
    (events (snd (events_handler "hangup, ANSWER" (mk_general true "" 0 ∅))))
    AST_CEL_HANGUP = true.
Proof.
  apply (events_handler_sets_named_bits "hangup, ANSWER"
           (mk_general true "" 0 ∅) AST_CEL_HANGUP).
  - vm_compute. discriminate.
  - vm_compute. reflexivity.
  - right. exists "hangup". split; [vm_compute; left|].
    split; [|right]; vm_compute; reflexivity.
Defined.

Lemma events_handler_only_adds_bits_witness :
  fst (events_handler "ANSWER,bogus" (mk_general true "" 16 ∅)) = -1
  /\ Z.testbit
       (events (snd (events_handler "ANSWER,bogus" (mk_general true "" 16 ∅))))
       AST_CEL_HANGUP = true.
Proof.
  split; [vm_compute; reflexivity|].
  destruct (events_handler_only_adds_bits "ANSWER,bogus"
              (mk_general true "" 16 ∅)) as (_ & _ & _ & H4).
  apply H4; [vm_compute; discriminate | vm_compute; reflexivity].
Defined.

Lemma apps_handler_tracks_ignoring_case_witness :
  let cfg := snd (apps_handler "Dial, Queue" example_general) in
  cel_track_app (example_state cfg) "DIAL" <> 0.
Proof.
  intros cfg.
  assert (Hg : current_general (example_state cfg) = Some cfg)
    by (vm_compute; reflexivity).
  destruct (apps_handler_tracks_ignoring_case "Dial, Queue" example_general
              (example_state cfg) "DIAL" Hg) as (_ & _ & _ & H4).
  apply H4. right. exists "Dial". split; [vm_compute; left|].
  split; vm_compute; reflexivity.
Defined.

Lemma cel_report_event_decision_witness :
  let st := example_state example_general in
  let r := cel_report_event (example_snapshot "1000.9" "")
             AST_CEL_CHANNEL_START None None st in
  let r' := cel_report_event alice AST_CEL_HANGUP None None st in
  fst r = -1 /\ fanout (snd r) = fanout st
  /\ fst r' = 0
  /\ fanout (snd r')
     = (fanout st ++ [reported st alice AST_CEL_HANGUP None None])%list.
Proof.
  intros st r r'.
  destruct (cel_report_event_decision (example_snapshot "1000.9" "")
              AST_CEL_CHANNEL_START None None st example_general
              example_state_general ltac:(vm_compute; split; congruence))
    as [H1 H2].
  destruct (cel_report_event_decision alice AST_CEL_HANGUP None None st
              example_general example_state_general
              ltac:(vm_compute; split; congruence)) as [H3 H4].
  split; [exact H1|]. split; [exact H2|]. split; [exact H3 | exact H4].
Defined.

Lemma check_retire_linkedid_edges_witness :
  check_retire_linkedid (example_snapshot "1000.9" "")
    (example_state example_general) = example_state example_general
  /\ check_retire_linkedid alice (example_state example_general)
     = example_state example_general.
Proof.
  destruct (check_retire_linkedid_edges (example_snapshot "1000.9" "")
              (example_state example_general)) as (H1 & _).
  destruct (check_retire_linkedid_edges alice (example_state example_general))
    as (_ & _ & H3 & _).
  split; [apply H1; reflexivity | apply H3; vm_compute; reflexivity].
Defined.

Lemma cel_channel_state_change_decision_witness :
  let st := example_state example_general in
  let up := with_state alice AST_STATE_UP in
  fanout (cel_channel_state_change (Some alice) (Some (dead_chan up)) st)
  = (fanout st
     ++ [reported st (dead_chan up) AST_CEL_HANGUP None
           (Some (hangup_extra (dead_chan up) ""))])%list
  /\ fanout (cel_channel_state_change (Some (dead_chan alice))
               (Some (dead_chan up)) st)
     = (fanout st ++ [reported st (dead_chan up) AST_CEL_ANSWER None None])%list.
Proof.
  intros st up.
  destruct (cel_channel_state_change_decision alice (dead_chan up) st
              example_general example_state_general eq_refl eq_refl eq_refl)
    as (H1 & _).
  destruct (cel_channel_state_change_decision (dead_chan alice) (dead_chan up)
              st example_general example_state_general eq_refl eq_refl eq_refl)
    as (H2 & _).
  split; [exact H1 | exact H2].
Defined.

Lemma cel_channel_app_change_decision_witness :
  let st := example_state example_general_apps in
  let old := with_appl alice "Dial" in
  let new := with_appl alice "Queue" in
  fanout (cel_channel_app_change (Some old) (Some new) st)
  = (fanout st ++ [reported st old AST_CEL_APP_END None None])%list.
Proof.
  intros st old new.
  assert (Hg : current_general st = Some example_general_apps)
    by (vm_compute; reflexivity).
  destruct (cel_channel_app_change_decision old new st example_general_apps
              Hg eq_refl eq_refl eq_refl) as (H1 & _).
  rewrite H1. vm_compute. reflexivity.
Defined.

Lemma cel_channel_linkedid_change_moves_reference_witness :
  let st := snd (cel_linkedid_ref "1000.1" (example_state example_general)) in
  let new := example_snapshot "1000.1" "2000.1" in
  let st' := cel_channel_linkedid_change (Some alice) (Some new) st in
  linkedids st' !! "2000.1" = Some 2
  /\ linkedids st' !! "1000.1" = None
  /\ fanout st'
     = (fanout st ++ [reported st alice AST_CEL_LINKEDID_END None None])%list.
Proof.
  intros st new st'.
  assert (Hg : current_general st = Some example_general)
    by (vm_compute; reflexivity).
  assert (Hcmp : strcmp (linkedid alice) (linkedid new) <> 0)
    by (vm_compute; discriminate).
  assert (Hl : linkedids st !! linkedid alice = Some 2)
    by (vm_compute; reflexivity).
  destruct (cel_channel_linkedid_change_moves_reference alice new st
              example_general 2 Hg eq_refl eq_refl Hcmp
              ltac:(discriminate) ltac:(discriminate) Hl)
    as (H1 & H2 & _).
  destruct (H2 eq_refl) as [H21 H22].
  split; [|split; [exact H21 | exact H22]].
  etransitivity; [exact H1|]. vm_compute. reflexivity.
Defined.

Lemma channel_start_then_end_restores_tracker_witness :
  let st := example_state example_general in
  let st1 := cel_snapshot_update_cb (mk_cache_update true None (Some alice)) st in
  let st2 := cel_snapshot_update_cb (mk_cache_update true (Some alice) None) st1 in
  linkedids st1 !! "1000.1" = Some 2
  /\ fanout st2
     = (fanout st
        ++ [ reported st alice AST_CEL_CHANNEL_START None None;
             reported st alice AST_CEL_CHANNEL_END None None;
             reported st alice AST_CEL_LINKEDID_END None None ])%list
  /\ linkedids st2 = linkedids st.
Proof.
  intros st st1 st2.
  assert (Hf : cel_filter_channel_snapshot (Some alice) = 0)
    by (vm_compute; reflexivity).
  assert (Hl : linkedids st !! linkedid alice = None)
    by (vm_compute; reflexivity).
  apply (channel_start_then_end_restores_tracker alice st example_general
           example_state_general eq_refl eq_refl eq_refl eq_refl Hf eq_refl
           ltac:(discriminate) Hl).
Defined.

Lemma example_state_counted : linkedids_counted (example_state example_general).
Proof.
  intros lid refs Hl.
  change (linkedids (example_state example_general))
    with (∅ : gmap string Z) in Hl.
  rewrite lookup_empty in Hl. discriminate.
Defined.

Lemma example_state_keyed : dialstatus_store_keyed (example_state example_general).
Proof.
  intros key b Hb.
  change (cel_dialstatus_store (example_state example_general))
    with (∅ : gmap string ast_multi_channel_blob) in Hb.
  rewrite lookup_empty in Hb. discriminate.
Defined.

Lemma tracker_entries_stay_counted_witness :
  linkedids_counted
    (cel_run [ MsgCacheUpdate (channel_update None (Some alice));
               MsgCacheUpdate (channel_update None (Some bob));
               MsgDial (dial_blob alice "BUSY");
               MsgCacheUpdate (channel_update (Some alice) None) ]
       (example_state example_general)).
Proof. apply tracker_entries_stay_counted, example_state_counted. Defined.

(** A run with an attended transfer between two dial envelopes. *)
Lemma dialstatus_store_stays_keyed_witness :
  match cel_route_run
          [ Routed (MsgCacheUpdate (channel_update None (Some alice)));
            Routed (MsgDial (dial_blob alice "BUSY"));
            MsgAttendedTransfer example_transfer;
            Routed (MsgDial (dial_blob bob "")) ]
          (example_state example_general)
  with
  | Some st' => dialstatus_store_keyed st'
  | None => False
  end.
Proof.
  destruct (cel_route_run _ (example_state example_general)) as [st'|] eqn:Hrun.
  - exact (dialstatus_store_stays_keyed _ _ st' example_state_keyed Hrun).
  - vm_compute in Hrun. discriminate.
Defined.

Lemma routed_messages_keep_witness :
  let st := example_state example_general in
  let msgs := [ Routed (MsgPickup pickup_blob);
                MsgAttendedTransfer example_transfer;
                Routed (MsgDial (dial_blob alice "BUSY")) ] in
  match cel_route_run msgs st with
  | Some st' =>
      cel_backends st' = cel_backends st /\ linkedids st' = linkedids st
  | None => False
  end.
Proof.
  intros st msgs.
  destruct (cel_route_run msgs st) as [st'|] eqn:Hrun.
  - destruct (routed_messages_keep msgs st) as [_ Hkeep].
    destruct (Hkeep st' Hrun) as ((_ & H2 & _) & H4 & _).
    split; [exact H2|]. apply H4. repeat constructor.
  - vm_compute in Hrun. discriminate.
Defined.

Lemma cel_dial_cb_decision_witness :
  let st := example_state example_general in
  let blob :=
    mk_multi_channel_blob [("caller", alice)]
      (Some (JObj [("forward", JStr "200"); ("dialstatus", JStr "BUSY")])) in
  fanout (cel_dial_cb blob st)
  = (fanout st
     ++ [reported st alice AST_CEL_FORWARD None
           (Some (JObj [("forward", JStr "200")]))])%list
  /\ cel_dialstatus_store (cel_dial_cb blob st) !! "1000.1" = Some blob.
Proof.
  intros st blob.
  assert (Hc : ast_multi_channel_blob_get_channel blob "caller" = Some alice)
    by (vm_compute; reflexivity).
  assert (Hf : cel_filter_channel_snapshot (Some alice) = 0)
    by (vm_compute; reflexivity).
  destruct (cel_dial_cb_decision blob alice st example_general Hc Hf
              example_state_general eq_refl eq_refl) as (H1 & H2 & _).
  split; [exact H1|]. rewrite H2. vm_compute. reflexivity.
Defined.

Lemma published_user_event_is_reported_witness :
  let st := example_state example_general in
  let details := JObj [("event", JStr "survey"); ("extra", JObj [])] in
  fanout (cel_generic_cb
            (ast_cel_publish_event alice AST_CEL_USER_DEFINED (Some details)) st)
  = (fanout st
     ++ [reported st alice AST_CEL_USER_DEFINED (Some "survey")
           (Some (JObj []))])%list
  /\ cel_generic_cb (ast_cel_publish_event alice AST_CEL_HANGUP (Some details))
       st = st.
Proof.
  intros st details.
  destruct (published_user_event_is_reported alice "survey" (JObj []) st
              example_general example_state_general eq_refl eq_refl)
    as (H1 & _ & _ & _ & _ & H6 & _).
  split; [exact H1|].
  apply (H6 AST_CEL_HANGUP (Some details));
    [vm_compute; split; [discriminate | reflexivity]
    |vm_compute; discriminate].
Defined.

Lemma cel_blind_transfer_cb_decision_witness :
  let st := example_state example_general in
  let obj :=
    mk_bridge_blob (mk_bridge_snapshot "bridge-1") alice
      (Some (JObj [ ("result", JInt 0); ("exten", JStr "200");
                    ("context", JStr "default") ])) in
  fanout (cel_blind_transfer_cb obj st)
  = (fanout st
     ++ [reported st alice AST_CEL_BLINDTRANSFER None
           (Some (JObj [ ("extension", JStr "200");
                         ("context", JStr "default");
                         ("bridge_id", JStr "bridge-1") ]))])%list.
Proof.
  intros st obj.
  exact (cel_blind_transfer_cb_decision obj st example_general
           example_state_general eq_refl eq_refl).
Defined.

Lemma cel_attended_transfer_cb_sides_witness :
  let st := example_state example_general in
  cel_attended_transfer_cb
    (mk_attended_transfer
       (mk_snapshot_pair (Some (mk_bridge_snapshot "bridge-1")) (Some alice))
       (mk_snapshot_pair (Some (mk_bridge_snapshot "bridge-2")) (Some bob))
       AST_ATTENDED_TRANSFER_DEST_LINK "") st
  = Some (distribute
            (ast_cel_create_event (tvnow st) alice AST_CEL_ATTENDEDTRANSFER
               None
               (Some (JObj [ ("bridge1_id", JStr "bridge-1");
                             ("channel2_name", JStr (name bob));
                             ("bridge2_id", JStr "bridge-2") ])))
            st).
Proof.
  intros st.
  destruct (cel_attended_transfer_cb_sides (mk_bridge_snapshot "bridge-1")
              (mk_bridge_snapshot "bridge-2") alice bob "" st example_general
              example_state_general eq_refl eq_refl) as (H1 & _).
  apply H1. right. now left.
Defined.

Lemma cel_attended_transfer_cb_null_bridge_witness :
  cel_attended_transfer_cb
    (mk_attended_transfer
       (mk_snapshot_pair None (Some alice))
       (mk_snapshot_pair (Some (mk_bridge_snapshot "bridge-2")) (Some bob))
       AST_ATTENDED_TRANSFER_DEST_LINK "")
    (example_state example_general) = None.
Proof.
  apply cel_attended_transfer_cb_null_bridge; [reflexivity|].
  right. now left.
Defined.

Lemma ast_cel_set_config_effect_witness :
  let off := mk_general false "" (-1) ∅ in
  exists st',
    ast_cel_set_config (Some off) (example_state example_general) = Some st'
    /\ ast_cel_get_config st' = Some off
    /\ cel_report_event alice AST_CEL_HANGUP None None st' = (0, st').
Proof.
  intros off.
  destruct (ast_cel_set_config_effect (Some off) (example_state example_general))
    as [_ H2].
  destruct (H2 ltac:(vm_compute; discriminate))
    as (st' & H21 & H22 & _ & _ & _ & _ & H27).
  exists st'. split; [exact H21|]. split; [exact H22|].
  apply H27. right. exists off. now split.
Defined.

Lemma fabricated_channel_of_created_event_witness :
  exists chan,
    ast_cel_fabricate_channel_from_event
      (ast_cel_create_event (mk_timeval 1700000000 250) alice AST_CEL_HANGUP
         None None)
      (example_state example_general) = Some chan
    /\ getvar (varshead chan) "eventtype" = Some "HANGUP"
    /\ getvar (varshead chan) "eventtime" = Some "1700000000.000250"
    /\ chan_name chan = name alice
    /\ chan_peeraccount chan = "acct".
Proof.
  destruct (fabricated_channel_of_created_event (mk_timeval 1700000000 250)
              alice AST_CEL_HANGUP None None (example_state example_general)
              example_general example_state_general
              ltac:(vm_compute; split; [discriminate | reflexivity]))
    as (chan & H1 & _ & _ & H4 & _ & _ & _ & H8 & _ & H10 & _ & H12).
  exists chan. split; [exact H1|]. split; [exact H4|].
  split; [rewrite H8; vm_compute; reflexivity|].
  split; [congruence | exact H12].
Defined.

Lemma handle_cli_status_output_witness :
  handle_cli_status CLI_HANDLER 4 (example_state example_general)
  = CLI_SHOWUSAGE
  /\ exists app_lines backend_lines,
       handle_cli_status CLI_HANDLER 3
         (example_state (mk_general true "" (Z.shiftl 1 AST_CEL_HANGUP) ∅))
       = CLI_SUCCESS
           ([ "CEL Logging: Enabled" +:+ newline;
              "CEL Tracking Event: HANGUP" +:+ newline ]
            ++ app_lines ++ backend_lines)%list
       /\ ~ "CEL Tracking Application: dial" +:+ newline ∈ app_lines
       /\ "CEL Event Subscriber: cel_manager" +:+ newline ∈ backend_lines.
Proof.
  destruct (handle_cli_status_output 4 (example_state example_general))
    as (H1 & _).
  split; [apply H1; lia|].
  destruct (handle_cli_status_output 3
              (example_state (mk_general true "" (Z.shiftl 1 AST_CEL_HANGUP) ∅)))
    as (_ & _ & H3).
  destruct (H3 ltac:(lia) (mk_general true "" (Z.shiftl 1 AST_CEL_HANGUP) ∅)
              ltac:(vm_compute; reflexivity) eq_refl)
    as (app_lines & backend_lines & Hr & Happs & Hbackends).
  exists app_lines, backend_lines. split; [exact Hr|]. split.
  - intros Hin. apply Happs in Hin as (app & Hin & _).
    now apply not_elem_of_empty in Hin.
  - apply Hbackends. exists "cel_manager", 1%nat.
    split; [vm_compute|]; reflexivity.
Defined.

Lemma loaded_options_pre_apply_witness :
  cel_pre_apply_config
    (mk_cel_config
       (Some (snd (apps_handler "Dial"
                     (snd (events_handler "HANGUP" (mk_general true "" 0 ∅)))))))
  = -1.
Proof.
  apply (loaded_options_pre_apply "HANGUP" "Dial" (mk_general true "" 0 ∅)).
  - vm_compute. reflexivity.
  - split.
    { right. exists "Dial". split; [vm_compute; left | vm_compute; reflexivity]. }
    split; [reflexivity|]. split; [reflexivity|].
    intros tok Ht Hn.
    assert (Htoks : strsep_all "," "HANGUP" = ["HANGUP"])
      by (vm_compute; reflexivity).
    rewrite Htoks in Ht. apply list_elem_of_singleton in Ht. subst tok.
    vm_compute. repeat split; discriminate.
Defined.

Lemma reports_reach_registered_backends_witness :
  let st := example_state example_general in
  let st1 := snd (ast_cel_backend_register (Some "cel_custom") 7%nat st) in
  let st2 := snd (cel_report_event alice AST_CEL_HANGUP None None st1) in
  fst (ast_cel_backend_unregister "cel_custom" st2) = 0.
Proof.
  intros st st1 st2.
  destruct (reports_reach_registered_backends "cel_custom" 7%nat alice
              AST_CEL_HANGUP None None st example_general
              ltac:(discriminate) example_state_general eq_refl
              ltac:(vm_compute; split; congruence) eq_refl
              ltac:(vm_compute; discriminate) ltac:(vm_compute; discriminate)
              ltac:(vm_compute; discriminate)) as [H1 _].
  exact H1.
Defined.

(** Two dial envelopes for the same caller with a bridge entry between
    them and an attended transfer after them, then the hangup of the
    caller: the hangup carries the status of the second envelope. *)
Lemma hangup_carries_stored_dialstatus_witness :
  let msgs :=
    [ Routed (MsgDial (dial_blob alice "NOANSWER"));
      Routed (MsgEnteredBridge
                (mk_bridge_blob (mk_bridge_snapshot "bridge-1") alice None));
      Routed (MsgDial (dial_blob alice "BUSY"));
      MsgAttendedTransfer example_transfer ] in
  match cel_route_run msgs (example_state example_general) with
  | Some st =>
      let st' :=
        cel_channel_state_change (Some alice) (Some (dead_chan alice)) st in
      cel_dialstatus_store st !! "1000.1" = Some (dial_blob alice "BUSY")
      /\ fanout st'
         = (fanout st
            ++ [reported st (dead_chan alice) AST_CEL_HANGUP None
                  (Some (JObj [ ("hangupcause",
                                 JInt (hangupcause (dead_chan alice)));
                                ("hangupsource",
                                 JStr (hangupsource (dead_chan alice)));
                                ("dialstatus", JStr "BUSY") ]))])%list
      /\ cel_dialstatus_store st' !! "1000.1" = None
  | None => False
  end.
Proof.
  intros msgs.
  destruct (cel_route_run msgs (example_state example_general)) as [st|] eqn:Hrun.
  2:{ vm_compute in Hrun. discriminate. }
  assert (Hg : current_general st = Some example_general).
  { destruct (route_run_appends_only _ _ _ Hrun) as (Hc & _).
    unfold current_general. rewrite Hc. vm_compute. reflexivity. }
  assert (Hold : ast_test_flag (flags alice) AST_FLAG_DEAD = 0)
    by (vm_compute; reflexivity).
  assert (Hnew : ast_test_flag (flags (dead_chan alice)) AST_FLAG_DEAD <> 0)
    by (vm_compute; discriminate).
  pose proof (hangup_carries_stored_dialstatus msgs
                (example_state example_general) st alice (dead_chan alice)
                example_general Hrun Hg eq_refl eq_refl Hold Hnew)
    as (H1 & H2 & H3 & _ & H5 & _).
  assert (Hs : stores_envelope (uniqueid (dead_chan alice))
                 (dial_blob alice "BUSY") = true)
    by (vm_compute; reflexivity).
  assert (Hd : get_blob_variable (dial_blob alice "BUSY") "dialstatus"
               = Some "BUSY") by (vm_compute; reflexivity).
  destruct (H5 [ Routed (MsgDial (dial_blob alice "NOANSWER"));
                 Routed (MsgEnteredBridge
                           (mk_bridge_blob (mk_bridge_snapshot "bridge-1")
                              alice None)) ]
               (dial_blob alice "BUSY")
               [ MsgAttendedTransfer example_transfer ] "BUSY"
               eq_refl Hs Hd ltac:(repeat constructor)) as [H51 H52].
  split; [now rewrite <- H51|]. split.
  - rewrite <- H52. exact H2.
  - rewrite H3. apply lookup_delete_eq.
Defined.

(** An internal channel: its snapshot update and its dial envelope are
    dropped; its pickup leaves the tracker alone; its blind transfer is
    reported. *)
Lemma internal_snapshot_is_dropped_witness :
  let st := example_state example_general in
  let chan := internal_chan alice in
  cel_snapshot_update_cb (mk_cache_update true None (Some chan)) st = st
  /\ cel_dial_cb (dial_blob chan "BUSY") st = st
  /\ linkedids (cel_pickup_cb pickup_blob st) = linkedids st
  /\ fanout (cel_blind_transfer_cb
               (mk_bridge_blob (mk_bridge_snapshot "bridge-1") chan
                  (Some (JObj [ ("result", JInt 0); ("exten", JStr "200");
                                ("context", JStr "default") ]))) st)
     = (fanout st
        ++ [reported st chan AST_CEL_BLINDTRANSFER None
              (Some (JObj [ ("extension", JStr "200");
                            ("context", JStr "default");
                            ("bridge_id", JStr "bridge-1") ]))])%list.
Proof.
  intros st chan.
  assert (Hint : Z.land (tech_properties chan) AST_CHAN_TP_INTERNAL <> 0)
    by (vm_compute; discriminate).
  pose proof (internal_snapshot_is_dropped chan st Hint)
    as ((_ & H2 & _ & _ & H5) & (_ & Hpickup & _) & Hreports).
  destruct (Hreports example_general example_state_general eq_refl)
    as (_ & _ & _ & _ & _ & Hblind & _).
  split; [apply H2|]. split; [apply H5; reflexivity|].
  split; [apply Hpickup|].
  apply (Hblind eq_refl (mk_bridge_snapshot "bridge-1") 0 "200" "default").
  reflexivity.
Defined.

End FurtherExamples.
